(** * Five-Movements-Six-Qi engine and Annual Harmony Index: a shallow embedding

    The development follows the TypeScript sources of the repository:
    [server.ts] (the stand-alone server), and the two other server variants
    kept next to it, one with sessions and history (the session variant
    below) and an earlier one (the early variant).  The three
    share the text of the assignment engine and of the index engine; they
    differ in [fromYear], in the solar-term locator and in the constants of
    the natal base score.  Of the front end, the date fields of the form
    are modelled.

    Conventions of the embedding.
    - A JavaScript [number] holding an integer is a [Z]; the remainder
      operator [%] is [Z.rem] (the sign follows the dividend).
    - A JavaScript [number] holding a score is embedded twice.  In the
      engine and in the route it is a [Q], with exact arithmetic: this
      serves the properties that do not depend on rounding, such as the
      formula of the yearly score, the ranges and the order of the points.
      In the part on doubles it is a binary64 float, each operation
      rounded as the code rounds it: this serves the numbers the route
      emits.  The two agree on which computations fail, and the yearly
      scores differ by at most 10^-14.
    - A JavaScript string is the list of its UTF-16 code units.
    - [undefined] is [None]; reading a property of [undefined] raises
      [TypeError]; a [throw] is an [Err] of the [result] monad.
    - A [Date] is its time value, milliseconds on the local time line; the
      local zone is taken to have a fixed offset, and the limits of the
      time value (TimeClip) are not modelled.
    - The lunisolar calendar library is outside the repository; it enters as
      a function, the almanac. *)

From Stdlib Require Import ZArith QArith Qround Qminmax Lqa Lia List Bool.
From Stdlib Require Floats.
Import ListNotations.

Local Open Scope Z_scope.
#[local] Set Warnings "-inexact-float".

(* ================================================================== *)
(** * JavaScript values                                                *)
(* ================================================================== *)

Module JS.

(** Strings as UTF-16 code units. *)
Definition jsstring := list Z.

Definition string_eqb (a b : jsstring) : bool :=
  if list_eq_dec Z.eq_dec a b then true else false.

(** [s.substring(0, n)] *)
Definition substring0 (n : nat) (s : jsstring) : jsstring := firstn n s.

(** [arr[i]]: [undefined] outside of the array. *)
Definition index {A : Type} (arr : list A) (i : Z) : option A :=
  if i <? 0 then None else nth_error arr (Z.to_nat i).

(** [arr.findIndex(p)]: [-1] when nothing matches. *)
Fixpoint findIndex_from {A : Type} (p : A -> bool) (arr : list A) (k : Z) : Z :=
  match arr with
  | [] => -1
  | x :: rest => if p x then k else findIndex_from p rest (k + 1)
  end.

Definition findIndex {A : Type} (p : A -> bool) (arr : list A) : Z :=
  findIndex_from p arr 0.

(** [arr.includes(x)] on strings. *)
Definition includes (arr : list jsstring) (x : jsstring) : bool :=
  existsb (string_eqb x) arr.

End JS.

(* ================================================================== *)
(** * Errors                                                           *)
(* ================================================================== *)

(** The 24 solar terms, in the order of the table of [getExactJieqi]. *)
Inductive SolarTerm : Type :=
| XiaoHan | DaHan | LiChun | YuShui | JingZhe | ChunFen
| QingMing | GuYu | LiXia | XiaoMan | MangZhong | XiaZhi
| XiaoShu | DaShu | LiQiu | ChuShu | BaiLu | QiuFen
| HanLu | ShuangJiang | LiDong | XiaoXue | DaXue | DongZhi.

Definition SolarTerm_eq_dec (a b : SolarTerm) : {a = b} + {a <> b}.
Proof. decide equality. Defined.

Inductive error : Type :=
| LookupError (year : Z) (term : SolarTerm)  (* the locator found no instant *)
| LibraryError                               (* the calendar library threw *)
| TypeError                                  (* property of undefined *)
| BadRequest.                                (* status 400 of the route *)

Inductive result (A : Type) : Type :=
| Ok (a : A)
| Err (e : error).
Arguments Ok {A} a.
Arguments Err {A} e.

Definition bind {A B : Type} (c : result A) (k : A -> result B) : result B :=
  match c with
  | Ok a => k a
  | Err e => Err e
  end.

Declare Scope result_scope.
Delimit Scope result_scope with result.
Notation "x <- c ;; k" := (bind c (fun x => k))
  (at level 61, c at next level, right associativity) : result_scope.
Notation "' pat <- c ;; k" := (bind c (fun x => match x with pat => k end))
  (at level 61, pat pattern, c at next level, right associativity) : result_scope.

(** Reading a property of a possibly undefined value. *)
Definition defined {A : Type} (o : option A) : result A :=
  match o with
  | Some a => Ok a
  | None => Err TypeError
  end.

(** [arr.map(f)] where [f] may throw: the first failure aborts the map. *)
Fixpoint mapM {A B : Type} (f : A -> result B) (l : list A) : result (list B) :=
  match l with
  | [] => Ok []
  | x :: rest =>
      (y <- f x ;; ys <- mapM f rest ;; Ok (y :: ys))%result
  end.

(* ================================================================== *)
(** * 1. Domain tables                                                 *)
(* ================================================================== *)

Inductive Element : Type := WOOD | FIRE | EARTH | METAL | WATER.

Definition Element_eq_dec (a b : Element) : {a = b} + {a <> b}.
Proof. decide equality. Defined.

Definition Element_eqb (a b : Element) : bool :=
  if Element_eq_dec a b then true else false.

Definition ElementGeneration (e : Element) : Element :=
  match e with
  | WOOD => FIRE
  | FIRE => EARTH
  | EARTH => METAL
  | METAL => WATER
  | WATER => WOOD
  end.

Definition ElementOvercomes (e : Element) : Element :=
  match e with
  | WOOD => EARTH
  | EARTH => WATER
  | WATER => FIRE
  | FIRE => METAL
  | METAL => WOOD
  end.

Definition ElementOvercomer (e : Element) : Element :=
  match e with
  | WOOD => METAL
  | METAL => FIRE
  | FIRE => WATER
  | WATER => EARTH
  | EARTH => WOOD
  end.

Inductive Adequacy : Type := EXCESS | DEFICIENCY.

Definition Adequacy_eqb (a b : Adequacy) : bool :=
  match a, b with
  | EXCESS, EXCESS | DEFICIENCY, DEFICIENCY => true
  | _, _ => false
  end.

(** ** Heavenly stems *)

Module HeavenlyStem.

Inductive t : Type := JIA | YI | BING | DING | WU | JI | GENG | XIN | REN | GUI.

Definition index (s : t) : Z :=
  match s with
  | JIA => 0 | YI => 1 | BING => 2 | DING => 3 | WU => 4
  | JI => 5 | GENG => 6 | XIN => 7 | REN => 8 | GUI => 9
  end.

Definition char (s : t) : JS.jsstring :=
  match s with
  | JIA => [0x7532] | YI => [0x4E59] | BING => [0x4E19] | DING => [0x4E01]
  | WU => [0x620A] | JI => [0x5DF1] | GENG => [0x5E9A] | XIN => [0x8F9B]
  | REN => [0x58EC] | GUI => [0x7678]
  end.

Definition element (s : t) : Element :=
  match s with
  | JIA => EARTH | YI => METAL | BING => WATER | DING => WOOD | WU => FIRE
  | JI => EARTH | GENG => METAL | XIN => WATER | REN => WOOD | GUI => FIRE
  end.

Definition adequacy (s : t) : Adequacy :=
  match s with
  | JIA | BING | WU | GENG | REN => EXCESS
  | YI | DING | JI | XIN | GUI => DEFICIENCY
  end.

Definition list : list t := [JIA; YI; BING; DING; WU; JI; GENG; XIN; REN; GUI].

(** [server.ts] and the early variant: [this.list()[(year - 4) % 10]]. *)
Definition fromYear (year : Z) : option t :=
  JS.index list (Z.rem (year - 4) 10).

(** The session variant: [this.list()[((year - 4) % 10 + 10) % 10]]. *)
Definition fromYear_nonneg (year : Z) : option t :=
  JS.index list (Z.rem (Z.rem (year - 4) 10 + 10) 10).

End HeavenlyStem.

(** ** Earthly branches *)

Module EarthlyBranch.

Inductive t : Type :=
| ZI | CHOU | YIN | MAO | CHEN | SI | WU | WEI | SHEN | YOU | XU | HAI.

Definition index (b : t) : Z :=
  match b with
  | ZI => 0 | CHOU => 1 | YIN => 2 | MAO => 3 | CHEN => 4 | SI => 5
  | WU => 6 | WEI => 7 | SHEN => 8 | YOU => 9 | XU => 10 | HAI => 11
  end.

Definition char (b : t) : JS.jsstring :=
  match b with
  | ZI => [0x5B50] | CHOU => [0x4E11] | YIN => [0x5BC5] | MAO => [0x536F]
  | CHEN => [0x8FB0] | SI => [0x5DF3] | WU => [0x5348] | WEI => [0x672A]
  | SHEN => [0x7533] | YOU => [0x9149] | XU => [0x620C] | HAI => [0x4EA5]
  end.

Definition element (b : t) : Element :=
  match b with
  | ZI => WATER | CHOU => EARTH | YIN => WOOD | MAO => WOOD
  | CHEN => EARTH | SI => FIRE | WU => FIRE | WEI => EARTH
  | SHEN => METAL | YOU => METAL | XU => EARTH | HAI => WATER
  end.

Definition list : list t :=
  [ZI; CHOU; YIN; MAO; CHEN; SI; WU; WEI; SHEN; YOU; XU; HAI].

(** [server.ts] and the early variant: [this.list()[(year - 4) % 12]]. *)
Definition fromYear (year : Z) : option t :=
  JS.index list (Z.rem (year - 4) 12).

(** The session variant: [this.list()[((year - 4) % 12 + 12) % 12]]. *)
Definition fromYear_nonneg (year : Z) : option t :=
  JS.index list (Z.rem (Z.rem (year - 4) 12 + 12) 12).

End EarthlyBranch.

(** ** The six qi *)

Module QiType.

Inductive t : Type :=
| WEAK_YIN_WOOD | MILD_YIN_FIRE | WEAK_YANG_FIRE
| DOMINANT_YIN_EARTH | MILD_YANG_METAL | DOMINANT_YANG_WATER.

Definition display_name (q : t) : JS.jsstring :=
  match q with
  | WEAK_YIN_WOOD => [0x53A5; 0x9634; 0x98CE; 0x6728]
  | MILD_YIN_FIRE => [0x5C11; 0x9634; 0x541B; 0x706B]
  | WEAK_YANG_FIRE => [0x5C11; 0x9633; 0x76F8; 0x706B]
  | DOMINANT_YIN_EARTH => [0x592A; 0x9634; 0x6E7F; 0x571F]
  | MILD_YANG_METAL => [0x9633; 0x660E; 0x71E5; 0x91D1]
  | DOMINANT_YANG_WATER => [0x592A; 0x9633; 0x5BD2; 0x6C34]
  end.

Definition factor (q : t) : JS.jsstring :=
  match q with
  | WEAK_YIN_WOOD => [0x98CE]
  | MILD_YIN_FIRE => [0x70ED]
  | WEAK_YANG_FIRE => [0x706B]
  | DOMINANT_YIN_EARTH => [0x6E7F]
  | MILD_YANG_METAL => [0x71E5]
  | DOMINANT_YANG_WATER => [0x5BD2]
  end.

Definition element (q : t) : Element :=
  match q with
  | WEAK_YIN_WOOD => WOOD
  | MILD_YIN_FIRE => FIRE
  | WEAK_YANG_FIRE => FIRE
  | DOMINANT_YIN_EARTH => EARTH
  | MILD_YANG_METAL => METAL
  | DOMINANT_YANG_WATER => WATER
  end.

Definition list : list t :=
  [WEAK_YIN_WOOD; MILD_YIN_FIRE; WEAK_YANG_FIRE;
   DOMINANT_YIN_EARTH; MILD_YANG_METAL; DOMINANT_YANG_WATER].

(** [previous(qi)]: the entry before [qi] in [list()], found by name. *)
Definition previous (qi : t) : option t :=
  let order := list in
  let idx := JS.findIndex
               (fun q => JS.string_eqb (display_name q) (display_name qi)) order in
  JS.index order (Z.rem (idx - 1 + 6) 6).

(** The predecessor in the cycle WeakYinWood -> MildYinFire -> WeakYangFire
    -> DominantYinEarth -> MildYangMetal -> DominantYangWater -> WeakYinWood,
    as the specification words it. *)
Definition pred (q : t) : t :=
  match q with
  | WEAK_YIN_WOOD => DOMINANT_YANG_WATER
  | MILD_YIN_FIRE => WEAK_YIN_WOOD
  | WEAK_YANG_FIRE => MILD_YIN_FIRE
  | DOMINANT_YIN_EARTH => WEAK_YANG_FIRE
  | MILD_YANG_METAL => DOMINANT_YIN_EARTH
  | DOMINANT_YANG_WATER => MILD_YANG_METAL
  end.

End QiType.

(* ================================================================== *)
(** * JavaScript dates                                                 *)
(* ================================================================== *)

(** The Date abstract operations of ECMAScript, on the local time line. *)
Module JSDate.

Definition msPerDay : Z := 86400000.
Definition msPerHour : Z := 3600000.
Definition msPerMinute : Z := 60000.
Definition msPerSecond : Z := 1000.

Definition Day (t : Z) : Z := t / msPerDay.
Definition TimeWithinDay (t : Z) : Z := t mod msPerDay.

Definition isLeap (y : Z) : bool :=
  ((y mod 4 =? 0) && negb (y mod 100 =? 0)) || (y mod 400 =? 0).

Definition DaysInYear (y : Z) : Z := if isLeap y then 366 else 365.

Definition DayFromYear (y : Z) : Z :=
  365 * (y - 1970) + (y - 1969) / 4 - (y - 1901) / 100 + (y - 1601) / 400.

(** [YearFromTime]: the largest [y] with [DayFromYear y <= Day t].  The
    estimate from the mean year length is off by at most one. *)
Definition YearFromDay (n : Z) : Z :=
  let y0 := 1970 + (400 * n) / 146097 in
  if n <? DayFromYear y0 then y0 - 1
  else if DayFromYear (y0 + 1) <=? n then y0 + 1
  else y0.

Definition YearFromTime (t : Z) : Z := YearFromDay (Day t).

(** Days of the year before month [m] (0-based). *)
Definition daysBeforeMonth (leap : bool) (m : Z) : Z :=
  let l := if leap then 1 else 0 in
  match m with
  | 0 => 0
  | 1 => 31
  | 2 => 59 + l
  | 3 => 90 + l
  | 4 => 120 + l
  | 5 => 151 + l
  | 6 => 181 + l
  | 7 => 212 + l
  | 8 => 243 + l
  | 9 => 273 + l
  | 10 => 304 + l
  | _ => 334 + l
  end.

Definition MakeTime (hour min sec ms : Z) : Z :=
  hour * msPerHour + min * msPerMinute + sec * msPerSecond + ms.

Definition MakeDay (year month date : Z) : Z :=
  let ym := year + month / 12 in
  let mn := month mod 12 in
  DayFromYear ym + daysBeforeMonth (isLeap ym) mn + date - 1.

Definition MakeDate (day time : Z) : Z := day * msPerDay + time.

(** [new Date(year, monthIndex, day, hours, minutes, seconds)]: a year from
    0 to 99 stands for 1900 + year. *)
Definition make (year monthIndex day hours minutes seconds : Z) : Z :=
  let yr := if (0 <=? year) && (year <=? 99) then 1900 + year else year in
  MakeDate (MakeDay yr monthIndex day) (MakeTime hours minutes seconds 0).

Definition getFullYear (t : Z) : Z := YearFromTime t.

(** [d.setDate(d.getDate() + k)]: the same time of day, [k] days later
    ([MakeDay] of the year, the month and the date plus [k] is the day
    number plus [k]). *)
Definition addDays (t k : Z) : Z := t + k * msPerDay.

(** The fields of a civil date and time, as calendar libraries report
    them (the month counted from 1). *)
Definition civil_fields (month day hour minute second : Z) : Prop :=
  1 <= month <= 12 /\ 1 <= day <= 31 /\
  0 <= hour <= 23 /\ 0 <= minute <= 59 /\ 0 <= second <= 59.

End JSDate.

(* ================================================================== *)
(** * 2. Solar term locator                                            *)
(* ================================================================== *)

(** ** The calendar library

    [Solar.fromYmd(y, m, d).getLunar().getJieQiTable()[termName]] either
    throws, or has no entry of that name, or gives a solar date and time. *)

Record Solar : Type := mkSolar {
  getYear : Z;
  getMonth : Z;      (* 1 to 12 *)
  getDay : Z;
  getHour : Z;
  getMinute : Z;
  getSecond : Z
}.

Inductive lookup : Type :=
| Raised
| Absent
| Found (term : Solar).

Definition Almanac : Type := Z -> Z -> Z -> SolarTerm -> lookup.

(** The solar dates of a well-behaved library have civil fields. *)
Definition Solar_wf (s : Solar) : Prop :=
  JSDate.civil_fields (getMonth s) (getDay s) (getHour s) (getMinute s) (getSecond s).

Definition Almanac_wf (alm : Almanac) : Prop :=
  forall y m d t s, alm y m d t = Found s -> Solar_wf s.

(** [new Date(o.getYear(), o.getMonth() - 1, o.getDay(), o.getHour(),
    o.getMinute(), o.getSecond())] *)
Definition toDate (o : Solar) : Z :=
  JSDate.make (getYear o) (getMonth o - 1) (getDay o)
              (getHour o) (getMinute o) (getSecond o).

Module AstronomyEngine.

(** *** [server.ts] and the early variant *)
Module Simple.

Definition termMonths (termName : SolarTerm) : Z :=
  match termName with
  | XiaoHan | DaHan => 1
  | LiChun | YuShui => 2
  | JingZhe | ChunFen => 3
  | QingMing | GuYu => 4
  | LiXia | XiaoMan => 5
  | MangZhong | XiaZhi => 6
  | XiaoShu | DaShu => 7
  | LiQiu | ChuShu => 8
  | BaiLu | QiuFen => 9
  | HanLu | ShuangJiang => 10
  | LiDong | XiaoXue => 11
  | DaXue | DongZhi => 12
  end.

Definition testDays : list Z := [15; 5; 25].

(** The loop over [testDays]: stop at the first entry that is there. *)
Fixpoint probeDays (alm : Almanac) (year m : Z) (termName : SolarTerm)
         (days : list Z) : result (option Solar) :=
  match days with
  | [] => Ok None
  | d :: rest =>
      match alm year m d termName with
      | Raised => Err LibraryError
      | Found jieqiObj => Ok (Some jieqiObj)
      | Absent => probeDays alm year m termName rest
      end
  end.

Definition getExactJieqi (alm : Almanac) (year : Z) (termName : SolarTerm)
  : result Z :=
  let m := termMonths termName in
  (jieqiObj <- probeDays alm year m termName testDays ;;
   match jieqiObj with
   | None => Err (LookupError year termName)
   | Some o => Ok (toDate o)
   end)%result.

End Simple.

(** *** The session variant: candidates checked against the year *)
Module Checked.

Definition monthMap (termName : SolarTerm) : option Z :=
  match termName with
  | DaHan => Some 1
  | ChunFen => Some 3
  | XiaoMan => Some 5
  | MangZhong => Some 6
  | DaShu => Some 7
  | ChuShu => Some 8
  | QiuFen => Some 9
  | XiaoXue => Some 11
  | LiDong => Some 11
  | _ => None
  end.

(** [checkMonths], each position after the two adjustments of the loop
    body ([mon < 1] and [mon > 12]). *)
Definition adjust (pos : Z * Z) : Z * Z :=
  let '(y, mon) := pos in
  let '(y, mon) := if mon <? 1 then (y - 1, 12) else (y, mon) in
  if 12 <? mon then (y + 1, 1) else (y, mon).

Definition checkMonths (year m : Z) : list (Z * Z) :=
  [(year, m); (year, m - 1); (year, m + 1); (year - 1, 12)].

Definition allMonths : list Z := [1; 2; 3; 4; 5; 6; 7; 8; 9; 10; 11; 12].

Inductive scan : Type :=
| Hit (term : Solar)   (* [return new Date(...)] *)
| Miss                 (* the loop ran to its end *)
| Thrown.              (* the library threw, caught by the [catch] *)

(** Probe the 15th of each month of the list; accept the first entry
    whose own year is the requested one. *)
Fixpoint scanMonths (alm : Almanac) (year : Z) (termName : SolarTerm)
         (probes : list (Z * Z)) : scan :=
  match probes with
  | [] => Miss
  | (y, mon) :: rest =>
      match alm y mon 15 termName with
      | Raised => Thrown
      | Found term =>
          if getYear term =? year then Hit term
          else scanMonths alm year termName rest
      | Absent => scanMonths alm year termName rest
      end
  end.

Definition getExactJieqi (alm : Almanac) (year : Z) (termName : SolarTerm)
  : result Z :=
  let m := match monthMap termName with Some m => m | None => 6 end in
  match scanMonths alm year termName (map adjust (checkMonths year m)) with
  | Hit term => Ok (toDate term)
  | Thrown => Err (LookupError year termName)
  | Miss =>
      match scanMonths alm year termName
                       (map (fun targetM => (year, targetM)) allMonths) with
      | Hit term => Ok (toDate term)
      | _ => Err (LookupError year termName)
      end
  end.

End Checked.

End AstronomyEngine.

(** A sample almanac: every term at a fixed civil date of the probed year,
    at noon.  It stands for the library where the model is run. *)
Definition sampleDay (termName : SolarTerm) : Z * Z :=
  match termName with
  | XiaoHan => (1, 6) | DaHan => (1, 20) | LiChun => (2, 4) | YuShui => (2, 19)
  | JingZhe => (3, 6) | ChunFen => (3, 21) | QingMing => (4, 5) | GuYu => (4, 20)
  | LiXia => (5, 6) | XiaoMan => (5, 21) | MangZhong => (6, 6) | XiaZhi => (6, 21)
  | XiaoShu => (7, 7) | DaShu => (7, 23) | LiQiu => (8, 8) | ChuShu => (8, 23)
  | BaiLu => (9, 8) | QiuFen => (9, 23) | HanLu => (10, 8) | ShuangJiang => (10, 23)
  | LiDong => (11, 7) | XiaoXue => (11, 22) | DaXue => (12, 7) | DongZhi => (12, 22)
  end.

Definition sampleAlmanac : Almanac :=
  fun y _ _ termName =>
    let '(mon, day) := sampleDay termName in
    Found (mkSolar y mon day 12 0 0).

(* ================================================================== *)
(** * 3. Five movements and six qi                                     *)
(* ================================================================== *)

(** The string values of the two string enums. *)
Definition Element_value (e : Element) : JS.jsstring :=
  match e with
  | WOOD => [0x6728] | FIRE => [0x706B] | EARTH => [0x571F]
  | METAL => [0x91D1] | WATER => [0x6C34]
  end.

Definition Adequacy_value (a : Adequacy) : JS.jsstring :=
  match a with
  | EXCESS => [0x592A; 0x8FC7]
  | DEFICIENCY => [0x4E0D; 0x53CA]
  end.

Record ClimaticEffect : Type := mkEffect {
  celestial : QiType.t;
  terrestrial : QiType.t
}.

Record Fortune : Type := mkFortune {
  step : Z;
  element : Element;
  adequacy : Adequacy
}.

Module WuYunLiuQi.

Record t : Type := mk {
  targetDate : Z;
  wuyunYear : Z;
  stem : option HeavenlyStem.t;
  branch : option EarthlyBranch.t
}.

(** The loop of [getGuestFortunes], [n] rounds from index [i]. *)
Fixpoint guestLoop (n : nat) (i : Z) (currentElement : Element)
         (currentAdequacy : Adequacy) : list Fortune :=
  match n with
  | O => []
  | S n' =>
      mkFortune (i + 1) currentElement currentAdequacy
      :: guestLoop n' (i + 1) (ElementGeneration currentElement)
           (if Adequacy_eqb currentAdequacy EXCESS then DEFICIENCY else EXCESS)
  end.

Definition getGuestFortunes (w : t) : result (list Fortune) :=
  (s <- defined (stem w) ;;
   Ok (guestLoop 5 0 (HeavenlyStem.element s) (HeavenlyStem.adequacy s)))%result.

Definition getHostFortunes : list Element := [WOOD; FIRE; EARTH; METAL; WATER].

Definition getYearFortune (w : t) : result (Element * Adequacy * JS.jsstring) :=
  (s <- defined (stem w) ;;
   Ok (HeavenlyStem.element s, HeavenlyStem.adequacy s,
       Element_value (HeavenlyStem.element s) ++ [0x8FD0]
         ++ Adequacy_value (HeavenlyStem.adequacy s)))%result.

Definition mapping : list (list JS.jsstring * (QiType.t * QiType.t)) :=
  [ ([EarthlyBranch.char EarthlyBranch.ZI; EarthlyBranch.char EarthlyBranch.WU],
     (QiType.MILD_YIN_FIRE, QiType.MILD_YANG_METAL));
    ([EarthlyBranch.char EarthlyBranch.CHOU; EarthlyBranch.char EarthlyBranch.WEI],
     (QiType.DOMINANT_YIN_EARTH, QiType.DOMINANT_YANG_WATER));
    ([EarthlyBranch.char EarthlyBranch.YIN; EarthlyBranch.char EarthlyBranch.SHEN],
     (QiType.WEAK_YANG_FIRE, QiType.WEAK_YIN_WOOD));
    ([EarthlyBranch.char EarthlyBranch.MAO; EarthlyBranch.char EarthlyBranch.YOU],
     (QiType.MILD_YANG_METAL, QiType.MILD_YIN_FIRE));
    ([EarthlyBranch.char EarthlyBranch.CHEN; EarthlyBranch.char EarthlyBranch.XU],
     (QiType.DOMINANT_YANG_WATER, QiType.DOMINANT_YIN_EARTH));
    ([EarthlyBranch.char EarthlyBranch.SI; EarthlyBranch.char EarthlyBranch.HAI],
     (QiType.WEAK_YIN_WOOD, QiType.WEAK_YANG_FIRE)) ].

(** The loop over [mapping]; falling off its end returns [undefined]. *)
Fixpoint effectLoop (char : JS.jsstring)
         (items : list (list JS.jsstring * (QiType.t * QiType.t)))
  : option ClimaticEffect :=
  match items with
  | [] => None
  | (branches, effects) :: rest =>
      if JS.includes branches char
      then Some (mkEffect (fst effects) (snd effects))
      else effectLoop char rest
  end.

Definition getClimaticEffect (w : t) : result (option ClimaticEffect) :=
  (b <- defined (branch w) ;;
   Ok (effectLoop (EarthlyBranch.char b) mapping))%result.

(** [getGuestQiSequence]; [QiType.previous] never leaves the table (lemma
    [QiType_previous_pred] below), its result is read as a defined value. *)
Definition getGuestQiSequence (w : t) : result (list QiType.t) :=
  (e <- getClimaticEffect w ;;
   effect <- defined e ;;
   let st := celestial effect in
   let zq := terrestrial effect in
   st1 <- defined (QiType.previous st) ;;
   st2 <- defined (QiType.previous st1) ;;
   zq1 <- defined (QiType.previous zq) ;;
   zq2 <- defined (QiType.previous zq1) ;;
   Ok [st2; st1; st; zq2; zq1; zq])%result.

(** The search of the step, a loop over [i] from 0 below [n] that stops at
    the first [i] with [target >= bounds[i] && target < bounds[i + 1]] and
    otherwise leaves [step] at its initial value.  A comparison with
    [undefined] is false. *)
Fixpoint stepLoop (target : Z) (bounds : list Z) (rounds : nat) (i : Z) (step : Z) : Z :=
  match rounds with
  | O => step
  | S rounds' =>
      match JS.index bounds i, JS.index bounds (i + 1) with
      | Some lo, Some hi =>
          if (lo <=? target) && (target <? hi) then i
          else stepLoop target bounds rounds' (i + 1) step
      | _, _ => stepLoop target bounds rounds' (i + 1) step
      end
  end.

Definition findStep (target : Z) (bounds : list Z) (n : nat) (initial : Z) : Z :=
  stepLoop target bounds n 0 initial.

Definition termOffsets : list (SolarTerm * Z) :=
  [(DaHan, 0); (ChunFen, 13); (MangZhong, 10); (ChuShu, 7); (LiDong, 4)].

(** The bounds of the six qi steps. *)
Definition qiTerms : list SolarTerm :=
  [DaHan; ChunFen; XiaoMan; DaShu; QiuFen; XiaoXue; DaHan].

(** The elements of an array with their indices, for [arr.map((t, i) => ...)]. *)
Definition indexed {A : Type} (arr : list A) : list (A * Z) :=
  combine arr (map Z.of_nat (seq 0 (length arr))).

Section Engine.

(** The three places where the variants differ. *)
Variable getExactJieqi : Z -> SolarTerm -> result Z.
Variable stemFromYear : Z -> option HeavenlyStem.t.
Variable branchFromYear : Z -> option EarthlyBranch.t.

(** [constructor(dateObj)] *)
Definition new (dateObj : Z) : result t :=
  (currentYearDahan <- getExactJieqi (JSDate.getFullYear dateObj) DaHan ;;
   let wuyunYear :=
     if dateObj <? currentYearDahan
     then JSDate.getFullYear dateObj - 1
     else JSDate.getFullYear dateObj in
   Ok (mk dateObj wuyunYear (stemFromYear wuyunYear) (branchFromYear wuyunYear))
  )%result.

Definition startDates (w : t) : result (list Z) :=
  (ds <- mapM (fun '(term, offset) =>
                 d <- getExactJieqi (wuyunYear w) term ;;
                 Ok (JSDate.addDays d offset)) termOffsets ;;
   last <- getExactJieqi (wuyunYear w + 1) DaHan ;;
   Ok (ds ++ [last]))%result.

Definition qiBounds (w : t) : result (list Z) :=
  mapM (fun '(t, i) => getExactJieqi (wuyunYear w + (if i =? 6 then 1 else 0)) t)
       (indexed qiTerms).

Definition getCurrentFortuneEnums (w : t) : result (Element * Element) :=
  (sd <- startDates w ;;
   let step := findStep (targetDate w) sd 5 4 in
   host <- defined (JS.index getHostFortunes step) ;;
   gf <- getGuestFortunes w ;;
   guest <- defined (JS.index gf step) ;;
   Ok (host, element guest))%result.

Definition getCurrentQiEnums (w : t) : result (QiType.t * QiType.t) :=
  (bounds <- qiBounds w ;;
   let step := findStep (targetDate w) bounds 6 5 in
   let hostQis := QiType.list in
   host <- defined (JS.index hostQis step) ;;
   gs <- getGuestQiSequence w ;;
   guest <- defined (JS.index gs step) ;;
   Ok (host, guest))%result.

(** [getCurrentFortune]: step index, host, guest (the formatted start
    date is left out). *)
Definition getCurrentFortune (w : t) : result (Z * Element * JS.jsstring) :=
  (sd <- startDates w ;;
   let step := findStep (targetDate w) sd 5 4 in
   h <- defined (JS.index getHostFortunes step) ;;
   gf <- getGuestFortunes w ;;
   g <- defined (JS.index gf step) ;;
   Ok (step + 1, h, Element_value (element g) ++ Adequacy_value (adequacy g))
  )%result.

(** [getCurrentQi]: step index, host, guest (the formatted range of
    dates is left out). *)
Definition getCurrentQi (w : t) : result (Z * JS.jsstring * JS.jsstring) :=
  (bounds <- qiBounds w ;;
   let step := findStep (targetDate w) bounds 6 5 in
   h <- defined (JS.index QiType.list step) ;;
   gs <- getGuestQiSequence w ;;
   g <- defined (JS.index gs step) ;;
   let paren (q : QiType.t) :=
     QiType.display_name q ++ [0x20; 0x28] ++ QiType.factor q ++ [0x29] in
   Ok (step + 1, paren h, paren g))%result.

End Engine.

End WuYunLiuQi.

(* ================================================================== *)
(** * 4. Annual Harmony Index                                          *)
(* ================================================================== *)

Module AHIEngine.

Record t : Type := mk {
  birthDt : Z;
  natalCalc : WuYunLiuQi.t;
  natalSuiYun : Element;
  natalAdequacy : Adequacy;
  strongZang : Element;
  weakZang : Element;
  birthHostYun : Element;
  birthHostQi : QiType.t;
  birthGuestQi : QiType.t;
  baseScore : Z
}.

(** [_calcBaseScore], with the constants of [server.ts] and of the session
    variant. *)
Definition _calcBaseScore (birthHostQi birthGuestQi : QiType.t) : Z :=
  let score := 50 in
  let hEl := QiType.element birthHostQi in
  let gEl := QiType.element birthGuestQi in
  let score :=
    if Element_eqb (ElementGeneration gEl) hEl
       || Element_eqb (ElementGeneration hEl) gEl
       || Element_eqb gEl hEl
    then score + 10
    else if Element_eqb (ElementOvercomes hEl) gEl then score - 15
    else if Element_eqb (ElementOvercomes gEl) hEl then score - 10
    else score in
  let score :=
    if JS.string_eqb (QiType.display_name birthGuestQi)
                     (QiType.display_name QiType.MILD_YIN_FIRE)
       && JS.string_eqb (QiType.display_name birthHostQi)
                        (QiType.display_name QiType.WEAK_YANG_FIRE)
    then score + 8
    else if JS.string_eqb (QiType.display_name birthGuestQi)
                          (QiType.display_name QiType.WEAK_YANG_FIRE)
            && JS.string_eqb (QiType.display_name birthHostQi)
                             (QiType.display_name QiType.MILD_YIN_FIRE)
    then score - 8
    else score in
  score.

(** [_calcBaseScore] of the early variant: the same tests, other
    constants. *)
Definition _calcBaseScore_early (birthHostQi birthGuestQi : QiType.t) : Z :=
  let score := 50 in
  let hEl := QiType.element birthHostQi in
  let gEl := QiType.element birthGuestQi in
  let score :=
    if Element_eqb (ElementGeneration gEl) hEl
       || Element_eqb (ElementGeneration hEl) gEl
       || Element_eqb gEl hEl
    then score + 20
    else if Element_eqb (ElementOvercomes hEl) gEl then score - 20
    else if Element_eqb (ElementOvercomes gEl) hEl then score - 10
    else score in
  let score :=
    if JS.string_eqb (QiType.display_name birthGuestQi)
                     (QiType.display_name QiType.MILD_YIN_FIRE)
       && JS.string_eqb (QiType.display_name birthHostQi)
                        (QiType.display_name QiType.WEAK_YANG_FIRE)
    then score + 15
    else if JS.string_eqb (QiType.display_name birthGuestQi)
                          (QiType.display_name QiType.WEAK_YANG_FIRE)
            && JS.string_eqb (QiType.display_name birthHostQi)
                             (QiType.display_name QiType.MILD_YIN_FIRE)
    then score - 15
    else score in
  score.

(** *** The parts of the yearly collision score *)

(** A. the year movement against the natal one. *)
Definition suiYunPts (e : t) (cySuiYun : Element) (cyAdequacy : Adequacy) : Z :=
  let pts := 0 in
  let pts :=
    if Element_eqb cySuiYun (natalSuiYun e) then pts + 25
    else if Element_eqb (ElementGeneration cySuiYun) (natalSuiYun e)
            || Element_eqb (ElementGeneration (natalSuiYun e)) cySuiYun
    then pts + 18
    else if Element_eqb (ElementOvercomes cySuiYun) (natalSuiYun e)
            || Element_eqb (ElementOvercomes (natalSuiYun e)) cySuiYun
    then pts - 22
    else pts in
  let pts :=
    if Adequacy_eqb cyAdequacy EXCESS
       && Element_eqb (ElementOvercomes cySuiYun) (weakZang e)
    then pts - 15 else pts in
  let pts :=
    if Adequacy_eqb cyAdequacy DEFICIENCY
       && Element_eqb (ElementGeneration cySuiYun) (strongZang e)
    then pts + 10 else pts in
  pts.

(** The body of the loop over the guest movements. *)
Definition stepPts (e : t) (gy : Element) : Z :=
  let s := 0 in
  if Element_eqb gy (birthHostYun e) then s + 20
  else if Element_eqb (ElementGeneration gy) (birthHostYun e)
          || Element_eqb (ElementGeneration gy) (weakZang e)
  then s + 15
  else if Element_eqb (ElementOvercomes gy) (birthHostYun e)
          || Element_eqb (ElementOvercomes gy) (weakZang e)
  then s - 25
  else s.

(** [for (const gy of guestYuns) { ...; stepPtsSum += s; }] *)
Definition stepPtsSum (e : t) (guestYuns : list Element) : Z :=
  fold_left (fun stepPtsSum gy => stepPtsSum + stepPts e gy) guestYuns 0.

(** B. the qi of the year against the natal host qi. *)
Definition sqPts1 (e : t) (siTian zaiQuan : QiType.t) : Z :=
  let bhPrefix := JS.substring0 2 (QiType.display_name (birthHostQi e)) in
  let stPrefix := JS.substring0 2 (QiType.display_name siTian) in
  let zqPrefix := JS.substring0 2 (QiType.display_name zaiQuan) in
  let pts := 0 in
  let pts :=
    if JS.string_eqb stPrefix bhPrefix || JS.string_eqb zqPrefix bhPrefix
    then pts + 22 else pts in
  let pts :=
    if Element_eqb (ElementGeneration (QiType.element siTian))
                   (QiType.element (birthHostQi e))
    then pts + 16 else pts in
  let pts :=
    if Element_eqb (ElementOvercomes (QiType.element siTian))
                   (QiType.element (birthHostQi e))
       || Element_eqb (ElementOvercomes (QiType.element siTian)) (weakZang e)
    then pts - 28 else pts in
  let pts :=
    if Element_eqb (ElementOvercomes (QiType.element zaiQuan))
                   (QiType.element (birthHostQi e))
       || Element_eqb (ElementOvercomes (QiType.element zaiQuan)) (weakZang e)
    then pts - 28 else pts in
  pts.

(** The celestial qi and the branch of the year against the natal
    movement. *)
Definition sqPts2 (e : t) (siTian : QiType.t) (cyBranchEl : Element) : Z :=
  let pts := 0 in
  let natalYun := natalSuiYun e in
  if Element_eqb (ElementGeneration (QiType.element siTian)) natalYun
  then pts + 22
  else if Element_eqb natalYun cyBranchEl then pts + 20
  else if Element_eqb (ElementGeneration natalYun) (QiType.element siTian)
  then pts - 15
  else if Element_eqb (ElementOvercomes natalYun) (QiType.element siTian)
  then pts - 20
  else if Element_eqb (ElementOvercomes (QiType.element siTian)) natalYun
  then pts - 28
  else if Element_eqb natalYun (QiType.element siTian) then pts - 12
  else pts.

Section Engine.

Variable getExactJieqi : Z -> SolarTerm -> result Z.
Variable stemFromYear : Z -> option HeavenlyStem.t.
Variable branchFromYear : Z -> option EarthlyBranch.t.

Let WuYunLiuQi_new := WuYunLiuQi.new getExactJieqi stemFromYear branchFromYear.

(** [constructor(birthDt)] *)
Definition new (birthDt : Z) : result t :=
  (natalCalc <- WuYunLiuQi_new birthDt ;;
   s <- defined (WuYunLiuQi.stem natalCalc) ;;
   let natalSuiYun := HeavenlyStem.element s in
   let natalAdequacy := HeavenlyStem.adequacy s in
   let '(strongZang, weakZang) :=
     if Adequacy_eqb natalAdequacy EXCESS
     then (natalSuiYun, ElementOvercomes natalSuiYun)
     else (ElementOvercomer natalSuiYun, natalSuiYun) in
   '(hostYun, _) <- WuYunLiuQi.getCurrentFortuneEnums getExactJieqi natalCalc ;;
   '(hostQi, guestQi) <- WuYunLiuQi.getCurrentQiEnums getExactJieqi natalCalc ;;
   Ok (mk birthDt natalCalc natalSuiYun natalAdequacy strongZang weakZang
          hostYun hostQi guestQi (_calcBaseScore hostQi guestQi)))%result.

(** [calculateYearAhi(targetYear)] *)
Definition calculateYearAhi (e : t) (targetYear : Z) : result Q :=
  (dt <- getExactJieqi targetYear DaHan ;;
   flowYear <- WuYunLiuQi_new dt ;;
   cyStem <- defined (WuYunLiuQi.stem flowYear) ;;
   let cySuiYun := HeavenlyStem.element cyStem in
   let cyAdequacy := HeavenlyStem.adequacy cyStem in
   eff <- WuYunLiuQi.getClimaticEffect flowYear ;;
   effect <- defined eff ;;
   let siTian := celestial effect in
   let zaiQuan := terrestrial effect in
   let suiYunPts := suiYunPts e cySuiYun cyAdequacy in
   gf <- WuYunLiuQi.getGuestFortunes flowYear ;;
   let guestYuns := map element gf in
   let stepPtsSum := stepPtsSum e guestYuns in
   let avgStepPts := (inject_Z stepPtsSum / 5)%Q in
   let sqPts1 := sqPts1 e siTian zaiQuan in
   cyBranch <- defined (WuYunLiuQi.branch flowYear) ;;
   let cyBranchEl := EarthlyBranch.element cyBranch in
   let sqPts2 := sqPts2 e siTian cyBranchEl in
   let weightedYun := (inject_Z suiYunPts * 0.90 + avgStepPts * 0.10)%Q in
   let weightedQi := (inject_Z sqPts1 * 0.25 + inject_Z sqPts2 * 0.75)%Q in
   let totalRawCollision := (weightedYun * 0.30 + weightedQi * 0.70)%Q in
   Ok totalRawCollision)%result.

End Engine.

End AHIEngine.

(* ================================================================== *)
(** * The route [/api/calculate]                                       *)
(* ================================================================== *)

Record KlinePoint : Type := mkPoint {
  age : Z;
  open : Q;
  close : Q
}.

Record WylqSummary : Type := mkSummary {
  ganzhi : JS.jsstring;
  suiyun : JS.jsstring;
  sitian : JS.jsstring;
  zaiquan : JS.jsstring;
  fortune_step : Z;
  fortune_host : Element;
  fortune_guest : JS.jsstring;
  qi_step : Z;
  qi_host : JS.jsstring;
  qi_guest : JS.jsstring
}.

Record Response : Type := mkResponse {
  wylq_summary : WylqSummary;
  kline_data : list KlinePoint;
  base_score : Z
}.

(** [parseFloat(x.toFixed(2))] on an exact value: the nearest multiple of
    1/100, a tie going away from zero.  [Double.toFixed2] is the rounding
    of a double. *)
Definition toFixed2 (x : Q) : Q :=
  if Qlt_le_dec x 0
  then (- (inject_Z (Qfloor (- x * 100 + 0.5)) / 100))%Q
  else (inject_Z (Qfloor (x * 100 + 0.5)) / 100)%Q.

Definition lifecycleDrift (age : Z) : Q :=
  if (1 <=? age) && (age <=? 20) then 0.8%Q
  else if (21 <=? age) && (age <=? 40) then 0.0%Q
  else if (41 <=? age) && (age <=? 50) then (-0.8)%Q
  else (-1.5)%Q.

(** The ages of [for (let age = 1; age <= 60; age++)]. *)
Definition ages : list Z := map Z.of_nat (seq 1 60).

Section Route.

Variable getExactJieqi : Z -> SolarTerm -> result Z.
Variable stemFromYear : Z -> option HeavenlyStem.t.
Variable branchFromYear : Z -> option EarthlyBranch.t.

(** The body of the loop, from the current health to the point pushed and
    the next health, in exact arithmetic; [Double.klineStep] is the same
    body on doubles. *)
Definition klineStep (engine : AHIEngine.t) (year age : Z) (currentHealth : Q)
  : result (KlinePoint * Q) :=
  (let calcYear := year + age - 1 in
   impact <- AHIEngine.calculateYearAhi getExactJieqi stemFromYear branchFromYear
               engine calcYear ;;
   let lifecycleDrift := lifecycleDrift age in
   let dynamicBase :=
     (currentHealth * 0.6 + inject_Z (AHIEngine.baseScore engine) * 0.4)%Q in
   let closeScore := (dynamicBase + impact + lifecycleDrift)%Q in
   let closeScore := Qmax 0 (Qmin 100 closeScore) in
   Ok (mkPoint age (toFixed2 currentHealth) (toFixed2 closeScore), closeScore)
  )%result.

Fixpoint klineLoop (engine : AHIEngine.t) (year : Z) (todo : list Z)
         (currentHealth : Q) (kline_data : list KlinePoint)
  : result (list KlinePoint) :=
  match todo with
  | [] => Ok kline_data
  | age :: rest =>
      ('(point, closeScore) <- klineStep engine year age currentHealth ;;
       klineLoop engine year rest closeScore (kline_data ++ [point]))%result
  end.

(** [kline_data] of an engine: the loop from the natal base score. *)
Definition klineData (engine : AHIEngine.t) (year : Z) : result (list KlinePoint) :=
  klineLoop engine year ages (inject_Z (AHIEngine.baseScore engine)) [].

Definition api_calculate (year month day : Z) : result Response :=
  if (year =? 0) || (month =? 0) || (day =? 0) then Err BadRequest
  else
    (let birthDate := JSDate.make year (month - 1) day 12 0 0 in
     calc <- WuYunLiuQi.new getExactJieqi stemFromYear branchFromYear birthDate ;;
     engine <- AHIEngine.new getExactJieqi stemFromYear branchFromYear birthDate ;;
     '(yf_element, _, yf_description) <- WuYunLiuQi.getYearFortune calc ;;
     ce0 <- WuYunLiuQi.getClimaticEffect calc ;;
     ce <- defined ce0 ;;
     '(f_step, f_host, f_guest) <- WuYunLiuQi.getCurrentFortune getExactJieqi calc ;;
     '(q_step, q_host, q_guest) <- WuYunLiuQi.getCurrentQi getExactJieqi calc ;;
     cstem <- defined (WuYunLiuQi.stem calc) ;;
     cbranch <- defined (WuYunLiuQi.branch calc) ;;
     let summary :=
       mkSummary
         (HeavenlyStem.char cstem ++ EarthlyBranch.char cbranch ++ [0x5E74])
         (yf_description ++ [0x20; 0x28] ++ Element_value yf_element ++ [0x29])
         (QiType.display_name (celestial ce))
         (QiType.display_name (terrestrial ce))
         f_step f_host f_guest q_step q_host q_guest in
     points <- klineData engine year ;;
     Ok (mkResponse summary points (AHIEngine.baseScore engine)))%result.

End Route.

(** ** The variants *)

(** [server.ts]: the locator without the year check, [fromYear] with the
    plain remainder. *)
Module ServerTs.

Definition getExactJieqi (alm : Almanac) := AstronomyEngine.Simple.getExactJieqi alm.

Definition WuYunLiuQi_new (alm : Almanac) :=
  WuYunLiuQi.new (getExactJieqi alm) HeavenlyStem.fromYear EarthlyBranch.fromYear.

Definition AHIEngine_new (alm : Almanac) :=
  AHIEngine.new (getExactJieqi alm) HeavenlyStem.fromYear EarthlyBranch.fromYear.

Definition calculateYearAhi (alm : Almanac) :=
  AHIEngine.calculateYearAhi (getExactJieqi alm)
    HeavenlyStem.fromYear EarthlyBranch.fromYear.

Definition klineData (alm : Almanac) :=
  klineData (getExactJieqi alm) HeavenlyStem.fromYear EarthlyBranch.fromYear.

Definition api_calculate (alm : Almanac) :=
  api_calculate (getExactJieqi alm) HeavenlyStem.fromYear EarthlyBranch.fromYear.

End ServerTs.

(** The session variant: the locator with the year check, [fromYear] with
    the remainder made non-negative. *)
Module Session.

Definition getExactJieqi (alm : Almanac) := AstronomyEngine.Checked.getExactJieqi alm.

Definition WuYunLiuQi_new (alm : Almanac) :=
  WuYunLiuQi.new (getExactJieqi alm)
    HeavenlyStem.fromYear_nonneg EarthlyBranch.fromYear_nonneg.

Definition AHIEngine_new (alm : Almanac) :=
  AHIEngine.new (getExactJieqi alm)
    HeavenlyStem.fromYear_nonneg EarthlyBranch.fromYear_nonneg.

Definition calculateYearAhi (alm : Almanac) :=
  AHIEngine.calculateYearAhi (getExactJieqi alm)
    HeavenlyStem.fromYear_nonneg EarthlyBranch.fromYear_nonneg.

(** The loop of the route is the same text; the route itself differs in the
    summary strings and in the history it stores, which are left out. *)
Definition klineData (alm : Almanac) :=
  klineData (getExactJieqi alm)
    HeavenlyStem.fromYear_nonneg EarthlyBranch.fromYear_nonneg.

End Session.

(* ================================================================== *)
(** * The engine in the words of the specification                     *)
(* ================================================================== *)

(** The definitions of this part follow the sentences of the specification;
    the theorems compare them with the code above. *)

(** ** The pair of qi of a year *)

(** The pair of qi of a branch, as the table of the specification gives
    it: celestial first, terrestrial second. *)
Definition effectOf (b : EarthlyBranch.t) : ClimaticEffect :=
  match b with
  | EarthlyBranch.ZI | EarthlyBranch.WU =>
      mkEffect QiType.MILD_YIN_FIRE QiType.MILD_YANG_METAL
  | EarthlyBranch.CHOU | EarthlyBranch.WEI =>
      mkEffect QiType.DOMINANT_YIN_EARTH QiType.DOMINANT_YANG_WATER
  | EarthlyBranch.YIN | EarthlyBranch.SHEN =>
      mkEffect QiType.WEAK_YANG_FIRE QiType.WEAK_YIN_WOOD
  | EarthlyBranch.MAO | EarthlyBranch.YOU =>
      mkEffect QiType.MILD_YANG_METAL QiType.MILD_YIN_FIRE
  | EarthlyBranch.CHEN | EarthlyBranch.XU =>
      mkEffect QiType.DOMINANT_YANG_WATER QiType.DOMINANT_YIN_EARTH
  | EarthlyBranch.SI | EarthlyBranch.HAI =>
      mkEffect QiType.WEAK_YIN_WOOD QiType.WEAK_YANG_FIRE
  end.

(** ** The natal base score *)

Definition QiType_eqb (a b : QiType.t) : bool :=
  match a, b with
  | QiType.WEAK_YIN_WOOD, QiType.WEAK_YIN_WOOD
  | QiType.MILD_YIN_FIRE, QiType.MILD_YIN_FIRE
  | QiType.WEAK_YANG_FIRE, QiType.WEAK_YANG_FIRE
  | QiType.DOMINANT_YIN_EARTH, QiType.DOMINANT_YIN_EARTH
  | QiType.MILD_YANG_METAL, QiType.MILD_YANG_METAL
  | QiType.DOMINANT_YANG_WATER, QiType.DOMINANT_YANG_WATER => true
  | _, _ => false
  end.

(** The rule of the specification: 50, the adjustment by the relation of the
    host and guest elements, and the adjustment of the two fire qi. *)
Definition elementAdjustment (hEl gEl : Element) : Z :=
  if Element_eqb hEl gEl
     || Element_eqb (ElementGeneration hEl) gEl
     || Element_eqb (ElementGeneration gEl) hEl
  then 10
  else if Element_eqb (ElementOvercomes hEl) gEl then -15
  else if Element_eqb (ElementOvercomes gEl) hEl then -10
  else 0.

Definition fireAdjustment (host guest : QiType.t) : Z :=
  if QiType_eqb guest QiType.MILD_YIN_FIRE && QiType_eqb host QiType.WEAK_YANG_FIRE
  then 8
  else if QiType_eqb guest QiType.WEAK_YANG_FIRE && QiType_eqb host QiType.MILD_YIN_FIRE
  then -8
  else 0.

Definition baseScoreRule (host guest : QiType.t) : Z :=
  50 + elementAdjustment (QiType.element host) (QiType.element guest)
     + fireAdjustment host guest.

(** ** The yearly collision score *)

(** A priority chain: the value of the first rule whose condition holds. *)
Fixpoint firstMatch (rules : list (bool * Z)) (otherwise : Z) : Z :=
  match rules with
  | [] => otherwise
  | (condition, value) :: rest =>
      if condition then value else firstMatch rest otherwise
  end.

Definition generates (a b : Element) : bool := Element_eqb (ElementGeneration a) b.
Definition overcomes (a b : Element) : bool := Element_eqb (ElementOvercomes a) b.

(** The natal stem element against the celestial qi element and the branch
    element of the flowing year. *)
Definition qiPart2 (natalStem celestialEl branchEl : Element) : Z :=
  firstMatch
    [ (generates celestialEl natalStem, 22);
      (Element_eqb natalStem branchEl, 20);
      (generates natalStem celestialEl, -15);
      (overcomes natalStem celestialEl, -20);
      (overcomes celestialEl natalStem, -28);
      (Element_eqb natalStem celestialEl, -12) ]
    0.

(** The guest movements of a year: five steps of generation from the
    element of the stem. *)
Definition guestElements (s : HeavenlyStem.t) : list Element :=
  let e1 := HeavenlyStem.element s in
  let e2 := ElementGeneration e1 in
  let e3 := ElementGeneration e2 in
  let e4 := ElementGeneration e3 in
  let e5 := ElementGeneration e4 in
  [e1; e2; e3; e4; e5].

Definition sumZ (l : list Z) : Z := fold_right Z.add 0 l.

Definition mean (l : list Z) : Q :=
  (inject_Z (sumZ l) / inject_Z (Z.of_nat (length l)))%Q.

(** The total of the specification, from the stem [s] and the branch [b] of
    the flowing year. *)
Definition collision (e : AHIEngine.t) (s : HeavenlyStem.t) (b : EarthlyBranch.t) : Q :=
  let eff := effectOf b in
  let movementTotal :=
    inject_Z (AHIEngine.suiYunPts e (HeavenlyStem.element s) (HeavenlyStem.adequacy s)) in
  let movementStepAvg := mean (map (AHIEngine.stepPts e) (guestElements s)) in
  let qiPart1 := inject_Z (AHIEngine.sqPts1 e (celestial eff) (terrestrial eff)) in
  let qiPart2 :=
    inject_Z (qiPart2 (AHIEngine.natalSuiYun e)
                      (QiType.element (celestial eff)) (EarthlyBranch.element b)) in
  (0.30 * (0.90 * movementTotal + 0.10 * movementStepAvg)
   + 0.70 * (0.25 * qiPart1 + 0.75 * qiPart2))%Q.

(** ** The recurrence of the series *)

Definition clamp (x lo hi : Q) : Q := Qmax lo (Qmin hi x).

(** The drift of the age bands 1-20, 21-40, 41-50 and 51-60. *)
Definition drift (a : Z) : Q :=
  if a <=? 20 then 0.8%Q
  else if a <=? 40 then 0.0%Q
  else if a <=? 50 then (-0.8)%Q
  else (-1.5)%Q.

(** The health after [a] years: the natal base score, then one clamped
    step for each age. *)
Fixpoint health (baseScore : Q) (impact : Z -> Q) (a : nat) : Q :=
  match a with
  | O => baseScore
  | S a' =>
      clamp (0.6 * health baseScore impact a' + 0.4 * baseScore
             + impact (Z.of_nat (S a')) + drift (Z.of_nat (S a')))%Q 0 100
  end.

(* ================================================================== *)
(** * The code in closed form                                          *)
(* ================================================================== *)

(** The definitions of this part restate pieces of the code above as pure
    functions, for the statements of the lemmas. *)

(** The year the constructor assigns, given the Great Cold of the civil
    year of the date. *)
Definition assignedYear (date currentYearDahan : Z) : Z :=
  if date <? currentYearDahan
  then JSDate.getFullYear date - 1
  else JSDate.getFullYear date.

(** All the probes of [getExactJieqi], in the order they are tried: the
    four candidate months, then the twelve months of the year. *)
Definition probes (year : Z) (termName : SolarTerm) : list (Z * Z) :=
  let m :=
    match AstronomyEngine.Checked.monthMap termName with
    | Some m => m
    | None => 6
    end in
  map AstronomyEngine.Checked.adjust (AstronomyEngine.Checked.checkMonths year m)
  ++ map (fun targetM => (year, targetM)) AstronomyEngine.Checked.allMonths.

(** A probe that does not end the search: no entry, or an entry of
    another year. *)
Definition passes (alm : Almanac) (year : Z) (termName : SolarTerm)
           (probe : Z * Z) : Prop :=
  alm (fst probe) (snd probe) 15 termName = Absent
  \/ exists o, alm (fst probe) (snd probe) 15 termName = Found o
               /\ getYear o <> year.

(** The value the body of [calculateYearAhi] computes for a flowing year
    with stem [cyStem] and branch [cyBranch], in the order of the code. *)
Definition yearScore (e : AHIEngine.t) (cyStem : HeavenlyStem.t)
           (cyBranch : EarthlyBranch.t) : Q :=
  let cySuiYun := HeavenlyStem.element cyStem in
  let cyAdequacy := HeavenlyStem.adequacy cyStem in
  let siTian := celestial (effectOf cyBranch) in
  let zaiQuan := terrestrial (effectOf cyBranch) in
  let suiYunPts := AHIEngine.suiYunPts e cySuiYun cyAdequacy in
  let guestYuns := map element (WuYunLiuQi.guestLoop 5 0 cySuiYun cyAdequacy) in
  let avgStepPts := (inject_Z (AHIEngine.stepPtsSum e guestYuns) / 5)%Q in
  let sqPts1 := AHIEngine.sqPts1 e siTian zaiQuan in
  let sqPts2 := AHIEngine.sqPts2 e siTian (EarthlyBranch.element cyBranch) in
  let weightedYun := (inject_Z suiYunPts * 0.90 + avgStepPts * 0.10)%Q in
  let weightedQi := (inject_Z sqPts1 * 0.25 + inject_Z sqPts2 * 0.75)%Q in
  (weightedYun * 0.30 + weightedQi * 0.70)%Q.

(** [closeScore] of the loop body, from the health before it. *)
Definition closeScore (engine : AHIEngine.t) (impact : Z -> Q)
           (currentHealth : Q) (age : Z) : Q :=
  Qmax 0 (Qmin 100 (currentHealth * 0.6 + inject_Z (AHIEngine.baseScore engine) * 0.4
                    + impact age + lifecycleDrift age)).

(** The health carried by the loop after [n] rounds. *)
Fixpoint carried (engine : AHIEngine.t) (impact : Z -> Q) (n : nat) : Q :=
  match n with
  | O => inject_Z (AHIEngine.baseScore engine)
  | S k => closeScore engine impact (carried engine impact k) (Z.of_nat (S k))
  end.

(** The points the loop pushes for the ages of [todo]. *)
Fixpoint points (engine : AHIEngine.t) (impact : Z -> Q)
         (todo : list Z) (currentHealth : Q) : list KlinePoint :=
  match todo with
  | [] => []
  | age :: rest =>
      mkPoint age (toFixed2 currentHealth)
              (toFixed2 (closeScore engine impact currentHealth age))
      :: points engine impact rest (closeScore engine impact currentHealth age)
  end.

(** The yearly score as a number, 0 where the computation fails. *)
Definition impactOf (calc : Z -> result Q) (year a : Z) : Q :=
  match calc (year + a - 1) with
  | Ok v => v
  | Err _ => 0%Q
  end.

(** All sixty yearly scores of a series are computed. *)
Definition allOk (calc : Z -> result Q) (year : Z) : bool :=
  forallb (fun a => match calc (year + a - 1) with Ok _ => true | Err _ => false end)
          ages.

(** A natal profile to run the model on: born on the 15th of June 1990,
    with the sample almanac. *)
Definition sampleEngine : AHIEngine.t :=
  AHIEngine.mk (JSDate.make 1990 5 15 12 0 0)
    (WuYunLiuQi.mk (JSDate.make 1990 5 15 12 0 0) 1990
       (Some HeavenlyStem.GENG) (Some EarthlyBranch.WU))
    METAL EXCESS METAL WOOD FIRE
    QiType.WEAK_YANG_FIRE QiType.MILD_YIN_FIRE 68.

(* ================================================================== *)
(** * The form of the front end                                        *)
(* ================================================================== *)

(** The date fields of ECMAScript the form reads. *)
Module JSDateFields.

Definition DayWithinYear (t : Z) : Z :=
  JSDate.Day t - JSDate.DayFromYear (JSDate.YearFromTime t).

Definition InLeapYear (t : Z) : Z :=
  if JSDate.DaysInYear (JSDate.YearFromTime t) =? 366 then 1 else 0.

Definition MonthFromTime (t : Z) : Z :=
  let d := DayWithinYear t in
  let l := InLeapYear t in
  if d <? 31 then 0
  else if d <? 59 + l then 1
  else if d <? 90 + l then 2
  else if d <? 120 + l then 3
  else if d <? 151 + l then 4
  else if d <? 181 + l then 5
  else if d <? 212 + l then 6
  else if d <? 243 + l then 7
  else if d <? 273 + l then 8
  else if d <? 304 + l then 9
  else if d <? 334 + l then 10
  else 11.

Definition DateFromTime (t : Z) : Z :=
  let d := DayWithinYear t in
  let l := InLeapYear t in
  match MonthFromTime t with
  | 0 => d + 1
  | 1 => d - 30
  | 2 => d - 58 - l
  | 3 => d - 89 - l
  | 4 => d - 119 - l
  | 5 => d - 150 - l
  | 6 => d - 180 - l
  | 7 => d - 211 - l
  | 8 => d - 242 - l
  | 9 => d - 272 - l
  | 10 => d - 303 - l
  | _ => d - 333 - l
  end.

Definition getDate (t : Z) : Z := DateFromTime t.

End JSDateFields.

(** The effect of the form on a change of the year or the month, with the
    month counted from 1: [new Date(year, month, 0).getDate()], and the day
    brought back when the month is shorter. *)
Definition formDays (year month : Z) : Z :=
  JSDateFields.getDate (JSDate.make year month 0 0 0 0).

Definition formDay (year month day : Z) : Z :=
  let days := formDays year month in
  if days <? day then days else day.

(** The options of the three selects. *)
Definition formYears : list Z := map (fun i => 2026 - Z.of_nat i) (seq 0 (2026 - 1900 + 1)).
Definition formMonths : list Z := map (fun i => Z.of_nat i + 1) (seq 0 12).
Definition formDayOptions (daysInMonth : Z) : list Z :=
  map (fun i => Z.of_nat i + 1) (seq 0 (Z.to_nat daysInMonth)).

(** The length of a month of the calendar. *)
Definition monthLength (year month : Z) : Z :=
  match month with
  | 2 => if JSDate.isLeap year then 29 else 28
  | 4 | 6 | 9 | 11 => 30
  | _ => 31
  end.

(** The early variant: the text of [server.ts] with the constants of its
    own [_calcBaseScore]. *)
Module Early.

Definition getExactJieqi (alm : Almanac) := AstronomyEngine.Simple.getExactJieqi alm.

(** [constructor(birthDt)] *)
Definition AHIEngine_new (alm : Almanac) (birthDt : Z) : result AHIEngine.t :=
  (natalCalc <- WuYunLiuQi.new (getExactJieqi alm) HeavenlyStem.fromYear
                  EarthlyBranch.fromYear birthDt ;;
   s <- defined (WuYunLiuQi.stem natalCalc) ;;
   let natalSuiYun := HeavenlyStem.element s in
   let natalAdequacy := HeavenlyStem.adequacy s in
   let '(strongZang, weakZang) :=
     if Adequacy_eqb natalAdequacy EXCESS
     then (natalSuiYun, ElementOvercomes natalSuiYun)
     else (ElementOvercomer natalSuiYun, natalSuiYun) in
   '(hostYun, _) <- WuYunLiuQi.getCurrentFortuneEnums (getExactJieqi alm) natalCalc ;;
   '(hostQi, guestQi) <- WuYunLiuQi.getCurrentQiEnums (getExactJieqi alm) natalCalc ;;
   Ok (AHIEngine.mk birthDt natalCalc natalSuiYun natalAdequacy strongZang weakZang
         hostYun hostQi guestQi (AHIEngine._calcBaseScore_early hostQi guestQi))
  )%result.

End Early.

(* ================================================================== *)
(** * The scores as IEEE doubles                                       *)
(* ================================================================== *)

(** The scores of the engine and of the series are JavaScript numbers:
    binary64 values with the operations rounded to nearest, ties to even.
    This part embeds the arithmetic of [calculateYearAhi] and of the loop
    of the route on the binary64 floats of the kernel, operation by
    operation and in the order of the source. *)
Module Double.
Import Floats.
Local Open Scope float_scope.

(** A JavaScript number holding the integer [z]; exact below 2^53. *)
Definition of_Z (z : Z) : float :=
  if (z <? 0)%Z
  then - of_uint63 (Uint63.of_Z (- z))
  else of_uint63 (Uint63.of_Z z).

(** [Math.min(a, b)] and [Math.max(a, b)]: NaN if an argument is NaN, and
    -0 below +0. *)
Definition Math_min (a b : float) : float :=
  if is_nan a || is_nan b then nan
  else if a <? b then a
  else if b <? a then b
  else match classify a with NZero => a | _ => b end.

Definition Math_max (a b : float) : float :=
  if is_nan a || is_nan b then nan
  else if a <? b then b
  else if b <? a then a
  else match classify a with PZero => a | _ => b end.

(** [parseFloat(x.toFixed(2))].  [toFixed(2)] takes the integer n for
    which n / 100 is nearest to the exact value of |x|, the larger n of
    two, and prints n / 100 with the sign of x; [parseFloat] reads the
    nearest double, which is the rounded quotient [n / 100].  From 2^46 on
    the doubles are more than 1/100 apart and the result is [x] itself, as
    it is for the infinities and for NaN, which are printed by name. *)
Definition hundredths (m : positive) (e : Z) : Z :=
  match e with
  | Zneg k => (2 * (Zpos m * 100) + 2 ^ Zpos k) / (2 * 2 ^ Zpos k)
  | _ => Zpos m * 2 ^ e * 100
  end%Z.

Definition toFixed2 (x : float) : float :=
  match Prim2SF x with
  | S754_zero _ => 0
  | S754_finite s m e =>
      if (47 <=? Zpos (SpecFloat.digits2_pos m) + e)%Z then x
      else
        let r := of_Z (hundredths m e) / 100 in
        if s then - r else r
  | _ => x
  end.

(** The last lines of [calculateYearAhi], from the four parts, which are
    integers. *)
Definition totalRawCollision (suiYunPts stepPtsSum sqPts1 sqPts2 : Z) : float :=
  let avgStepPts := of_Z stepPtsSum / 5 in
  let weightedYun := (of_Z suiYunPts * 0.90) + (avgStepPts * 0.10) in
  let weightedQi := (of_Z sqPts1 * 0.25) + (of_Z sqPts2 * 0.75) in
  (weightedYun * 0.30) + (weightedQi * 0.70).

Record KlinePoint : Type := mkPoint {
  age : Z;
  open : float;
  close : float
}.

Definition lifecycleDrift (age : Z) : float :=
  if ((1 <=? age) && (age <=? 20))%Z then 0.8
  else if ((21 <=? age) && (age <=? 40))%Z then 0.0
  else if ((41 <=? age) && (age <=? 50))%Z then -0.8
  else -1.5.

Section Engine.

Variable getExactJieqi : Z -> SolarTerm -> result Z.
Variable stemFromYear : Z -> option HeavenlyStem.t.
Variable branchFromYear : Z -> option EarthlyBranch.t.

(** [calculateYearAhi(targetYear)] *)
Definition calculateYearAhi (e : AHIEngine.t) (targetYear : Z) : result float :=
  (dt <- getExactJieqi targetYear DaHan ;;
   flowYear <- WuYunLiuQi.new getExactJieqi stemFromYear branchFromYear dt ;;
   cyStem <- defined (WuYunLiuQi.stem flowYear) ;;
   let cySuiYun := HeavenlyStem.element cyStem in
   let cyAdequacy := HeavenlyStem.adequacy cyStem in
   eff <- WuYunLiuQi.getClimaticEffect flowYear ;;
   effect <- defined eff ;;
   let siTian := celestial effect in
   let zaiQuan := terrestrial effect in
   let suiYunPts := AHIEngine.suiYunPts e cySuiYun cyAdequacy in
   gf <- WuYunLiuQi.getGuestFortunes flowYear ;;
   let guestYuns := map element gf in
   let stepPtsSum := AHIEngine.stepPtsSum e guestYuns in
   let sqPts1 := AHIEngine.sqPts1 e siTian zaiQuan in
   cyBranch <- defined (WuYunLiuQi.branch flowYear) ;;
   let cyBranchEl := EarthlyBranch.element cyBranch in
   let sqPts2 := AHIEngine.sqPts2 e siTian cyBranchEl in
   Ok (totalRawCollision suiYunPts stepPtsSum sqPts1 sqPts2))%result.

(** The body of the loop of the route. *)
Definition klineStep (engine : AHIEngine.t) (year age : Z) (currentHealth : float)
  : result (KlinePoint * float) :=
  (let calcYear := (year + age - 1)%Z in
   impact <- calculateYearAhi engine calcYear ;;
   let lifecycleDrift := lifecycleDrift age in
   let dynamicBase :=
     (currentHealth * 0.6) + (of_Z (AHIEngine.baseScore engine) * 0.4) in
   let closeScore := dynamicBase + impact + lifecycleDrift in
   let closeScore := Math_max 0 (Math_min 100 closeScore) in
   Ok (mkPoint age (toFixed2 currentHealth) (toFixed2 closeScore), closeScore)
  )%result.

Fixpoint klineLoop (engine : AHIEngine.t) (year : Z) (todo : list Z)
         (currentHealth : float) (kline_data : list KlinePoint)
  : result (list KlinePoint) :=
  match todo with
  | [] => Ok kline_data
  | age :: rest =>
      ('(point, closeScore) <- klineStep engine year age currentHealth ;;
       klineLoop engine year rest closeScore (kline_data ++ [point]))%result
  end.

Definition klineData (engine : AHIEngine.t) (year : Z) : result (list KlinePoint) :=
  klineLoop engine year ages (of_Z (AHIEngine.baseScore engine)) [].

End Engine.

(** *** The recurrence in the words of the specification *)

Definition clamp (x lo hi : float) : float := Math_max lo (Math_min hi x).

(** The drift of the age bands 1-20, 21-40, 41-50 and 51-60. *)
Definition drift (a : Z) : float :=
  if (a <=? 20)%Z then 0.8
  else if (a <=? 40)%Z then 0.0
  else if (a <=? 50)%Z then -0.8
  else -1.5.

(** The health after [a] years: the natal base score, then one clamped
    step for each age, each operation rounded as a double. *)
Fixpoint health (baseScore : float) (impact : Z -> float) (a : nat) : float :=
  match a with
  | O => baseScore
  | S a' =>
      clamp (0.6 * health baseScore impact a' + 0.4 * baseScore
             + impact (Z.of_nat (S a')) + drift (Z.of_nat (S a'))) 0 100
  end.

(** *** The loop in closed form *)

(** [closeScore] of the loop body, from the health before it. *)
Definition closeScore (engine : AHIEngine.t) (impact : Z -> float)
           (currentHealth : float) (age : Z) : float :=
  Math_max 0 (Math_min 100
    ((currentHealth * 0.6) + (of_Z (AHIEngine.baseScore engine) * 0.4)
     + impact age + lifecycleDrift age)).

(** The health carried by the loop after [n] rounds. *)
Fixpoint carried (engine : AHIEngine.t) (impact : Z -> float) (n : nat) : float :=
  match n with
  | O => of_Z (AHIEngine.baseScore engine)
  | S k => closeScore engine impact (carried engine impact k) (Z.of_nat (S k))
  end.

(** The points the loop pushes for the ages of [todo]. *)
Fixpoint points (engine : AHIEngine.t) (impact : Z -> float)
         (todo : list Z) (currentHealth : float) : list KlinePoint :=
  match todo with
  | [] => []
  | age :: rest =>
      mkPoint age (toFixed2 currentHealth)
              (toFixed2 (closeScore engine impact currentHealth age))
      :: points engine impact rest (closeScore engine impact currentHealth age)
  end.

(** The yearly score as a number, 0 where the computation fails. *)
Definition impactOf (calc : Z -> result float) (year a : Z) : float :=
  match calc (year + a - 1)%Z with
  | Ok v => v
  | Err _ => 0
  end.

(** All sixty yearly scores of a series are computed. *)
Definition allOk (calc : Z -> result float) (year : Z) : bool :=
  forallb (fun a => match calc (year + a - 1)%Z with Ok _ => true | Err _ => false end)
          ages.

(** A number from 0 to 100. *)
Definition inRange (x : float) : bool := (0 <=? x) && (x <=? 100).

(** A double that is a number: zero or finite. *)
Definition finite (x : spec_float) : bool :=
  match x with
  | S754_zero _ | S754_finite _ _ _ => true
  | _ => false
  end.

Definition notNaN (x : spec_float) : bool :=
  match x with
  | S754_nan => false
  | _ => true
  end.

(** The values the four integer parts of the yearly score can take. *)
Definition suiYunValues : list Z :=
  [25; 10; 35; 20; 18; 3; 28; 13; -22; -37; -12; -27; 0; -15; 10; -5]%Z.
Definition stepSumValues : list Z := [0; 10; 25]%Z.
Definition sqPts1Values : list Z :=
  [22; 38; -6; 10; -34; -18; 0; 16; -28; -12; -56; -40]%Z.
Definition sqPts2Values : list Z := [22; 20; -15; -20; -28; -12; 0]%Z.

Definition yearlyScores : list float :=
  flat_map (fun a =>
    flat_map (fun s =>
      flat_map (fun q1 =>
        map (fun q2 => totalRawCollision a s q1 q2) sqPts2Values)
      sqPts1Values)
    stepSumValues)
  suiYunValues.

(** *** The doubles against the exact scores *)

(** The rational number a double stands for; 0 for the values that are
    not numbers. *)
Definition exactValue (x : float) : Q :=
  match Prim2SF x with
  | S754_finite s m e =>
      (inject_Z (if s then Zneg m else Zpos m) * Qpower 2 e)%Q
  | _ => 0%Q
  end.

(** The last lines of [calculateYearAhi] in exact arithmetic. *)
Definition exactCollision (suiYunPts stepPtsSum sqPts1 sqPts2 : Z) : Q :=
  let avgStepPts := (inject_Z stepPtsSum / 5)%Q in
  let weightedYun := (inject_Z suiYunPts * 0.90 + avgStepPts * 0.10)%Q in
  let weightedQi := (inject_Z sqPts1 * 0.25 + inject_Z sqPts2 * 0.75)%Q in
  (weightedYun * 0.30 + weightedQi * 0.70)%Q.

(** The double is within 10^-14 of the exact score. *)
Definition nearExact (suiYunPts stepPtsSum sqPts1 sqPts2 : Z) : bool :=
  let gap := (exactValue (totalRawCollision suiYunPts stepPtsSum sqPts1 sqPts2)
              - exactCollision suiYunPts stepPtsSum sqPts1 sqPts2)%Q in
  Qle_bool (- (1 # 100000000000000)) gap && Qle_bool gap (1 # 100000000000000).

End Double.

(* ================================================================== *)
(** * Basic facts                                                      *)
(* ================================================================== *)

Lemma string_eqb_eq (a b : JS.jsstring) : JS.string_eqb a b = true <-> a = b.
Proof.
  unfold JS.string_eqb. destruct (list_eq_dec Z.eq_dec a b); split; congruence.
Qed.

Lemma bind_Ok_inv {A B : Type} (c : result A) (k : A -> result B) (b : B) :
  bind c k = Ok b -> exists a, c = Ok a /\ k a = Ok b.
Proof. destruct c as [a|e]; simpl; intros H; [eauto | discriminate]. Qed.

Lemma defined_Ok_inv {A : Type} (o : option A) (a : A) :
  defined o = Ok a -> o = Some a.
Proof. destruct o; simpl; congruence. Qed.

Lemma Element_eqb_eq (a b : Element) : Element_eqb a b = true <-> a = b.
Proof. unfold Element_eqb. destruct (Element_eq_dec a b); split; congruence. Qed.

Lemma QiType_previous_pred (q : QiType.t) :
  QiType.previous q = Some (QiType.pred q).
Proof. destruct q; reflexivity. Qed.

(** ** The year of a time value *)

Module JSDateFacts.
Import JSDate.

Lemma div_succ (a c : Z) :
  0 < c -> (a + 1) / c = a / c + (if (a + 1) mod c =? 0 then 1 else 0).
Proof.
  intros Hc.
  destruct ((a + 1) mod c =? 0) eqn:E; rewrite ?Z.eqb_eq, ?Z.eqb_neq in E;
    Z.to_euclidean_division_equations; nia.
Qed.

Lemma DayFromYear_succ (y : Z) :
  DayFromYear (y + 1) = DayFromYear y + DaysInYear y.
Proof.
  unfold DayFromYear, DaysInYear, isLeap.
  replace (y + 1 - 1969) with (y - 1969 + 1) by lia.
  replace (y + 1 - 1901) with (y - 1901 + 1) by lia.
  replace (y + 1 - 1601) with (y - 1601 + 1) by lia.
  rewrite !div_succ by lia.
  replace (y - 1969 + 1) with (y + (-492) * 4) by lia.
  replace (y - 1901 + 1) with (y + (-19) * 100) by lia.
  replace (y - 1601 + 1) with (y + (-4) * 400) by lia.
  rewrite !Z.mod_add by lia.
  destruct (y mod 4 =? 0) eqn:E4; destruct (y mod 100 =? 0) eqn:E100;
    destruct (y mod 400 =? 0) eqn:E400; cbn [andb orb negb]; try lia;
    rewrite ?Z.eqb_eq, ?Z.eqb_neq in *; exfalso;
    Z.to_euclidean_division_equations; lia.
Qed.

Lemma DayFromYear_mono (y y' : Z) : y <= y' -> DayFromYear y <= DayFromYear y'.
Proof.
  intros H. unfold DayFromYear.
  Z.to_euclidean_division_equations. lia.
Qed.

Lemma YearFromDay_spec (n : Z) :
  DayFromYear (YearFromDay n) <= n < DayFromYear (YearFromDay n + 1).
Proof.
  unfold YearFromDay.
  set (y0 := 1970 + 400 * n / 146097).
  destruct (n <? DayFromYear y0) eqn:E1.
  - apply Z.ltb_lt in E1. replace (y0 - 1 + 1) with y0 by lia.
    split; [|exact E1].
    unfold DayFromYear in *. subst y0.
    Z.to_euclidean_division_equations. lia.
  - apply Z.ltb_ge in E1.
    destruct (DayFromYear (y0 + 1) <=? n) eqn:E2.
    + apply Z.leb_le in E2. split; [exact E2|].
      unfold DayFromYear in *. subst y0.
      Z.to_euclidean_division_equations. lia.
    + apply Z.leb_gt in E2. lia.
Qed.

(** [YearFromDay n] is the only year whose days contain [n]. *)
Lemma YearFromDay_unique (n y : Z) :
  DayFromYear y <= n < DayFromYear (y + 1) -> YearFromDay n = y.
Proof.
  intros [Hlo Hhi].
  pose proof (YearFromDay_spec n) as [Slo Shi].
  destruct (Z.lt_trichotomy (YearFromDay n) y) as [Hlt | [Heq | Hgt]].
  - pose proof (DayFromYear_mono (YearFromDay n + 1) y ltac:(lia)). lia.
  - exact Heq.
  - pose proof (DayFromYear_mono (y + 1) (YearFromDay n) ltac:(lia)). lia.
Qed.

Lemma YearFromDay_mono (n n' : Z) : n <= n' -> YearFromDay n <= YearFromDay n'.
Proof.
  intros H.
  pose proof (YearFromDay_spec n) as [Slo Shi].
  pose proof (YearFromDay_spec n') as [Slo' Shi'].
  destruct (Z.le_gt_cases (YearFromDay n) (YearFromDay n')) as [Hle | Hgt];
    [exact Hle|].
  pose proof (DayFromYear_mono (YearFromDay n' + 1) (YearFromDay n) ltac:(lia)).
  lia.
Qed.

Lemma getFullYear_mono (t t' : Z) : t <= t' -> getFullYear t <= getFullYear t'.
Proof.
  intros H. unfold getFullYear, YearFromTime, Day.
  apply YearFromDay_mono. apply Z.div_le_mono; [reflexivity | exact H].
Qed.

(** A time value of a later civil year is a later time value. *)
Lemma getFullYear_lt (t t' : Z) : getFullYear t < getFullYear t' -> t < t'.
Proof.
  intros H. destruct (Z.lt_ge_cases t t') as [Hlt | Hge]; [exact Hlt|].
  pose proof (getFullYear_mono t' t Hge). lia.
Qed.

Lemma daysBeforeMonth_bound (leap : bool) (mi day : Z) :
  0 <= mi <= 11 -> 1 <= day <= 31 ->
  0 <= daysBeforeMonth leap mi + day - 1 < (if leap then 366 else 365).
Proof.
  intros Hm Hd.
  assert (mi = 0 \/ mi = 1 \/ mi = 2 \/ mi = 3 \/ mi = 4 \/ mi = 5 \/
          mi = 6 \/ mi = 7 \/ mi = 8 \/ mi = 9 \/ mi = 10 \/ mi = 11)
    as Hcases by lia.
  repeat (destruct Hcases as [-> | Hcases]); try subst mi;
    destruct leap; cbn [daysBeforeMonth]; lia.
Qed.

(** The civil year of [MakeDate (MakeDay y (month-1) day) time]. *)
Lemma YearFromTime_MakeDate (y month day hour minute second : Z) :
  civil_fields month day hour minute second ->
  YearFromTime (MakeDate (MakeDay y (month - 1) day)
                         (MakeTime hour minute second 0)) = y.
Proof.
  intros (Hm & Hd & Hh & Hmi & Hs).
  unfold YearFromTime. apply YearFromDay_unique.
  assert (Hday : Day (MakeDate (MakeDay y (month - 1) day)
                               (MakeTime hour minute second 0))
                 = MakeDay y (month - 1) day).
  { unfold Day, MakeDate, MakeTime, msPerDay, msPerHour, msPerMinute, msPerSecond.
    Z.to_euclidean_division_equations. lia. }
  rewrite Hday. unfold MakeDay.
  replace ((month - 1) / 12) with 0 by (Z.to_euclidean_division_equations; lia).
  replace ((month - 1) mod 12) with (month - 1)
    by (Z.to_euclidean_division_equations; lia).
  rewrite Z.add_0_r, DayFromYear_succ. unfold DaysInYear.
  pose proof (daysBeforeMonth_bound (isLeap y) (month - 1) day ltac:(lia) Hd). lia.
Qed.

(** Outside of the two-digit years the constructor keeps the year. *)
Lemma getFullYear_make (y month day hour minute second : Z) :
  ~ (0 <= y <= 99) ->
  civil_fields month day hour minute second ->
  getFullYear (make y (month - 1) day hour minute second) = y.
Proof.
  intros Hy Hf. unfold getFullYear, make.
  destruct ((0 <=? y) && (y <=? 99)) eqn:E.
  - apply andb_prop in E as [E1 E2].
    apply Z.leb_le in E1. apply Z.leb_le in E2. lia.
  - apply YearFromTime_MakeDate. exact Hf.
Qed.

(** A two-digit year is read as a year of the twentieth century. *)
Lemma getFullYear_make_two_digit (y month day hour minute second : Z) :
  0 <= y <= 99 ->
  civil_fields month day hour minute second ->
  getFullYear (make y (month - 1) day hour minute second) = 1900 + y.
Proof.
  intros Hy Hf. unfold getFullYear, make.
  replace ((0 <=? y) && (y <=? 99)) with true
    by (symmetry; apply andb_true_intro; split; apply Z.leb_le; lia).
  apply YearFromTime_MakeDate. exact Hf.
Qed.

End JSDateFacts.

Lemma sampleAlmanac_wf : Almanac_wf sampleAlmanac.
Proof.
  intros y m d t s H. unfold sampleAlmanac in H.
  destruct t; cbn in H; injection H as <-;
    unfold Solar_wf, JSDate.civil_fields; cbn; lia.
Qed.

(* ================================================================== *)
(** * Properties of the domain tables                                  *)
(* ================================================================== *)

(** C9. The three relation tables are total on the five elements and fit
    together: overcoming is two steps of generation, and the table of the
    overcomer is the inverse of the table of the overcome, in both
    directions. *)
Theorem element_tables_consistent (x : Element) :
  ElementOvercomes x = ElementGeneration (ElementGeneration x)
  /\ ElementOvercomer (ElementOvercomes x) = x
  /\ ElementOvercomes (ElementOvercomer x) = x.
Proof. destruct x; repeat split; reflexivity. Qed.

(** Generation runs through the five elements and comes back. *)
Lemma ElementGeneration_cycle (x : Element) :
  ElementGeneration (ElementGeneration (ElementGeneration
    (ElementGeneration (ElementGeneration x)))) = x.
Proof. destruct x; reflexivity. Qed.

(** ** Stem and branch of a year *)

(** The remainder made non-negative is the mathematical modulo. *)
Lemma rem_nonneg (a m : Z) : 0 < m -> Z.rem (Z.rem a m + m) m = a mod m.
Proof.
  intros Hm.
  pose proof (Z.rem_bound_abs a m ltac:(lia)) as Hb.
  assert (Hr : Z.rem a m = a - m * Z.quot a m)
    by (pose proof (Z.quot_rem' a m); lia).
  destruct (Z.le_gt_cases 0 (Z.rem a m + m)) as [Hge | Hlt]; [|lia].
  rewrite Z.rem_mod_nonneg by lia.
  rewrite Hr. replace (a - m * Z.quot a m + m) with (a + (1 - Z.quot a m) * m) by lia.
  apply Z.mod_add. lia.
Qed.

Lemma index_in_range {A : Type} (l : list A) (i : Z) :
  0 <= i < Z.of_nat (length l) -> exists x, JS.index l i = Some x.
Proof.
  intros [Hlo Hhi]. unfold JS.index.
  destruct (i <? 0) eqn:E; [apply Z.ltb_lt in E; lia|].
  destruct (nth_error l (Z.to_nat i)) as [x|] eqn:En; [eauto|].
  apply nth_error_None in En. lia.
Qed.

Lemma index_negative {A : Type} (l : list A) (i : Z) : i < 0 -> JS.index l i = None.
Proof. intros H. unfold JS.index. apply Z.ltb_lt in H. now rewrite H. Qed.

(** The session variant always hits an entry, the one the specification
    selects. *)
Lemma stem_fromYear_nonneg_total (year : Z) :
  exists s, HeavenlyStem.fromYear_nonneg year = Some s
            /\ HeavenlyStem.fromYear_nonneg year
               = JS.index HeavenlyStem.list ((year - 4) mod 10).
Proof.
  unfold HeavenlyStem.fromYear_nonneg. rewrite rem_nonneg by lia.
  destruct (index_in_range HeavenlyStem.list ((year - 4) mod 10)) as [s Hs].
  - pose proof (Z.mod_pos_bound (year - 4) 10 ltac:(lia)). cbn. lia.
  - exists s. split; [exact Hs | reflexivity].
Qed.

Lemma branch_fromYear_nonneg_total (year : Z) :
  exists b, EarthlyBranch.fromYear_nonneg year = Some b
            /\ EarthlyBranch.fromYear_nonneg year
               = JS.index EarthlyBranch.list ((year - 4) mod 12).
Proof.
  unfold EarthlyBranch.fromYear_nonneg. rewrite rem_nonneg by lia.
  destruct (index_in_range EarthlyBranch.list ((year - 4) mod 12)) as [b Hb].
  - pose proof (Z.mod_pos_bound (year - 4) 12 ltac:(lia)). cbn. lia.
  - exists b. split; [exact Hb | reflexivity].
Qed.

(** From year 4 on the two forms of [fromYear] agree. *)
Lemma fromYear_agree (year : Z) :
  4 <= year ->
  HeavenlyStem.fromYear year = HeavenlyStem.fromYear_nonneg year
  /\ EarthlyBranch.fromYear year = EarthlyBranch.fromYear_nonneg year.
Proof.
  intros H.
  unfold HeavenlyStem.fromYear, HeavenlyStem.fromYear_nonneg,
    EarthlyBranch.fromYear, EarthlyBranch.fromYear_nonneg.
  rewrite !rem_nonneg by lia. rewrite !Z.rem_mod_nonneg by lia. split; reflexivity.
Qed.

(** Before year 4 the plain remainder is negative unless it is zero, and
    the lookup of [server.ts] leaves the table. *)
Lemma stem_fromYear_undefined (year : Z) :
  year < 4 -> Z.rem (year - 4) 10 <> 0 -> HeavenlyStem.fromYear year = None.
Proof.
  intros Hy Hr. unfold HeavenlyStem.fromYear. apply index_negative.
  pose proof (Z.rem_nonpos (year - 4) 10 ltac:(lia) ltac:(lia)). lia.
Qed.

Lemma branch_fromYear_undefined (year : Z) :
  year < 4 -> Z.rem (year - 4) 12 <> 0 -> EarthlyBranch.fromYear year = None.
Proof.
  intros Hy Hr. unfold EarthlyBranch.fromYear. apply index_negative.
  pose proof (Z.rem_nonpos (year - 4) 12 ltac:(lia) ltac:(lia)). lia.
Qed.

(** C4, evaluated at the years 3 and -1: [fromYear] of [server.ts] returns
    [undefined] for the stem and for the branch, where the selection
    [stems[((year - 4) mod 10 + 10) mod 10]] and
    [branches[((year - 4) mod 12 + 12) mod 12]], which the session variant
    implements, gives the tenth stem and the twelfth branch for year 3, the
    sixth stem and the eighth branch for year -1. *)
Theorem fromYear_before_epoch :
  HeavenlyStem.fromYear 3 = None
  /\ EarthlyBranch.fromYear 3 = None
  /\ HeavenlyStem.fromYear_nonneg 3 = Some HeavenlyStem.GUI
  /\ EarthlyBranch.fromYear_nonneg 3 = Some EarthlyBranch.HAI
  /\ HeavenlyStem.fromYear (-1) = None
  /\ EarthlyBranch.fromYear (-1) = None
  /\ HeavenlyStem.fromYear_nonneg (-1) = Some HeavenlyStem.JI
  /\ EarthlyBranch.fromYear_nonneg (-1) = Some EarthlyBranch.WEI.
Proof. repeat split; reflexivity. Qed.

(** Sixty years later the stem and the branch are the same. *)
Lemma fromYear_nonneg_period (year : Z) :
  HeavenlyStem.fromYear_nonneg (year + 60) = HeavenlyStem.fromYear_nonneg year
  /\ EarthlyBranch.fromYear_nonneg (year + 60) = EarthlyBranch.fromYear_nonneg year.
Proof.
  unfold HeavenlyStem.fromYear_nonneg, EarthlyBranch.fromYear_nonneg.
  rewrite !rem_nonneg by lia.
  replace (year + 60 - 4) with (year - 4 + 6 * 10) at 1 by lia.
  replace (year + 60 - 4) with (year - 4 + 5 * 12) by lia.
  rewrite !Z.mod_add by lia. split; reflexivity.
Qed.

(* ================================================================== *)
(** * Properties of the assignment engine                              *)
(* ================================================================== *)

(** Inversion of a successful sequence of the [result] monad. *)
Ltac inv_bind H :=
  repeat match type of H with
    | bind _ _ = Ok _ =>
        let x := fresh "x" in
        let Hx := fresh "Hx" in
        apply bind_Ok_inv in H as (x & Hx & H)
    | (let '(_, _) := ?p in _) = Ok _ => destruct p
    | (match ?p with (_, _) => _ end) = Ok _ => destruct p
    | defined _ = Ok _ => apply defined_Ok_inv in H
    end.

(** The loop over [mapping] finds the pair of every branch: the lookup by
    character never falls off the table. *)
Lemma getClimaticEffect_table (w : WuYunLiuQi.t) (b : EarthlyBranch.t) :
  WuYunLiuQi.branch w = Some b ->
  WuYunLiuQi.getClimaticEffect w = Ok (Some (effectOf b)).
Proof.
  intros Hb. unfold WuYunLiuQi.getClimaticEffect. rewrite Hb.
  destruct b; reflexivity.
Qed.

(** Without a branch the lookup raises. *)
Lemma getClimaticEffect_undefined (w : WuYunLiuQi.t) :
  WuYunLiuQi.branch w = None ->
  WuYunLiuQi.getClimaticEffect w = Err TypeError.
Proof. intros Hb. unfold WuYunLiuQi.getClimaticEffect. now rewrite Hb. Qed.

(** C7. For a movement-year with branch [b], the guest-qi sequence has the
    six slots pred(pred(celestial)), pred(celestial), celestial,
    pred(pred(terrestrial)), pred(terrestrial), terrestrial, where the pair
    is the one [getClimaticEffect] selects for [b] and pred is the
    predecessor in the cycle of the six qi. *)
Theorem guest_qi_sequence (w : WuYunLiuQi.t) (b : EarthlyBranch.t) :
  WuYunLiuQi.branch w = Some b ->
  exists eff,
    WuYunLiuQi.getClimaticEffect w = Ok (Some eff)
    /\ eff = effectOf b
    /\ WuYunLiuQi.getGuestQiSequence w
       = Ok [ QiType.pred (QiType.pred (celestial eff));
              QiType.pred (celestial eff);
              celestial eff;
              QiType.pred (QiType.pred (terrestrial eff));
              QiType.pred (terrestrial eff);
              terrestrial eff ].
Proof.
  intros Hb. exists (effectOf b).
  split; [apply getClimaticEffect_table; exact Hb|].
  split; [reflexivity|].
  unfold WuYunLiuQi.getGuestQiSequence.
  rewrite (getClimaticEffect_table w b Hb). cbn [bind defined].
  rewrite !QiType_previous_pred. cbn [bind defined].
  rewrite !QiType_previous_pred. reflexivity.
Qed.

Lemma guest_qi_sequence_witness :
  exists eff,
    eff = effectOf EarthlyBranch.WU
    /\ WuYunLiuQi.getGuestQiSequence
         (WuYunLiuQi.mk 0 1990 (Some HeavenlyStem.GENG) (Some EarthlyBranch.WU))
       = Ok [ QiType.pred (QiType.pred (celestial eff));
              QiType.pred (celestial eff);
              celestial eff;
              QiType.pred (QiType.pred (terrestrial eff));
              QiType.pred (terrestrial eff);
              terrestrial eff ].
Proof.
  destruct (guest_qi_sequence
              (WuYunLiuQi.mk 0 1990 (Some HeavenlyStem.GENG) (Some EarthlyBranch.WU))
              EarthlyBranch.WU) as (eff & _ & He & Hs).
  - reflexivity.
  - exists eff. split; [exact He | exact Hs].
Defined.

(** The cycle of the six qi closes after six steps. *)
Lemma QiType_pred_cycle (q : QiType.t) :
  QiType.pred (QiType.pred (QiType.pred (QiType.pred (QiType.pred (QiType.pred q)))))
  = q.
Proof. destruct q; reflexivity. Qed.

(* ================================================================== *)
(** * Properties of the natal base score                               *)
(* ================================================================== *)

Lemma calcBaseScore_rule (host guest : QiType.t) :
  AHIEngine._calcBaseScore host guest = baseScoreRule host guest.
Proof. destruct host, guest; reflexivity. Qed.

Lemma calcBaseScore_values (host guest : QiType.t) :
  In (AHIEngine._calcBaseScore host guest) [35; 40; 50; 52; 60; 68].
Proof. destruct host, guest; cbn; tauto. Qed.

Lemma calcBaseScore_range (host guest : QiType.t) :
  20 <= AHIEngine._calcBaseScore host guest <= 70.
Proof. destruct host, guest; cbn; lia. Qed.

(** The early variant has other constants and leaves the range. *)
Lemma calcBaseScore_early_leaves_range :
  AHIEngine._calcBaseScore_early QiType.WEAK_YANG_FIRE QiType.MILD_YIN_FIRE = 85.
Proof. reflexivity. Qed.

(** The constructor stores the score of the host and guest qi it found. *)
Lemma AHIEngine_new_baseScore getExactJieqi stemFromYear branchFromYear
      (birthDt : Z) (e : AHIEngine.t) :
  AHIEngine.new getExactJieqi stemFromYear branchFromYear birthDt = Ok e ->
  AHIEngine.baseScore e
  = AHIEngine._calcBaseScore (AHIEngine.birthHostQi e) (AHIEngine.birthGuestQi e).
Proof.
  intros H. unfold AHIEngine.new in H. inv_bind H.
  injection H as <-. reflexivity.
Qed.

(** C5, evaluated in the early variant.  In [server.ts], and with the same
    constants in the session variant, the natal base score of every engine
    follows the rule of the claim and lies within 20 and 70.  The early
    variant has the constants +20, -20, -10 and +-15 in the same tests: its
    score is the score of the rule only where the rule gives 40, and for
    the host WeakYangFire with the guest MildYinFire, the qi of a birth on
    the 15th of June 1990, it is 85 where the rule gives 68. *)
Theorem natal_base_score_early_variant :
  (forall getExactJieqi stemFromYear branchFromYear birthDt e,
     AHIEngine.new getExactJieqi stemFromYear branchFromYear birthDt = Ok e ->
     AHIEngine.baseScore e
     = baseScoreRule (AHIEngine.birthHostQi e) (AHIEngine.birthGuestQi e)
     /\ 20 <= AHIEngine.baseScore e <= 70)
  /\ (forall host guest,
        AHIEngine._calcBaseScore_early host guest = baseScoreRule host guest
        <-> baseScoreRule host guest = 40)
  /\ AHIEngine._calcBaseScore_early QiType.WEAK_YANG_FIRE QiType.MILD_YIN_FIRE = 85
  /\ baseScoreRule QiType.WEAK_YANG_FIRE QiType.MILD_YIN_FIRE = 68
  /\ exists e,
       Early.AHIEngine_new sampleAlmanac (JSDate.make 1990 5 15 12 0 0) = Ok e
       /\ AHIEngine.birthHostQi e = QiType.WEAK_YANG_FIRE
       /\ AHIEngine.birthGuestQi e = QiType.MILD_YIN_FIRE
       /\ AHIEngine.baseScore e = 85
       /\ ~ (20 <= AHIEngine.baseScore e <= 70).
Proof.
  split.
  { intros getExactJieqi stemFromYear branchFromYear birthDt e H.
    rewrite (AHIEngine_new_baseScore _ _ _ _ _ H).
    split; [apply calcBaseScore_rule | apply calcBaseScore_range]. }
  split.
  { intros host guest. destruct host, guest; cbn; split; intros H;
      first [reflexivity | discriminate H]. }
  split; [reflexivity|]. split; [reflexivity|].
  eexists. split; [vm_compute; reflexivity|].
  cbn [AHIEngine.birthHostQi AHIEngine.birthGuestQi AHIEngine.baseScore].
  repeat split. lia.
Qed.

(* ================================================================== *)
(** * Properties of the solar term locator                             *)
(* ================================================================== *)

Module LocatorFacts.
Import AstronomyEngine.Checked.

Lemma scanMonths_app alm year termName (l1 l2 : list (Z * Z)) :
  scanMonths alm year termName (l1 ++ l2)
  = match scanMonths alm year termName l1 with
    | Miss => scanMonths alm year termName l2
    | r => r
    end.
Proof.
  induction l1 as [|[y mon] l1 IH]; cbn; [reflexivity|].
  destruct (alm y mon 15 termName) as [| |o]; try exact IH; [reflexivity|].
  destruct (getYear o =? year); [reflexivity | exact IH].
Qed.

(** The two loops are one search over [probes]. *)
Lemma getExactJieqi_probes alm year termName :
  getExactJieqi alm year termName
  = match scanMonths alm year termName (probes year termName) with
    | Hit term => Ok (toDate term)
    | _ => Err (LookupError year termName)
    end.
Proof.
  unfold getExactJieqi, probes. rewrite scanMonths_app.
  destruct (scanMonths alm year termName (map adjust _)); reflexivity.
Qed.

(** A hit is the first probe with an entry of the requested year. *)
Lemma scanMonths_Hit alm year termName (l : list (Z * Z)) (o : Solar) :
  scanMonths alm year termName l = Hit o ->
  getYear o = year
  /\ exists before probe after,
       l = before ++ probe :: after
       /\ alm (fst probe) (snd probe) 15 termName = Found o
       /\ Forall (passes alm year termName) before.
Proof.
  induction l as [|[y mon] l IH]; cbn; [discriminate|].
  destruct (alm y mon 15 termName) as [| |o'] eqn:E; [discriminate| |].
  - intros H. destruct (IH H) as (Hy & before & probe & after & -> & Hf & Hp).
    split; [exact Hy|].
    exists ((y, mon) :: before), probe, after. repeat split; [exact Hf|].
    constructor; [left; exact E | exact Hp].
  - destruct (getYear o' =? year) eqn:Ey.
    + intros H. injection H as <-. apply Z.eqb_eq in Ey.
      split; [exact Ey|].
      exists [], (y, mon), l. repeat split; [exact E | constructor].
    + intros H. destruct (IH H) as (Hy & before & probe & after & -> & Hf & Hp).
      split; [exact Hy|].
      exists ((y, mon) :: before), probe, after. repeat split; [exact Hf|].
      constructor; [|exact Hp].
      right. exists o'. split; [exact E|]. apply Z.eqb_neq. exact Ey.
Qed.

(** The search misses only when every probe passes. *)
Lemma scanMonths_Miss alm year termName (l : list (Z * Z)) :
  scanMonths alm year termName l = Miss <-> Forall (passes alm year termName) l.
Proof.
  induction l as [|[y mon] l IH]; cbn.
  - split; [constructor | reflexivity].
  - split.
    + destruct (alm y mon 15 termName) as [| |o'] eqn:E; [discriminate| |].
      * intros H. constructor; [left; exact E | apply IH; exact H].
      * destruct (getYear o' =? year) eqn:Ey; [discriminate|].
        intros H. constructor; [|apply IH; exact H].
        right. exists o'. split; [exact E|]. apply Z.eqb_neq. exact Ey.
    + intros H. inversion H as [|? ? Hp Hl]; subst.
      destruct Hp as [Hp | (o' & Hp & Hy)]; cbn in Hp; rewrite Hp.
      * apply IH. exact Hl.
      * apply Z.eqb_neq in Hy. rewrite Hy. apply IH. exact Hl.
Qed.

(** What a returned date is. *)
Lemma getExactJieqi_Ok alm year termName (d : Z) :
  getExactJieqi alm year termName = Ok d ->
  exists o before probe after,
    d = toDate o /\ getYear o = year
    /\ probes year termName = before ++ probe :: after
    /\ alm (fst probe) (snd probe) 15 termName = Found o
    /\ Forall (passes alm year termName) before.
Proof.
  rewrite getExactJieqi_probes.
  destruct (scanMonths alm year termName (probes year termName)) as [o| |] eqn:E;
    try discriminate.
  intros H. injection H as <-.
  destruct (scanMonths_Hit _ _ _ _ _ E) as (Hy & before & probe & after & Hl & Hf & Hp).
  exists o, before, probe, after. repeat split; assumption.
Qed.

(** The only error is the one naming the year and the term. *)
Lemma getExactJieqi_Err alm year termName (e : error) :
  getExactJieqi alm year termName = Err e -> e = LookupError year termName.
Proof.
  rewrite getExactJieqi_probes.
  destruct (scanMonths alm year termName (probes year termName));
    intros H; congruence.
Qed.

(** Outside of the two-digit years a returned date lies in the requested
    civil year. *)
Lemma getExactJieqi_year alm year termName (d : Z) :
  Almanac_wf alm ->
  ~ (0 <= year <= 99) ->
  getExactJieqi alm year termName = Ok d ->
  JSDate.getFullYear d = year.
Proof.
  intros Hwf Hy H.
  destruct (getExactJieqi_Ok _ _ _ _ H) as (o & before & probe & after & -> & Ho & _ & Hf & _).
  unfold toDate. rewrite Ho. apply JSDateFacts.getFullYear_make; [exact Hy|].
  exact (Hwf _ _ _ _ _ Hf).
Qed.

(** For a two-digit year a returned date lies in the twentieth century. *)
Lemma getExactJieqi_two_digit alm year termName (d : Z) :
  Almanac_wf alm ->
  0 <= year <= 99 ->
  getExactJieqi alm year termName = Ok d ->
  JSDate.getFullYear d = 1900 + year.
Proof.
  intros Hwf Hy H.
  destruct (getExactJieqi_Ok _ _ _ _ H) as (o & before & probe & after & -> & Ho & _ & Hf & _).
  unfold toDate. rewrite Ho. apply JSDateFacts.getFullYear_make_two_digit; [exact Hy|].
  exact (Hwf _ _ _ _ _ Hf).
Qed.

End LocatorFacts.

(** C8, evaluated at year 50 and the term Great Cold.  The almanac reports
    the Great Cold of year 50 for the first probe, the year check accepts
    it, and the date built from its fields is the 20th of January 1950: the
    locator returns, without an error, an instant of civil year 1950. *)
Theorem getExactJieqi_two_digit_year :
  sampleAlmanac 50 1 15 DaHan = Found (mkSolar 50 1 20 12 0 0)
  /\ Session.getExactJieqi sampleAlmanac 50 DaHan = Ok (JSDate.make 50 0 20 12 0 0)
  /\ JSDate.make 50 0 20 12 0 0 = JSDate.make 1950 0 20 12 0 0
  /\ JSDate.getFullYear (JSDate.make 50 0 20 12 0 0) = 1950.
Proof. repeat split; vm_compute; reflexivity. Qed.

(* ================================================================== *)
(** * The yearly collision score                                       *)
(* ================================================================== *)

(** ** The code against it *)

Lemma getGuestFortunes_elements (w : WuYunLiuQi.t) (s : HeavenlyStem.t) :
  WuYunLiuQi.stem w = Some s ->
  exists gf, WuYunLiuQi.getGuestFortunes w = Ok gf
             /\ map element gf = guestElements s
             /\ map step gf = [1; 2; 3; 4; 5].
Proof.
  intros Hs. unfold WuYunLiuQi.getGuestFortunes. rewrite Hs. cbn [defined bind].
  eexists. split; [reflexivity|]. split; reflexivity.
Qed.

Lemma stepPtsSum_sum (e : AHIEngine.t) (guestYuns : list Element) :
  AHIEngine.stepPtsSum e guestYuns = sumZ (map (AHIEngine.stepPts e) guestYuns).
Proof.
  unfold AHIEngine.stepPtsSum, sumZ.
  assert (H : forall acc,
             fold_left (fun acc' gy => acc' + AHIEngine.stepPts e gy) guestYuns acc
             = acc + fold_right Z.add 0 (map (AHIEngine.stepPts e) guestYuns)).
  { induction guestYuns as [|gy l IH]; intros acc; cbn; [lia|].
    rewrite IH. lia. }
  rewrite H. lia.
Qed.

(** The nested conditionals of the code are the priority chain. *)
Lemma sqPts2_chain (e : AHIEngine.t) (siTian : QiType.t) (cyBranchEl : Element) :
  AHIEngine.sqPts2 e siTian cyBranchEl
  = qiPart2 (AHIEngine.natalSuiYun e) (QiType.element siTian) cyBranchEl.
Proof.
  unfold AHIEngine.sqPts2, qiPart2, firstMatch, generates, overcomes.
  repeat match goal with
         | |- context [if ?c then _ else _] => destruct c
         end; reflexivity.
Qed.

(** One value of the chain, never a sum of two. *)
Lemma qiPart2_values (natalStem celestialEl branchEl : Element) :
  In (qiPart2 natalStem celestialEl branchEl) [22; 20; -15; -20; -28; -12; 0].
Proof.
  unfold qiPart2, firstMatch.
  repeat match goal with
         | |- context [if ?c then _ else _] => destruct c
         end; cbn; tauto.
Qed.

(** The body of [calculateYearAhi], once the flow-year profile is built. *)
Lemma calculateYearAhi_yearScore getExactJieqi stemFromYear branchFromYear
      (e : AHIEngine.t) (targetYear dt : Z) (flowYear : WuYunLiuQi.t)
      (s : HeavenlyStem.t) (b : EarthlyBranch.t) :
  getExactJieqi targetYear DaHan = Ok dt ->
  WuYunLiuQi.new getExactJieqi stemFromYear branchFromYear dt = Ok flowYear ->
  WuYunLiuQi.stem flowYear = Some s ->
  WuYunLiuQi.branch flowYear = Some b ->
  AHIEngine.calculateYearAhi getExactJieqi stemFromYear branchFromYear e targetYear
  = Ok (yearScore e s b).
Proof.
  intros Hdt Hnew Hs Hb.
  unfold AHIEngine.calculateYearAhi.
  rewrite Hdt. cbn [bind]. rewrite Hnew. cbn [bind].
  rewrite Hs. cbn [defined bind].
  rewrite (getClimaticEffect_table flowYear b Hb). cbn [defined bind].
  unfold WuYunLiuQi.getGuestFortunes. rewrite Hs. cbn [defined bind].
  rewrite Hb. cbn [defined bind]. reflexivity.
Qed.

(** Without a stem or without a branch the year has no score. *)
Lemma calculateYearAhi_undefined getExactJieqi stemFromYear branchFromYear
      (e : AHIEngine.t) (targetYear dt : Z) (flowYear : WuYunLiuQi.t) :
  getExactJieqi targetYear DaHan = Ok dt ->
  WuYunLiuQi.new getExactJieqi stemFromYear branchFromYear dt = Ok flowYear ->
  WuYunLiuQi.stem flowYear = None \/ WuYunLiuQi.branch flowYear = None ->
  AHIEngine.calculateYearAhi getExactJieqi stemFromYear branchFromYear e targetYear
  = Err TypeError.
Proof.
  intros Hdt Hnew Hnone.
  unfold AHIEngine.calculateYearAhi.
  rewrite Hdt. cbn [bind]. rewrite Hnew. cbn [bind].
  destruct (WuYunLiuQi.stem flowYear) as [s|] eqn:Hs; [|reflexivity].
  destruct Hnone as [Hn | Hn]; [discriminate|].
  cbn [defined bind]. rewrite (getClimaticEffect_undefined flowYear Hn). reflexivity.
Qed.

(** The code computes the total of the specification. *)
Lemma yearScore_collision (e : AHIEngine.t) (s : HeavenlyStem.t) (b : EarthlyBranch.t) :
  (yearScore e s b == collision e s b)%Q.
Proof.
  unfold yearScore, collision, mean.
  change (map element (WuYunLiuQi.guestLoop 5 0 (HeavenlyStem.element s)
                                            (HeavenlyStem.adequacy s)))
    with (guestElements s).
  rewrite stepPtsSum_sum, sqPts2_chain.
  cbn [length map guestElements Z.of_nat Pos.of_succ_nat Pos.succ].
  field.
Qed.

(** C2. For a target year whose Great Cold is located and whose flow-year
    profile has a stem and a branch, [calculateYearAhi] returns
    0.30 * (0.90 * movementTotal + 0.10 * movementStepAvg)
    + 0.70 * (0.25 * qiPart1 + 0.75 * qiPart2), where movementStepAvg is
    the mean of the five per-step guest-movement scores and qiPart2 is the
    first-match chain +22, +20, -15, -20, -28, -12, otherwise 0: one of these
    seven values. *)
Theorem collision_score_formula getExactJieqi stemFromYear branchFromYear
        (e : AHIEngine.t) (targetYear dt : Z) (flowYear : WuYunLiuQi.t)
        (s : HeavenlyStem.t) (b : EarthlyBranch.t) :
  getExactJieqi targetYear DaHan = Ok dt ->
  WuYunLiuQi.new getExactJieqi stemFromYear branchFromYear dt = Ok flowYear ->
  WuYunLiuQi.stem flowYear = Some s ->
  WuYunLiuQi.branch flowYear = Some b ->
  let movementTotal :=
    inject_Z (AHIEngine.suiYunPts e (HeavenlyStem.element s) (HeavenlyStem.adequacy s)) in
  let stepScores := map (AHIEngine.stepPts e) (guestElements s) in
  let movementStepAvg := mean stepScores in
  let siTian := celestial (effectOf b) in
  let zaiQuan := terrestrial (effectOf b) in
  let qiPart1 := inject_Z (AHIEngine.sqPts1 e siTian zaiQuan) in
  let chain :=
    qiPart2 (AHIEngine.natalSuiYun e) (QiType.element siTian) (EarthlyBranch.element b) in
  exists v,
    AHIEngine.calculateYearAhi getExactJieqi stemFromYear branchFromYear e targetYear
    = Ok v
    /\ (v == 0.30 * (0.90 * movementTotal + 0.10 * movementStepAvg)
             + 0.70 * (0.25 * qiPart1 + 0.75 * inject_Z chain))%Q
    /\ length stepScores = 5%nat
    /\ In chain [22; 20; -15; -20; -28; -12; 0].
Proof.
  intros Hdt Hnew Hs Hb movementTotal stepScores movementStepAvg siTian zaiQuan
         qiPart1 chain.
  exists (yearScore e s b).
  split; [exact (calculateYearAhi_yearScore _ _ _ e _ _ _ s b Hdt Hnew Hs Hb)|].
  split; [|split].
  - rewrite yearScore_collision. reflexivity.
  - reflexivity.
  - apply qiPart2_values.
Qed.

Lemma sampleEngine_built :
  ServerTs.AHIEngine_new sampleAlmanac (JSDate.make 1990 5 15 12 0 0) = Ok sampleEngine
  /\ Session.AHIEngine_new sampleAlmanac (JSDate.make 1990 5 15 12 0 0) = Ok sampleEngine.
Proof. split; vm_compute; reflexivity. Qed.

Lemma collision_score_formula_witness :
  exists v,
    ServerTs.calculateYearAhi sampleAlmanac sampleEngine 1991 = Ok v
    /\ (v == collision sampleEngine HeavenlyStem.XIN EarthlyBranch.WEI)%Q.
Proof.
  destruct (collision_score_formula (ServerTs.getExactJieqi sampleAlmanac)
              HeavenlyStem.fromYear EarthlyBranch.fromYear sampleEngine
              1991 (JSDate.make 1991 0 20 12 0 0)
              (WuYunLiuQi.mk (JSDate.make 1991 0 20 12 0 0) 1991
                 (Some HeavenlyStem.XIN) (Some EarthlyBranch.WEI))
              HeavenlyStem.XIN EarthlyBranch.WEI)
    as (v & Hv & Heq & _).
  - vm_compute. reflexivity.
  - vm_compute. reflexivity.
  - reflexivity.
  - reflexivity.
  - exists v. split; [exact Hv | exact Heq].
Defined.

(* ================================================================== *)
(** * The movement-year of a date                                      *)
(* ================================================================== *)

Section MovementYear.

Variable getExactJieqi : Z -> SolarTerm -> result Z.
Variable stemFromYear : Z -> option HeavenlyStem.t.
Variable branchFromYear : Z -> option EarthlyBranch.t.

(** The constructor succeeds exactly when the locator does. *)
Lemma new_Ok (date g : Z) :
  getExactJieqi (JSDate.getFullYear date) DaHan = Ok g ->
  WuYunLiuQi.new getExactJieqi stemFromYear branchFromYear date
  = Ok (WuYunLiuQi.mk date (assignedYear date g)
          (stemFromYear (assignedYear date g))
          (branchFromYear (assignedYear date g))).
Proof. intros H. unfold WuYunLiuQi.new. rewrite H. reflexivity. Qed.

Lemma new_Err (date : Z) (e : error) :
  getExactJieqi (JSDate.getFullYear date) DaHan = Err e ->
  WuYunLiuQi.new getExactJieqi stemFromYear branchFromYear date = Err e.
Proof. intros H. unfold WuYunLiuQi.new. rewrite H. reflexivity. Qed.

Lemma assignedYear_before (date g : Z) :
  date < g -> assignedYear date g = JSDate.getFullYear date - 1.
Proof. intros H. unfold assignedYear. apply Z.ltb_lt in H. now rewrite H. Qed.

Lemma assignedYear_from (date g : Z) :
  g <= date -> assignedYear date g = JSDate.getFullYear date.
Proof. intros H. unfold assignedYear. apply Z.ltb_ge in H. now rewrite H. Qed.

(** The assigned year is Y exactly on the interval from the Great Cold of Y
    to the Great Cold of Y + 1, when both lie in their own civil years. *)
Lemma assignedYear_interval (date g Y gY gY1 : Z) :
  getExactJieqi (JSDate.getFullYear date) DaHan = Ok g ->
  getExactJieqi Y DaHan = Ok gY ->
  getExactJieqi (Y + 1) DaHan = Ok gY1 ->
  JSDate.getFullYear gY = Y ->
  JSDate.getFullYear gY1 = Y + 1 ->
  (assignedYear date g = Y <-> gY <= date < gY1).
Proof.
  intros Hg HY HY1 HyY HyY1. split.
  - intros Hw. destruct (Z.lt_ge_cases date g) as [Hlt | Hge].
    + rewrite assignedYear_before in Hw by exact Hlt.
      assert (Hg1 : gY1 = g).
      { replace (Y + 1) with (JSDate.getFullYear date) in HY1 by lia. congruence. }
      subst gY1. split; [|exact Hlt].
      apply Z.lt_le_incl, JSDateFacts.getFullYear_lt. lia.
    + rewrite assignedYear_from in Hw by exact Hge.
      assert (Hg0 : gY = g) by (rewrite <- Hw in HY; congruence).
      subst gY. split; [exact Hge|].
      apply JSDateFacts.getFullYear_lt. lia.
  - intros [Hlo Hhi].
    pose proof (JSDateFacts.getFullYear_mono _ _ Hlo) as Mlo.
    pose proof (JSDateFacts.getFullYear_mono _ _ (Z.lt_le_incl _ _ Hhi)) as Mhi.
    assert (Hc : JSDate.getFullYear date = Y \/ JSDate.getFullYear date = Y + 1)
      by lia.
    destruct Hc as [Hc | Hc].
    + rewrite Hc in Hg. assert (g = gY) by congruence. subst g.
      rewrite assignedYear_from by exact Hlo. exact Hc.
    + rewrite Hc in Hg. assert (g = gY1) by congruence. subst g.
      rewrite assignedYear_before by exact Hhi. lia.
Qed.

(** C3. Let the locator give the Great Cold of the civil year of a date.
    Then the constructor builds a profile, and
    - for every year Y whose Great Cold and that of Y + 1 are located in
      their own civil years, the movement-year is Y exactly when the date is
      on or after the Great Cold of Y and before the Great Cold of Y + 1;
    - a date equal to the Great Cold instant of its year has that year as
      movement-year;
    - a date before the Great Cold of its civil year has the year before as
      movement-year. *)
Theorem movement_year_rule (date g : Z) :
  getExactJieqi (JSDate.getFullYear date) DaHan = Ok g ->
  exists w,
    WuYunLiuQi.new getExactJieqi stemFromYear branchFromYear date = Ok w
    /\ (forall Y gY gY1,
          getExactJieqi Y DaHan = Ok gY ->
          getExactJieqi (Y + 1) DaHan = Ok gY1 ->
          JSDate.getFullYear gY = Y ->
          JSDate.getFullYear gY1 = Y + 1 ->
          (WuYunLiuQi.wuyunYear w = Y <-> gY <= date < gY1))
    /\ (forall Y,
          getExactJieqi Y DaHan = Ok date ->
          JSDate.getFullYear date = Y ->
          WuYunLiuQi.wuyunYear w = Y)
    /\ (date < g -> WuYunLiuQi.wuyunYear w = JSDate.getFullYear date - 1).
Proof.
  intros Hg. eexists. split; [apply new_Ok; exact Hg|].
  cbn [WuYunLiuQi.wuyunYear]. split; [|split].
  - intros Y gY gY1 HY HY1 HyY HyY1.
    exact (assignedYear_interval date g Y gY gY1 Hg HY HY1 HyY HyY1).
  - intros Y HY Hy. rewrite <- Hy in HY. assert (g = date) by congruence. subst g.
    rewrite assignedYear_from by lia. exact Hy.
  - intros Hlt. apply assignedYear_before. exact Hlt.
Qed.

(** When the Great Cold located for a target year lies in that civil
    year, the profile built from it has the target year as movement-year:
    the instant is not before itself.  Its stem, its branch and its pair of
    qi are those of the target year, and they are the ones the collision
    score of the year is computed from. *)
Lemma flow_year_of_located_date (targetYear dt : Z) :
  getExactJieqi targetYear DaHan = Ok dt ->
  JSDate.getFullYear dt = targetYear ->
  exists flowYear,
    WuYunLiuQi.new getExactJieqi stemFromYear branchFromYear dt = Ok flowYear
    /\ WuYunLiuQi.wuyunYear flowYear = targetYear
    /\ WuYunLiuQi.stem flowYear = stemFromYear targetYear
    /\ WuYunLiuQi.branch flowYear = branchFromYear targetYear
    /\ WuYunLiuQi.getClimaticEffect flowYear
       = match branchFromYear targetYear with
         | Some b => Ok (Some (effectOf b))
         | None => Err TypeError
         end
    /\ forall (e : AHIEngine.t) s b,
         stemFromYear targetYear = Some s ->
         branchFromYear targetYear = Some b ->
         exists v,
           AHIEngine.calculateYearAhi getExactJieqi stemFromYear branchFromYear
             e targetYear = Ok v
           /\ (v == collision e s b)%Q.
Proof.
  intros Hdt Hy.
  assert (Hg : getExactJieqi (JSDate.getFullYear dt) DaHan = Ok dt)
    by (rewrite Hy; exact Hdt).
  pose proof (new_Ok dt dt Hg) as Hnew.
  rewrite assignedYear_from in Hnew by lia. rewrite Hy in Hnew.
  eexists. split; [exact Hnew|].
  cbn [WuYunLiuQi.wuyunYear WuYunLiuQi.stem WuYunLiuQi.branch].
  repeat split.
  - destruct (branchFromYear targetYear) as [b|] eqn:Eb.
    + apply getClimaticEffect_table. reflexivity.
    + apply getClimaticEffect_undefined. reflexivity.
  - intros e s b Hs Hb. exists (yearScore e s b). split.
    + exact (calculateYearAhi_yearScore _ _ _ e _ _ _ s b Hdt Hnew Hs Hb).
    + apply yearScore_collision.
Qed.

End MovementYear.

Lemma movement_year_rule_witness :
  exists w,
    Session.WuYunLiuQi_new sampleAlmanac (JSDate.make 1990 0 10 12 0 0) = Ok w
    /\ (WuYunLiuQi.wuyunYear w = 1989 <->
        JSDate.make 1989 0 20 12 0 0 <= JSDate.make 1990 0 10 12 0 0
        < JSDate.make 1990 0 20 12 0 0)
    /\ WuYunLiuQi.wuyunYear w = JSDate.getFullYear (JSDate.make 1990 0 10 12 0 0) - 1.
Proof.
  destruct (movement_year_rule (Session.getExactJieqi sampleAlmanac)
              HeavenlyStem.fromYear_nonneg EarthlyBranch.fromYear_nonneg
              (JSDate.make 1990 0 10 12 0 0) (JSDate.make 1990 0 20 12 0 0))
    as (w & Hw & Hiff & _ & Hbefore).
  - vm_compute. reflexivity.
  - exists w. split; [exact Hw|]. split.
    + apply Hiff; vm_compute; reflexivity.
    + apply Hbefore. vm_compute. reflexivity.
Defined.

(** With the locator of the session variant, a well-formed almanac and a
    target year that is not a two-digit year, the premise on the civil year
    holds by the year check. *)
Corollary Session_flow_year (alm : Almanac) (targetYear dt : Z) :
  Almanac_wf alm ->
  ~ (0 <= targetYear <= 99) ->
  Session.getExactJieqi alm targetYear DaHan = Ok dt ->
  exists flowYear,
    Session.WuYunLiuQi_new alm dt = Ok flowYear
    /\ WuYunLiuQi.wuyunYear flowYear = targetYear.
Proof.
  intros Hwf Hy Hdt.
  pose proof (LocatorFacts.getExactJieqi_year alm targetYear DaHan dt Hwf Hy Hdt)
    as Hyear.
  eexists. split.
  - apply new_Ok. rewrite Hyear. exact Hdt.
  - cbn [WuYunLiuQi.wuyunYear]. rewrite assignedYear_from by lia. exact Hyear.
Qed.

(** With the locator of the session variant and a well-formed almanac, the
    movement-year of a date is Y exactly on the interval of Y, for every
    year Y such that neither Y nor Y + 1 is a two-digit year. *)
Corollary Session_movement_year (alm : Almanac) (date Y gY gY1 : Z)
          (w : WuYunLiuQi.t) :
  Almanac_wf alm ->
  ~ (-1 <= Y <= 99) ->
  Session.getExactJieqi alm Y DaHan = Ok gY ->
  Session.getExactJieqi alm (Y + 1) DaHan = Ok gY1 ->
  Session.WuYunLiuQi_new alm date = Ok w ->
  (WuYunLiuQi.wuyunYear w = Y <-> gY <= date < gY1).
Proof.
  intros Hwf HY HgY HgY1 Hw.
  unfold Session.WuYunLiuQi_new, WuYunLiuQi.new in Hw.
  apply bind_Ok_inv in Hw as (g & Hg & Hw). injection Hw as <-.
  cbn [WuYunLiuQi.wuyunYear].
  apply (assignedYear_interval (Session.getExactJieqi alm) date g Y gY gY1 Hg HgY HgY1).
  - apply (LocatorFacts.getExactJieqi_year alm Y DaHan gY Hwf); [lia | exact HgY].
  - apply (LocatorFacts.getExactJieqi_year alm (Y + 1) DaHan gY1 Hwf); [lia | exact HgY1].
Qed.

(* ================================================================== *)
(** * The sixty-point series                                           *)
(* ================================================================== *)

(** ** Rounding to two decimals *)

Lemma Qfloor_unique (m : Z) (x : Q) :
  (inject_Z m <= x < inject_Z (m + 1))%Q -> Qfloor x = m.
Proof.
  intros [Hlo Hhi].
  pose proof (Qfloor_le x) as Fle.
  pose proof (Qlt_floor x) as Flt.
  assert (H1 : (inject_Z m < inject_Z (Qfloor x + 1))%Q)
    by (eapply Qle_lt_trans; eassumption).
  assert (H2 : (inject_Z (Qfloor x) < inject_Z (m + 1))%Q)
    by (eapply Qle_lt_trans; eassumption).
  rewrite <- Zlt_Qlt in H1, H2. lia.
Qed.

Lemma Qfloor_hundredths (n : Z) : Qfloor (inject_Z n * 100 + 0.5) = n * 100.
Proof.
  apply Qfloor_unique.
  rewrite !inject_Z_plus, !inject_Z_mult.
  change (inject_Z 100) with 100%Q. change (inject_Z 1) with 1%Q.
  split; lra.
Qed.

Lemma toFixed2_comp (x y : Q) : (x == y)%Q -> (toFixed2 x == toFixed2 y)%Q.
Proof.
  intros H. unfold toFixed2.
  destruct (Qlt_le_dec x 0) as [Hx | Hx]; destruct (Qlt_le_dec y 0) as [Hy | Hy];
    try (rewrite H in Hx; lra).
  - assert (E : Qfloor (- x * 100 + 0.5) = Qfloor (- y * 100 + 0.5))
      by (apply Qfloor_comp; rewrite H; reflexivity).
    rewrite E. reflexivity.
  - assert (E : Qfloor (x * 100 + 0.5) = Qfloor (y * 100 + 0.5))
      by (apply Qfloor_comp; rewrite H; reflexivity).
    rewrite E. reflexivity.
Qed.

(** An integer is its own rounding. *)
Lemma toFixed2_integer (n : Z) : (toFixed2 (inject_Z n) == inject_Z n)%Q.
Proof.
  unfold toFixed2. destruct (Qlt_le_dec (inject_Z n) 0) as [Hn | Hn].
  - replace (- inject_Z n)%Q with (inject_Z (- n)) by reflexivity.
    rewrite Qfloor_hundredths, inject_Z_mult, inject_Z_opp.
    change (inject_Z 100) with 100%Q. field.
  - rewrite Qfloor_hundredths, inject_Z_mult.
    change (inject_Z 100) with 100%Q. field.
Qed.

(** Rounding keeps a score between 0 and 100. *)
Lemma toFixed2_range (x : Q) :
  (0 <= x <= 100)%Q -> (0 <= toFixed2 x <= 100)%Q.
Proof.
  intros [Hlo Hhi]. unfold toFixed2.
  destruct (Qlt_le_dec x 0) as [Hx | Hx]; [lra|].
  assert (F0 : 0 <= Qfloor (x * 100 + 0.5)).
  { change 0 with (Qfloor 0.5). apply Qfloor_resp_le. lra. }
  assert (F1 : Qfloor (x * 100 + 0.5) <= 10000).
  { change 10000 with (Qfloor 10000.5). apply Qfloor_resp_le. lra. }
  rewrite Zle_Qle in F0, F1.
  change (inject_Z 0) with 0%Q in F0. change (inject_Z 10000) with 10000%Q in F1.
  unfold Qdiv. change (/ 100)%Q with (1 # 100)%Q.
  split; lra.
Qed.

(** The rounding moves a score by at most half a hundredth. *)
Lemma toFixed2_near (x : Q) :
  (0 <= x)%Q -> (x - 0.005 < toFixed2 x <= x + 0.005)%Q.
Proof.
  intros Hx. unfold toFixed2.
  destruct (Qlt_le_dec x 0) as [Hn | Hn]; [lra|].
  pose proof (Qfloor_le (x * 100 + 0.5)) as Fle.
  pose proof (Qlt_floor (x * 100 + 0.5)) as Flt.
  rewrite inject_Z_plus in Flt. change (inject_Z 1) with 1%Q in Flt.
  unfold Qdiv. change (/ 100)%Q with (1 # 100)%Q.
  split; lra.
Qed.

Lemma lifecycleDrift_drift (a : Z) : 1 <= a -> lifecycleDrift a = drift a.
Proof.
  intros H. unfold lifecycleDrift, drift.
  destruct (a <=? 20) eqn:E20; destruct (a <=? 40) eqn:E40;
    destruct (a <=? 50) eqn:E50;
    rewrite ?Z.leb_le, ?Z.leb_gt in *;
    repeat match goal with
      | |- context [(?x <=? ?y)] =>
          let E := fresh "E" in
          destruct (x <=? y) eqn:E; rewrite ?Z.leb_le, ?Z.leb_gt in E
      end; cbn [andb]; try reflexivity; lia.
Qed.

Lemma clamp_range (x : Q) : (0 <= clamp x 0 100 <= 100)%Q.
Proof.
  unfold clamp. split.
  - apply Q.le_max_l.
  - apply Q.max_lub; [lra | apply Q.le_min_l].
Qed.

Lemma ages_In (a : Z) : In a ages <-> 1 <= a <= 60.
Proof.
  unfold ages. rewrite in_map_iff. split.
  - intros (n & <- & Hn). apply in_seq in Hn. lia.
  - intros H. exists (Z.to_nat a). split; [lia|]. apply in_seq. lia.
Qed.

Section Kline.

Variable getExactJieqi : Z -> SolarTerm -> result Z.
Variable stemFromYear : Z -> option HeavenlyStem.t.
Variable branchFromYear : Z -> option EarthlyBranch.t.
Variable engine : AHIEngine.t.
Variable year : Z.
Variable impact : Z -> Q.

Lemma klineLoop_points (todo : list Z) (currentHealth : Q) (acc : list KlinePoint) :
  (forall a, In a todo ->
     AHIEngine.calculateYearAhi getExactJieqi stemFromYear branchFromYear
       engine (year + a - 1) = Ok (impact a)) ->
  klineLoop getExactJieqi stemFromYear branchFromYear engine year
    todo currentHealth acc
  = Ok (acc ++ points engine impact todo currentHealth).
Proof.
  revert currentHealth acc.
  induction todo as [|age rest IH]; intros currentHealth acc Himp.
  - cbn. now rewrite app_nil_r.
  - cbn [klineLoop points]. unfold klineStep.
    rewrite (Himp age (or_introl eq_refl)). cbn [bind].
    rewrite IH by (intros a Ha; apply Himp; right; exact Ha).
    rewrite <- app_assoc. reflexivity.
Qed.

(** A failing year stops the loop with its error. *)
Lemma klineLoop_Err (before after : list Z) (age : Z) (err : error)
      (currentHealth : Q) (acc : list KlinePoint) :
  (forall a, In a before ->
     AHIEngine.calculateYearAhi getExactJieqi stemFromYear branchFromYear
       engine (year + a - 1) = Ok (impact a)) ->
  AHIEngine.calculateYearAhi getExactJieqi stemFromYear branchFromYear
    engine (year + age - 1) = Err err ->
  klineLoop getExactJieqi stemFromYear branchFromYear engine year
    (before ++ age :: after) currentHealth acc
  = Err err.
Proof.
  revert currentHealth acc.
  induction before as [|b rest IH]; intros currentHealth acc Himp Herr.
  - cbn [app klineLoop]. unfold klineStep. rewrite Herr. reflexivity.
  - cbn [app klineLoop]. unfold klineStep.
    rewrite (Himp b (or_introl eq_refl)). cbn [bind].
    apply IH; [|exact Herr]. intros a Ha. apply Himp. right. exact Ha.
Qed.

Lemma points_length (todo : list Z) (currentHealth : Q) :
  length (points engine impact todo currentHealth) = length todo.
Proof.
  revert currentHealth. induction todo as [|age rest IH]; intros h; cbn;
    [reflexivity | now rewrite IH].
Qed.

Lemma points_nth (n k i : nat) :
  (i < n)%nat ->
  nth_error (points engine impact (map Z.of_nat (seq (S k) n))
                    (carried engine impact k)) i
  = Some (mkPoint (Z.of_nat (S (k + i)))
                  (toFixed2 (carried engine impact (k + i)))
                  (toFixed2 (carried engine impact (S (k + i))))).
Proof.
  revert k i. induction n as [|n IH]; intros k i Hi; [lia|].
  destruct i as [|i].
  - cbn [seq map points nth_error]. rewrite Nat.add_0_r. reflexivity.
  - cbn [seq map points nth_error].
    change (closeScore engine impact (carried engine impact k) (Z.of_nat (S k)))
      with (carried engine impact (S k)).
    rewrite IH by lia.
    replace (S k + i)%nat with (k + S i)%nat by lia. reflexivity.
Qed.

(** The carried health is the health of the specification. *)
Lemma carried_health (n : nat) :
  (carried engine impact n == health (inject_Z (AHIEngine.baseScore engine)) impact n)%Q.
Proof.
  induction n as [|n IH]; [reflexivity|].
  cbn [carried health]. unfold closeScore, clamp.
  rewrite lifecycleDrift_drift by lia. rewrite IH.
  apply Q.max_compat; [reflexivity|]. apply Q.min_compat; [reflexivity|]. ring.
Qed.

Lemma carried_range (n : nat) :
  20 <= AHIEngine.baseScore engine <= 70 -> (0 <= carried engine impact n <= 100)%Q.
Proof.
  intros Hb. destruct n as [|n].
  - cbn [carried]. destruct Hb as [Hlo Hhi]. rewrite Zle_Qle in Hlo, Hhi.
    change (inject_Z 20) with 20%Q in Hlo. change (inject_Z 70) with 70%Q in Hhi.
    split; lra.
  - cbn [carried]. apply (clamp_range _).
Qed.

(** The series of an engine whose sixty yearly scores are computed. *)
Lemma klineData_points :
  (forall a, 1 <= a <= 60 ->
     AHIEngine.calculateYearAhi getExactJieqi stemFromYear branchFromYear
       engine (year + a - 1) = Ok (impact a)) ->
  klineData getExactJieqi stemFromYear branchFromYear engine year
  = Ok (points engine impact ages (inject_Z (AHIEngine.baseScore engine))).
Proof.
  intros Himp. unfold klineData.
  rewrite klineLoop_points by (intros a Ha; apply Himp, ages_In; exact Ha).
  reflexivity.
Qed.

End Kline.

Lemma allOk_impacts (calc : Z -> result Q) (year : Z) :
  allOk calc year = true ->
  forall a, 1 <= a <= 60 -> calc (year + a - 1) = Ok (impactOf calc year a).
Proof.
  intros H a Ha. unfold allOk in H. rewrite forallb_forall in H.
  specialize (H a (proj2 (ages_In a) Ha)). unfold impactOf.
  destruct (calc (year + a - 1)); [reflexivity | discriminate].
Qed.

(** ** The series of the route *)

(** C6. When the sixty yearly collision scores are computed, the first
    point opens at the natal base score, and for every age from 2 to 60 the
    open of the point is the close of the point before, as emitted. *)
Theorem kline_open_is_previous_close getExactJieqi stemFromYear branchFromYear
        (engine : AHIEngine.t) (year : Z) (impact : Z -> Q) :
  (forall a, 1 <= a <= 60 ->
     AHIEngine.calculateYearAhi getExactJieqi stemFromYear branchFromYear
       engine (year + a - 1) = Ok (impact a)) ->
  exists pts,
    klineData getExactJieqi stemFromYear branchFromYear engine year = Ok pts
    /\ (exists p1,
          nth_error pts 0 = Some p1
          /\ age p1 = 1
          /\ (open p1 == inject_Z (AHIEngine.baseScore engine))%Q)
    /\ forall a : nat, (2 <= a <= 60)%nat ->
         exists p q,
           nth_error pts (a - 1) = Some p
           /\ nth_error pts (a - 2) = Some q
           /\ age p = Z.of_nat a
           /\ age q = Z.of_nat (a - 1)
           /\ open p = close q.
Proof.
  intros Himp. eexists. split; [apply klineData_points; exact Himp|].
  change (inject_Z (AHIEngine.baseScore engine)) with (carried engine impact 0) at 1 3.
  unfold ages. split.
  - eexists. split; [apply (points_nth engine impact 60 0 0); lia|].
    cbn [age open Nat.add]. split; [reflexivity|].
    cbn [carried]. apply toFixed2_integer.
  - intros a Ha. destruct a as [|[|n]]; [lia | lia |].
    replace (S (S n) - 1)%nat with (S n) by lia.
    replace (S (S n) - 2)%nat with n by lia.
    eexists. eexists.
    split; [apply (points_nth engine impact 60 0 (S n)); lia|].
    split; [apply (points_nth engine impact 60 0 n); lia|].
    cbn [age open close Nat.add]. repeat split.
Qed.

Lemma kline_open_is_previous_close_witness :
  exists pts p1,
    klineData (ServerTs.getExactJieqi sampleAlmanac)
      HeavenlyStem.fromYear EarthlyBranch.fromYear sampleEngine 1990 = Ok pts
    /\ nth_error pts 0 = Some p1
    /\ (open p1 == 68)%Q.
Proof.
  destruct (kline_open_is_previous_close (ServerTs.getExactJieqi sampleAlmanac)
              HeavenlyStem.fromYear EarthlyBranch.fromYear sampleEngine 1990
              (impactOf
                 (AHIEngine.calculateYearAhi (ServerTs.getExactJieqi sampleAlmanac)
         HeavenlyStem.fromYear EarthlyBranch.fromYear sampleEngine)
                 1990))
    as (pts & Hpts & (p1 & Hp1 & _ & Hopen) & _).
  - apply allOk_impacts. vm_compute. reflexivity.
  - exists pts, p1. split; [exact Hpts|]. split; [exact Hp1 | exact Hopen].
Defined.

(** The series of a response is the series of the engine of the birth date,
    and its base score the one of that engine. *)
Lemma api_calculate_kline getExactJieqi stemFromYear branchFromYear
      (year month day : Z) (resp : Response) :
  api_calculate getExactJieqi stemFromYear branchFromYear year month day = Ok resp ->
  exists engine,
    AHIEngine.new getExactJieqi stemFromYear branchFromYear
      (JSDate.make year (month - 1) day 12 0 0) = Ok engine
    /\ klineData getExactJieqi stemFromYear branchFromYear engine year
       = Ok (kline_data resp)
    /\ base_score resp = AHIEngine.baseScore engine.
Proof.
  unfold api_calculate.
  destruct ((year =? 0) || (month =? 0) || (day =? 0)); [discriminate|].
  intros H. inv_bind H. injection H as <-.
  eexists. split; [eassumption|]. split; [eassumption | reflexivity].
Qed.

(** A request without a year, a month or a day is refused. *)
Lemma api_calculate_BadRequest getExactJieqi stemFromYear branchFromYear
      (year month day : Z) :
  year = 0 \/ month = 0 \/ day = 0 ->
  api_calculate getExactJieqi stemFromYear branchFromYear year month day
  = Err BadRequest.
Proof.
  intros H. unfold api_calculate.
  replace ((year =? 0) || (month =? 0) || (day =? 0)) with true; [reflexivity|].
  symmetry. destruct H as [-> | [-> | ->]]; cbn; rewrite ?orb_true_r; reflexivity.
Qed.

(** The route run on the sample almanac, for a birth on the 15th of June
    1990: sixty points, the first three closing at 52.05, 70.89 and 79.09. *)
Example api_calculate_sample :
  exists resp,
    ServerTs.api_calculate sampleAlmanac 1990 6 15 = Ok resp
    /\ base_score resp = 68
    /\ length (kline_data resp) = 60%nat
    /\ map age (firstn 3 (kline_data resp)) = [1; 2; 3]
    /\ forallb (fun '(p, c) => Qeq_bool (close p) c)
               (combine (firstn 3 (kline_data resp)) [52.05; 70.89; 79.09]%Q) = true
    /\ forallb (fun p => Qle_bool 0 (close p) && Qle_bool (close p) 100)
               (kline_data resp) = true.
Proof.
  eexists. split; [vm_compute; reflexivity|].
  repeat split; vm_compute; reflexivity.
Qed.

(* ================================================================== *)
(** * Further properties of the tables and of the sequences            *)
(* ================================================================== *)

(* ================================================================== *)
(** * Further properties of the tables and of the guest sequences       *)
(* ================================================================== *)

(** X1. [QiType.previous] is defined on every qi, is injective, and six
    applications lead back to the start: the table is one cycle. *)
Theorem previous_is_a_cycle (q : QiType.t) :
  (exists p, QiType.previous q = Some p /\ p <> q)
  /\ (forall q', QiType.previous q' = QiType.previous q -> q' = q)
  /\ (exists p1 p2 p3 p4 p5,
        QiType.previous q = Some p1
        /\ QiType.previous p1 = Some p2
        /\ QiType.previous p2 = Some p3
        /\ QiType.previous p3 = Some p4
        /\ QiType.previous p4 = Some p5
        /\ QiType.previous p5 = Some q
        /\ NoDup [q; p1; p2; p3; p4; p5]).
Proof.
  split; [|split].
  - exists (QiType.pred q). split; [apply QiType_previous_pred|].
    destruct q; discriminate.
  - intros q' H. destruct q, q'; try reflexivity; discriminate H.
  - exists (QiType.pred q), (QiType.pred (QiType.pred q)),
      (QiType.pred (QiType.pred (QiType.pred q))),
      (QiType.pred (QiType.pred (QiType.pred (QiType.pred q)))),
      (QiType.pred (QiType.pred (QiType.pred (QiType.pred (QiType.pred q))))).
    rewrite !QiType_previous_pred.
    repeat (split; [reflexivity|]).
    split; [f_equal; apply QiType_pred_cycle|].
    destruct q; cbn;
      repeat (constructor; [cbn; intuition discriminate|]); constructor.
Qed.

(** X2. The table of [getClimaticEffect] splits the twelve branches into
    six pairs: a branch always finds its row, the two qi of a row differ,
    two branches share a row exactly when their indices differ by a
    multiple of six, and branches three apart have the two qi exchanged. *)
Theorem climatic_effect_pairs (w w' : WuYunLiuQi.t) (b b' : EarthlyBranch.t) :
  WuYunLiuQi.branch w = Some b ->
  WuYunLiuQi.branch w' = Some b' ->
  exists eff eff',
    WuYunLiuQi.getClimaticEffect w = Ok (Some eff)
    /\ WuYunLiuQi.getClimaticEffect w' = Ok (Some eff')
    /\ celestial eff <> terrestrial eff
    /\ (eff = eff' <->
        (EarthlyBranch.index b - EarthlyBranch.index b') mod 6 = 0)
    /\ ((EarthlyBranch.index b - EarthlyBranch.index b') mod 6 = 3 ->
        celestial eff' = terrestrial eff /\ terrestrial eff' = celestial eff).
Proof.
  intros Hb Hb'. exists (effectOf b), (effectOf b').
  split; [apply getClimaticEffect_table; exact Hb|].
  split; [apply getClimaticEffect_table; exact Hb'|].
  split; [destruct b; discriminate|].
  split.
  - destruct b, b'; cbn; split; intros H;
      first [reflexivity | discriminate H].
  - destruct b, b'; cbn; intros H;
      first [discriminate H | split; reflexivity].
Qed.

Lemma climatic_effect_pairs_witness :
  exists eff,
    WuYunLiuQi.getClimaticEffect
      (WuYunLiuQi.mk 0 1990 (Some HeavenlyStem.GENG) (Some EarthlyBranch.WU))
    = Ok (Some eff)
    /\ WuYunLiuQi.getClimaticEffect
         (WuYunLiuQi.mk 0 1984 (Some HeavenlyStem.JIA) (Some EarthlyBranch.ZI))
       = Ok (Some eff).
Proof.
  destruct (climatic_effect_pairs
              (WuYunLiuQi.mk 0 1990 (Some HeavenlyStem.GENG) (Some EarthlyBranch.WU))
              (WuYunLiuQi.mk 0 1984 (Some HeavenlyStem.JIA) (Some EarthlyBranch.ZI))
              EarthlyBranch.WU EarthlyBranch.ZI)
    as (eff & eff' & H1 & H2 & _ & Hiff & _).
  - reflexivity.
  - reflexivity.
  - exists eff. split; [exact H1|].
    replace eff with eff' by (symmetry; apply Hiff; reflexivity). exact H2.
Defined.

(** The six slots of the guest-qi sequence, read off the table. *)
Lemma getGuestQiSequence_slots (w : WuYunLiuQi.t) (b : EarthlyBranch.t) :
  WuYunLiuQi.branch w = Some b ->
  WuYunLiuQi.getGuestQiSequence w
  = Ok [ QiType.pred (QiType.pred (celestial (effectOf b)));
         QiType.pred (celestial (effectOf b));
         celestial (effectOf b);
         QiType.pred (QiType.pred (terrestrial (effectOf b)));
         QiType.pred (terrestrial (effectOf b));
         terrestrial (effectOf b) ].
Proof.
  intros Hb. unfold WuYunLiuQi.getGuestQiSequence.
  rewrite (getClimaticEffect_table w b Hb). cbn [bind defined].
  rewrite !QiType_previous_pred. cbn [bind defined].
  rewrite !QiType_previous_pred. reflexivity.
Qed.

(** X3. The guest-qi sequence always has six slots, but it holds each of
    the six qi once only in the years of the branches Zi, Wu, Mao and You,
    where it is the host sequence rotated.  In the years of the other eight
    branches the third and the fourth slot, or the first and the sixth,
    hold the same qi, so one qi is missing from the year. *)
Theorem guest_qi_distinct_slots (w : WuYunLiuQi.t) (b : EarthlyBranch.t) :
  WuYunLiuQi.branch w = Some b ->
  exists gs,
    WuYunLiuQi.getGuestQiSequence w = Ok gs
    /\ length gs = 6%nat
    /\ (NoDup gs <-> In b [EarthlyBranch.ZI; EarthlyBranch.WU;
                           EarthlyBranch.MAO; EarthlyBranch.YOU])
    /\ (NoDup gs ->
        exists k, 0 <= k < 6 /\
          forall i, 0 <= i < 6 ->
            JS.index gs i = JS.index QiType.list ((i + k) mod 6))
    /\ (~ NoDup gs ->
        JS.index gs 2 = JS.index gs 3 \/ JS.index gs 0 = JS.index gs 5).
Proof.
  intros Hb. eexists. split; [apply (getGuestQiSequence_slots w b Hb)|].
  split; [reflexivity|].
  assert (Hdup : forall (x : QiType.t) (l : list QiType.t),
             In x l -> ~ NoDup (x :: l)).
  { intros x l Hin H. inversion H; subst. contradiction. }
  assert (Hdup2 : forall (x y : QiType.t) (l : list QiType.t),
             ~ NoDup l -> ~ NoDup (x :: l)).
  { intros x y l Hn H. inversion H; subst. contradiction. }
  split; [|split].
  - destruct b; cbn; split; intros H.
    all: first
      [ solve [intuition reflexivity]
      | solve [repeat (constructor; [cbn; intuition discriminate|]); constructor]
      | solve [exfalso; cbn in H; intuition discriminate]
      | solve [exfalso; revert H;
               first [ apply Hdup; cbn; intuition reflexivity
                     | apply (Hdup2 _ QiType.WEAK_YIN_WOOD), (Hdup2 _ QiType.WEAK_YIN_WOOD),
                         Hdup; cbn; intuition reflexivity ]] ].
  - intros H.
    destruct b; cbn in H |- *.
    all: first
      [ solve [(exists 5 + exists 2); (split; [lia|]); intros i Hi;
               assert (Hc : i = 0 \/ i = 1 \/ i = 2 \/ i = 3 \/ i = 4 \/ i = 5) by lia;
               repeat (destruct Hc as [-> | Hc]); try subst i; reflexivity]
      | solve [exfalso; revert H;
               first [ apply Hdup; cbn; intuition reflexivity
                     | apply (Hdup2 _ QiType.WEAK_YIN_WOOD), (Hdup2 _ QiType.WEAK_YIN_WOOD),
                         Hdup; cbn; intuition reflexivity ]] ].
  - intros H.
    destruct b; cbn in H |- *.
    all: first
      [ solve [left; reflexivity]
      | solve [right; reflexivity]
      | solve [exfalso; apply H;
               repeat (constructor; [cbn; intuition discriminate|]); constructor] ].
Qed.

Lemma guest_qi_distinct_slots_witness :
  exists gs,
    WuYunLiuQi.getGuestQiSequence
      (WuYunLiuQi.mk 0 1991 (Some HeavenlyStem.XIN) (Some EarthlyBranch.WEI))
    = Ok gs
    /\ length gs = 6%nat
    /\ JS.index gs 2 = JS.index gs 3.
Proof.
  destruct (guest_qi_distinct_slots
              (WuYunLiuQi.mk 0 1991 (Some HeavenlyStem.XIN) (Some EarthlyBranch.WEI))
              EarthlyBranch.WEI)
    as (gs & Hgs & Hlen & _).
  - reflexivity.
  - exists gs. split; [exact Hgs|]. split; [exact Hlen|].
    cbn in Hgs. injection Hgs as <-. reflexivity.
Defined.

(** ** The guest movements of a year *)

(** X4. The five guest movements of a year are numbered 1 to 5, start
    from the element and the adequacy of the year's stem, each next one is
    generated by the one before it with the adequacy flipped, and together
    they are the five elements, each once. *)
Theorem guest_fortunes_cover_elements (w : WuYunLiuQi.t) (s : HeavenlyStem.t) :
  WuYunLiuQi.stem w = Some s ->
  exists f1 f2 f3 f4 f5,
    WuYunLiuQi.getGuestFortunes w = Ok [f1; f2; f3; f4; f5]
    /\ map step [f1; f2; f3; f4; f5] = [1; 2; 3; 4; 5]
    /\ element f1 = HeavenlyStem.element s
    /\ adequacy f1 = HeavenlyStem.adequacy s
    /\ (forall f f', In (f, f') [(f1, f2); (f2, f3); (f3, f4); (f4, f5)] ->
          element f' = ElementGeneration (element f)
          /\ adequacy f' <> adequacy f)
    /\ NoDup (map element [f1; f2; f3; f4; f5])
    /\ (forall el, In el (map element [f1; f2; f3; f4; f5])).
Proof.
  intros Hs. unfold WuYunLiuQi.getGuestFortunes. rewrite Hs. cbn [defined bind].
  do 5 eexists. split; [reflexivity|].
  split; [reflexivity|]. split; [reflexivity|]. split; [reflexivity|].
  split; [|split].
  - intros f f' Hin. cbn in Hin.
    destruct Hin as [H | [H | [H | [H | []]]]];
      injection H as <- <-; cbn; (split; [reflexivity|]);
      destruct (HeavenlyStem.adequacy s); discriminate.
  - cbn. destruct (HeavenlyStem.element s); cbn;
      repeat (constructor; [cbn; intuition discriminate|]); constructor.
  - intros el. cbn. destruct (HeavenlyStem.element s), el; cbn; tauto.
Qed.

Lemma guest_fortunes_cover_elements_witness :
  exists f1 f2 f3 f4 f5,
    WuYunLiuQi.getGuestFortunes
      (WuYunLiuQi.mk 0 1990 (Some HeavenlyStem.GENG) (Some EarthlyBranch.WU))
    = Ok [f1; f2; f3; f4; f5]
    /\ map step [f1; f2; f3; f4; f5] = [1; 2; 3; 4; 5].
Proof.
  destruct (guest_fortunes_cover_elements
              (WuYunLiuQi.mk 0 1990 (Some HeavenlyStem.GENG) (Some EarthlyBranch.WU))
              HeavenlyStem.GENG)
    as (f1 & f2 & f3 & f4 & f5 & H & Hstep & _).
  - reflexivity.
  - exists f1, f2, f3, f4, f5. split; [exact H | exact Hstep].
Defined.

(** The sum of the step points over the guest movements of a stem. *)
Lemma stepPtsSum_guestElements (e : AHIEngine.t) (s : HeavenlyStem.t) :
  AHIEngine.stepPtsSum e (guestElements s)
  = AHIEngine.stepPtsSum e WuYunLiuQi.getHostFortunes.
Proof.
  rewrite !stepPtsSum_sum. unfold guestElements, WuYunLiuQi.getHostFortunes.
  destruct (HeavenlyStem.element s); cbn; lia.
Qed.

(** X5. The step part of the yearly score does not depend on the year: the
    guest movements of any year are the five elements in some order, so the
    sum of their step points is the sum over the host movements, whatever
    the stem of the flowing year, and it is 0, 10 or 25. *)
Theorem step_points_do_not_depend_on_year (e : AHIEngine.t) (w : WuYunLiuQi.t)
        (s : HeavenlyStem.t) :
  WuYunLiuQi.stem w = Some s ->
  exists gf,
    WuYunLiuQi.getGuestFortunes w = Ok gf
    /\ AHIEngine.stepPtsSum e (map element gf)
       = AHIEngine.stepPtsSum e WuYunLiuQi.getHostFortunes
    /\ In (AHIEngine.stepPtsSum e (map element gf)) [0; 10; 25].
Proof.
  intros Hs. destruct (getGuestFortunes_elements w s Hs) as (gf & Hgf & Hel & _).
  exists gf. split; [exact Hgf|]. rewrite Hel, stepPtsSum_guestElements.
  split; [reflexivity|].
  unfold AHIEngine.stepPtsSum, AHIEngine.stepPts, WuYunLiuQi.getHostFortunes.
  destruct (AHIEngine.birthHostYun e), (AHIEngine.weakZang e); cbn; tauto.
Qed.

Lemma step_points_do_not_depend_on_year_witness :
  exists gf,
    WuYunLiuQi.getGuestFortunes
      (WuYunLiuQi.mk 0 1991 (Some HeavenlyStem.XIN) (Some EarthlyBranch.WEI))
    = Ok gf
    /\ AHIEngine.stepPtsSum sampleEngine (map element gf)
       = AHIEngine.stepPtsSum sampleEngine WuYunLiuQi.getHostFortunes.
Proof.
  destruct (step_points_do_not_depend_on_year sampleEngine
              (WuYunLiuQi.mk 0 1991 (Some HeavenlyStem.XIN) (Some EarthlyBranch.WEI))
              HeavenlyStem.XIN)
    as (gf & H & Heq & _).
  - reflexivity.
  - exists gf. split; [exact H | exact Heq].
Defined.

(** ** The cycle of sixty years *)

Lemma stem_index_of (i : Z) (s : HeavenlyStem.t) :
  JS.index HeavenlyStem.list i = Some s -> HeavenlyStem.index s = i.
Proof.
  intros H.
  destruct (Z.lt_ge_cases i 0) as [Hn | Hn];
    [rewrite index_negative in H by exact Hn; discriminate|].
  destruct (Z.lt_ge_cases i 10) as [Hlt | Hge].
  - assert (Hc : i = 0 \/ i = 1 \/ i = 2 \/ i = 3 \/ i = 4 \/ i = 5 \/ i = 6
                 \/ i = 7 \/ i = 8 \/ i = 9) by lia.
    repeat (destruct Hc as [-> | Hc]); try subst i;
      cbn in H; injection H as <-; reflexivity.
  - unfold JS.index in H. destruct (i <? 0); [discriminate|].
    assert (Hnone : nth_error HeavenlyStem.list (Z.to_nat i) = None)
      by (apply nth_error_None; cbn; lia).
    rewrite Hnone in H. discriminate.
Qed.

Lemma branch_index_of (i : Z) (b : EarthlyBranch.t) :
  JS.index EarthlyBranch.list i = Some b -> EarthlyBranch.index b = i.
Proof.
  intros H.
  destruct (Z.lt_ge_cases i 0) as [Hn | Hn];
    [rewrite index_negative in H by exact Hn; discriminate|].
  destruct (Z.lt_ge_cases i 12) as [Hlt | Hge].
  - assert (Hc : i = 0 \/ i = 1 \/ i = 2 \/ i = 3 \/ i = 4 \/ i = 5 \/ i = 6
                 \/ i = 7 \/ i = 8 \/ i = 9 \/ i = 10 \/ i = 11) by lia.
    repeat (destruct Hc as [-> | Hc]); try subst i;
      cbn in H; injection H as <-; reflexivity.
  - unfold JS.index in H. destruct (i <? 0); [discriminate|].
    assert (Hnone : nth_error EarthlyBranch.list (Z.to_nat i) = None)
      by (apply nth_error_None; cbn; lia).
    rewrite Hnone in H. discriminate.
Qed.

(** X6. The session variant of [fromYear] gives every year, also a year
    before year 4, a stem and a branch with the indices (year - 4) mod 10
    and (year - 4) mod 12.  The two indices have the same parity, so only
    sixty of the 120 pairs occur; the stem is in excess exactly in the even
    years; and two years have the same stem and branch exactly when they
    are a multiple of sixty years apart. *)
Theorem sexagenary_cycle (year year' : Z) :
  exists s b s' b',
    HeavenlyStem.fromYear_nonneg year = Some s
    /\ EarthlyBranch.fromYear_nonneg year = Some b
    /\ HeavenlyStem.fromYear_nonneg year' = Some s'
    /\ EarthlyBranch.fromYear_nonneg year' = Some b'
    /\ HeavenlyStem.index s = (year - 4) mod 10
    /\ EarthlyBranch.index b = (year - 4) mod 12
    /\ HeavenlyStem.index s mod 2 = EarthlyBranch.index b mod 2
    /\ (HeavenlyStem.adequacy s = EXCESS <-> year mod 2 = 0)
    /\ (s = s' /\ b = b' <-> (year' - year) mod 60 = 0).
Proof.
  destruct (stem_fromYear_nonneg_total year) as (s & Hs & Hsi).
  destruct (branch_fromYear_nonneg_total year) as (b & Hb & Hbi).
  destruct (stem_fromYear_nonneg_total year') as (s' & Hs' & Hsi').
  destruct (branch_fromYear_nonneg_total year') as (b' & Hb' & Hbi').
  exists s, b, s', b'.
  rewrite Hs in Hsi. rewrite Hb in Hbi. rewrite Hs' in Hsi'. rewrite Hb' in Hbi'.
  symmetry in Hsi, Hbi, Hsi', Hbi'.
  apply stem_index_of in Hsi, Hsi'. apply branch_index_of in Hbi, Hbi'.
  repeat (split; [assumption|]).
  split; [rewrite Hsi, Hbi; Z.to_euclidean_division_equations; lia|].
  split.
  - assert (Ha : HeavenlyStem.adequacy s = EXCESS <-> HeavenlyStem.index s mod 2 = 0)
      by (destruct s; cbn; split; intros H; first [reflexivity | discriminate H]).
    rewrite Ha, Hsi. Z.to_euclidean_division_equations; lia.
  - split.
    + intros [<- <-]. rewrite Hsi' in Hsi. rewrite Hbi' in Hbi.
      Z.to_euclidean_division_equations; lia.
    + intros H.
      assert (Es : HeavenlyStem.index s = HeavenlyStem.index s')
        by (rewrite Hsi, Hsi'; Z.to_euclidean_division_equations; lia).
      assert (Eb : EarthlyBranch.index b = EarthlyBranch.index b')
        by (rewrite Hbi, Hbi'; Z.to_euclidean_division_equations; lia).
      split; [destruct s, s'; first [reflexivity | discriminate Es]
             | destruct b, b'; first [reflexivity | discriminate Eb]].
Qed.

(** X7. [fromYear] of [server.ts] leaves the table exactly for the years
    before year 4 whose distance to year 4 is no multiple of the length of
    the table; wherever it returns an entry, it is the entry of the session
    variant. *)
Theorem fromYear_defined_iff (year : Z) :
  (HeavenlyStem.fromYear year = None <-> year < 4 /\ (year - 4) mod 10 <> 0)
  /\ (EarthlyBranch.fromYear year = None <-> year < 4 /\ (year - 4) mod 12 <> 0)
  /\ (forall s, HeavenlyStem.fromYear year = Some s ->
                HeavenlyStem.fromYear_nonneg year = Some s)
  /\ (forall b, EarthlyBranch.fromYear year = Some b ->
                EarthlyBranch.fromYear_nonneg year = Some b).
Proof.
  assert (Hrem : forall m, 0 < m -> year < 4 ->
             (Z.rem (year - 4) m = 0 <-> (year - 4) mod m = 0)).
  { intros m Hm Hy. rewrite Z.rem_divide, Z.mod_divide by lia. reflexivity. }
  destruct (Z.lt_ge_cases year 4) as [Hlt | Hge].
  - destruct (Z.eq_dec (Z.rem (year - 4) 10) 0) as [Es | Es];
      destruct (Z.eq_dec (Z.rem (year - 4) 12) 0) as [Eb | Eb].
    all: pose proof (Hrem 10 ltac:(lia) Hlt) as H10;
      pose proof (Hrem 12 ltac:(lia) Hlt) as H12.
    all: unfold HeavenlyStem.fromYear_nonneg, EarthlyBranch.fromYear_nonneg.
    all: try (rewrite (stem_fromYear_undefined year Hlt Es)).
    all: try (rewrite (branch_fromYear_undefined year Hlt Eb)).
    all: unfold HeavenlyStem.fromYear, EarthlyBranch.fromYear.
    all: try rewrite Es; try rewrite Eb.
    all: cbn [JS.index Z.ltb Z.compare Z.to_nat nth_error HeavenlyStem.list
              EarthlyBranch.list Z.add Z.rem Z.quotrem snd].
    all: repeat split; try tauto; try discriminate; try (intros; assumption).
    all: try (intros [_ H]; exfalso; tauto).
    all: intros H; exfalso; tauto.
  - destruct (fromYear_agree year Hge) as [Es Eb].
    destruct (stem_fromYear_nonneg_total year) as (s & Hs & _).
    destruct (branch_fromYear_nonneg_total year) as (b & Hb & _).
    rewrite Es, Eb, Hs, Hb.
    repeat split; try discriminate; try (intros; assumption); intros [H _]; lia.
Qed.

(** ** The natal base score of the variants *)

(** X8. The base score of [server.ts] is one of 35, 40, 52, 60 and 68 and
    the one of the early variant one of 30, 40, 55, 70 and 85: any two
    elements are related, so the starting value 50 is never returned.  The
    early variant reaches 85 exactly for the host WeakYangFire with the
    guest MildYinFire, and the two variants order the pairs of host and
    guest qi the same way. *)
Theorem base_score_variants (host guest host' guest' : QiType.t) :
  In (AHIEngine._calcBaseScore host guest) [35; 40; 52; 60; 68]
  /\ In (AHIEngine._calcBaseScore_early host guest) [30; 40; 55; 70; 85]
  /\ (AHIEngine._calcBaseScore_early host guest = 85
      <-> host = QiType.WEAK_YANG_FIRE /\ guest = QiType.MILD_YIN_FIRE)
  /\ (AHIEngine._calcBaseScore host guest < AHIEngine._calcBaseScore host' guest'
      <-> AHIEngine._calcBaseScore_early host guest
          < AHIEngine._calcBaseScore_early host' guest').
Proof.
  split; [destruct host, guest; cbn; tauto|].
  split; [destruct host, guest; cbn; tauto|].
  split.
  - destruct host, guest; cbn; split; intros H;
      first [ discriminate H | split; reflexivity | reflexivity
            | destruct H as [H1 H2]; first [discriminate H1 | discriminate H2] ].
  - assert (H : forall h g,
               AHIEngine._calcBaseScore_early h g
               = match AHIEngine._calcBaseScore h g with
                 | 35 => 30 | 40 => 40 | 52 => 55 | 60 => 70 | 68 => 85 | _ => 0
                 end)
      by (intros h g; destruct h, g; reflexivity).
    rewrite !H.
    assert (V : forall h g, In (AHIEngine._calcBaseScore h g) [35; 40; 52; 60; 68])
      by (intros h g; destruct h, g; cbn; tauto).
    pose proof (V host' guest') as V'. specialize (V host guest).
    cbn in V, V'.
    destruct V as [<- | [<- | [<- | [<- | [<- | []]]]]];
      destruct V' as [<- | [<- | [<- | [<- | [<- | []]]]]]; cbn; lia.
Qed.

(** ** The two locators *)

(** X9. The locator of [server.ts] probes the 15th, the 5th and the 25th
    of the month of the term, in this order.  It raises the error naming
    the year and the term exactly when the three probes find no entry, lets
    an exception of the library through, and otherwise returns the date
    built from the first entry found, whose year it does not compare with
    the requested one. *)
Theorem simple_locator_result (alm : Almanac) (year : Z) (termName : SolarTerm) :
  let m := AstronomyEngine.Simple.termMonths termName in
  let r := AstronomyEngine.Simple.getExactJieqi alm year termName in
  1 <= m <= 12
  /\ (r = Err (LookupError year termName)
      <-> forall d, In d [15; 5; 25] -> alm year m d termName = Absent)
  /\ (forall e, r = Err e -> e = LookupError year termName \/ e = LibraryError)
  /\ (r = Err LibraryError
      <-> exists before d after,
            [15; 5; 25] = before ++ d :: after
            /\ alm year m d termName = Raised
            /\ forall d', In d' before -> alm year m d' termName = Absent)
  /\ (forall t, r = Ok t
      <-> exists before d after o,
            [15; 5; 25] = before ++ d :: after
            /\ alm year m d termName = Found o
            /\ t = toDate o
            /\ forall d', In d' before -> alm year m d' termName = Absent).
Proof.
  intros m r. split; [subst m; destruct termName; cbn; lia|].
  subst r. unfold AstronomyEngine.Simple.getExactJieqi,
    AstronomyEngine.Simple.testDays, AstronomyEngine.Simple.probeDays.
  fold m.
  assert (Hsplit : forall (before : list Z) d after,
             [15; 5; 25] = before ++ d :: after ->
             (before = [] /\ d = 15)
             \/ (before = [15] /\ d = 5)
             \/ (before = [15; 5] /\ d = 25)).
  { intros before d after H.
    destruct before as [|a [|b [|c before]]]; cbn in H.
    - left. split; [reflexivity | congruence].
    - right; left. split; congruence.
    - right; right. split; congruence.
    - exfalso. injection H as _ _ _ H. destruct before; discriminate H. }
  destruct (alm year m 15 termName) as [| |o15] eqn:E15;
    [| destruct (alm year m 5 termName) as [| |o5] eqn:E5;
       [| destruct (alm year m 25 termName) as [| |o25] eqn:E25 |] |];
    cbn [bind].
  all: repeat split.
  all: try discriminate.
  all: try (intros H; specialize (H 15 ltac:(cbn; tauto)); congruence).
  all: try (intros H; specialize (H 5 ltac:(cbn; tauto)); congruence).
  all: try (intros H; specialize (H 25 ltac:(cbn; tauto)); congruence).
  all: try (intros e H; injection H as <-; tauto).
  all: try (intros _ d [<- | [<- | [<- | []]]]; assumption).
  all: try (intros (before & d & after & Hl & Hd & Hb);
            destruct (Hsplit _ _ _ Hl) as [[-> ->] | [[-> ->] | [-> ->]]];
            try congruence;
            try (specialize (Hb 15 ltac:(cbn; tauto)); congruence);
            try (specialize (Hb 5 ltac:(cbn; tauto)); congruence)).
  all: try (intros (before & d & after & o & Hl & Hd & -> & Hb);
            destruct (Hsplit _ _ _ Hl) as [[-> ->] | [[-> ->] | [-> ->]]];
            try congruence;
            try (specialize (Hb 15 ltac:(cbn; tauto)); congruence);
            try (specialize (Hb 5 ltac:(cbn; tauto)); congruence)).
  all: try (intros _; exists [], 15, [5; 25]; repeat split; try assumption;
            intros d' []).
  all: try (intros _; exists [15], 5, [25]; repeat split; try assumption;
            intros d' [<- | []]; assumption).
  all: try (intros _; exists [15; 5], 25, []; repeat split; try assumption;
            intros d' [<- | [<- | []]]; assumption).
  all: try (intros H; injection H as <-;
            first [ exists [], 15, [5; 25], o15; repeat split; try assumption;
                    intros d' []
                  | exists [15], 5, [25], o5; repeat split; try assumption;
                    intros d' [<- | []]; assumption
                  | exists [15; 5], 25, [], o25; repeat split; try assumption;
                    intros d' [<- | [<- | []]]; assumption ]).
Qed.

(** X10. The locator of the session variant has one failure, the error
    naming the year and the term, also when the library throws.  With
    an almanac of civil dates and a year outside 0..99, a date it returns
    lies in the requested civil year and is built from the first of its
    sixteen probes that reports an entry of that year. *)
Theorem checked_locator_in_year (alm : Almanac) (year : Z) (termName : SolarTerm) :
  Almanac_wf alm ->
  ~ (0 <= year <= 99) ->
  AstronomyEngine.Checked.getExactJieqi alm year termName
  = Err (LookupError year termName)
  \/ exists o before probe after,
       AstronomyEngine.Checked.getExactJieqi alm year termName = Ok (toDate o)
       /\ JSDate.getFullYear (toDate o) = year
       /\ probes year termName = before ++ probe :: after
       /\ length (probes year termName) = 16%nat
       /\ alm (fst probe) (snd probe) 15 termName = Found o
       /\ getYear o = year
       /\ Forall (passes alm year termName) before.
Proof.
  intros Hwf Hy.
  destruct (AstronomyEngine.Checked.getExactJieqi alm year termName) as [d | e] eqn:E.
  - right.
    destruct (LocatorFacts.getExactJieqi_Ok _ _ _ _ E)
      as (o & before & probe & after & -> & Ho & Hl & Hf & Hp).
    exists o, before, probe, after.
    split; [reflexivity|].
    split; [exact (LocatorFacts.getExactJieqi_year _ _ _ _ Hwf Hy E)|].
    split; [exact Hl|]. split; [reflexivity|].
    split; [exact Hf|]. split; [exact Ho | exact Hp].
  - left. f_equal. exact (LocatorFacts.getExactJieqi_Err _ _ _ _ E).
Qed.

Lemma checked_locator_in_year_witness :
  AstronomyEngine.Checked.getExactJieqi sampleAlmanac 1990 DaHan
  = Err (LookupError 1990 DaHan)
  \/ exists o before probe after,
       AstronomyEngine.Checked.getExactJieqi sampleAlmanac 1990 DaHan = Ok (toDate o)
       /\ JSDate.getFullYear (toDate o) = 1990
       /\ probes 1990 DaHan = before ++ probe :: after
       /\ length (probes 1990 DaHan) = 16%nat
       /\ sampleAlmanac (fst probe) (snd probe) 15 DaHan = Found o
       /\ getYear o = 1990
       /\ Forall (passes sampleAlmanac 1990 DaHan) before.
Proof.
  apply (checked_locator_in_year sampleAlmanac 1990 DaHan).
  - exact sampleAlmanac_wf.
  - lia.
Defined.

(** X11. The session variant throws no exception of the library and
    raises nothing but its own error: where the library throws on a probe
    before any entry of the year is found, the result is the error naming
    the year and the term; where no probe throws, the result is that error
    exactly when none of the sixteen probes reports an entry of the
    year. *)
Theorem checked_locator_failure (alm : Almanac) (year : Z) (termName : SolarTerm) :
  (forall e, AstronomyEngine.Checked.getExactJieqi alm year termName = Err e ->
             e = LookupError year termName)
  /\ (Forall (passes alm year termName) (probes year termName) ->
      AstronomyEngine.Checked.getExactJieqi alm year termName
      = Err (LookupError year termName))
  /\ ((forall probe, In probe (probes year termName) ->
         alm (fst probe) (snd probe) 15 termName <> Raised) ->
      AstronomyEngine.Checked.getExactJieqi alm year termName
      = Err (LookupError year termName) ->
      Forall (passes alm year termName) (probes year termName))
  /\ (forall before probe after,
        probes year termName = before ++ probe :: after ->
        Forall (passes alm year termName) before ->
        alm (fst probe) (snd probe) 15 termName = Raised ->
        AstronomyEngine.Checked.getExactJieqi alm year termName
        = Err (LookupError year termName)).
Proof.
  split; [intros e; apply LocatorFacts.getExactJieqi_Err|].
  rewrite LocatorFacts.getExactJieqi_probes.
  split; [|split].
  - intros H. apply LocatorFacts.scanMonths_Miss in H. rewrite H. reflexivity.
  - intros Hno H. apply LocatorFacts.scanMonths_Miss.
    generalize dependent (probes year termName). intros l.
    induction l as [|[y mon] l IH]; intros Hno H; [reflexivity|].
    cbn in H |- *.
    pose proof (Hno (y, mon) ltac:(left; reflexivity)) as Hn. cbn in Hn.
    destruct (alm y mon 15 termName) as [| |o]; [contradiction| |].
    + apply IH; [intros p Hp; apply Hno; right; exact Hp | exact H].
    + destruct (getYear o =? year); [discriminate H|].
      apply IH; [intros p Hp; apply Hno; right; exact Hp | exact H].
  - intros before [y mon] after Hl Hb Hr.
    rewrite Hl, LocatorFacts.scanMonths_app.
    apply LocatorFacts.scanMonths_Miss in Hb. rewrite Hb.
    cbn in Hr |- *. rewrite Hr. reflexivity.
Qed.

(** When the 15th of the month of a term reports the entry of the year,
    both locators return the date built from it. *)
Lemma locators_first_probe (alm : Almanac) (year : Z) (termName : SolarTerm)
      (o : Solar) :
  In termName [DaHan; ChunFen; XiaoMan; MangZhong; DaShu; ChuShu; QiuFen;
               XiaoXue; LiDong] ->
  alm year (AstronomyEngine.Simple.termMonths termName) 15 termName = Found o ->
  getYear o = year ->
  AstronomyEngine.Simple.getExactJieqi alm year termName = Ok (toDate o)
  /\ AstronomyEngine.Checked.getExactJieqi alm year termName = Ok (toDate o).
Proof.
  intros Hin Hf Hy. split.
  - unfold AstronomyEngine.Simple.getExactJieqi, AstronomyEngine.Simple.testDays,
      AstronomyEngine.Simple.probeDays. rewrite Hf. reflexivity.
  - cbn in Hin.
    apply Z.eqb_eq in Hy.
    unfold AstronomyEngine.Checked.getExactJieqi.
    repeat (destruct Hin as [<- | Hin]); try contradiction;
      cbn in Hf |- *; rewrite Hf, Hy; reflexivity.
Qed.

(** X12. For the nine terms the engine asks for, the two locators start
    at the same probe, the 15th of the month of the term in the requested
    year; when it reports an entry of the requested year, both return the
    date built from it. *)
Theorem locators_agree_on_first_probe (alm : Almanac) (year : Z)
        (termName : SolarTerm) (o : Solar) :
  In termName [DaHan; ChunFen; XiaoMan; MangZhong; DaShu; ChuShu; QiuFen;
               XiaoXue; LiDong] ->
  alm year (AstronomyEngine.Simple.termMonths termName) 15 termName = Found o ->
  getYear o = year ->
  AstronomyEngine.Simple.getExactJieqi alm year termName = Ok (toDate o)
  /\ AstronomyEngine.Checked.getExactJieqi alm year termName = Ok (toDate o)
  /\ AstronomyEngine.Checked.monthMap termName
     = Some (AstronomyEngine.Simple.termMonths termName).
Proof.
  intros Hin Hf Hy.
  destruct (locators_first_probe alm year termName o Hin Hf Hy) as [H1 H2].
  split; [exact H1|]. split; [exact H2|].
  cbn in Hin.
  repeat (destruct Hin as [<- | Hin]); try contradiction; reflexivity.
Qed.

Lemma locators_agree_on_first_probe_witness :
  AstronomyEngine.Simple.getExactJieqi sampleAlmanac 1990 ChunFen
  = Ok (toDate (mkSolar 1990 3 21 12 0 0))
  /\ AstronomyEngine.Checked.getExactJieqi sampleAlmanac 1990 ChunFen
     = Ok (toDate (mkSolar 1990 3 21 12 0 0))
  /\ AstronomyEngine.Checked.monthMap ChunFen
     = Some (AstronomyEngine.Simple.termMonths ChunFen).
Proof.
  apply (locators_agree_on_first_probe sampleAlmanac 1990 ChunFen
           (mkSolar 1990 3 21 12 0 0)).
  - cbn. tauto.
  - reflexivity.
  - reflexivity.
Defined.

(** ** The search of the current step *)

(** The loop from index [i]: its result is the first matching index, or
    the value it started with. *)
Lemma stepLoop_spec (target : Z) (bounds : list Z) (rounds : nat) (i step : Z) :
  let r := WuYunLiuQi.stepLoop target bounds rounds i step in
  let inside j :=
    exists lo hi, JS.index bounds j = Some lo /\ JS.index bounds (j + 1) = Some hi
                  /\ lo <= target < hi in
  (i <= r < i + Z.of_nat rounds /\ inside r /\ forall j, i <= j < r -> ~ inside j)
  \/ (r = step /\ forall j, i <= j < i + Z.of_nat rounds -> ~ inside j).
Proof.
  cbv zeta. revert i. induction rounds as [|rounds IH]; intros i.
  - right. split; [reflexivity|]. intros j Hj. lia.
  - cbn [WuYunLiuQi.stepLoop].
    assert (Hnext :
      ~ (exists lo hi, JS.index bounds i = Some lo /\ JS.index bounds (i + 1) = Some hi
                       /\ lo <= target < hi) ->
      (i <= WuYunLiuQi.stepLoop target bounds rounds (i + 1) step
         < i + Z.of_nat (S rounds)
       /\ (exists lo hi,
             JS.index bounds (WuYunLiuQi.stepLoop target bounds rounds (i + 1) step)
             = Some lo
             /\ JS.index bounds
                  (WuYunLiuQi.stepLoop target bounds rounds (i + 1) step + 1)
                = Some hi
             /\ lo <= target < hi)
       /\ forall j, i <= j < WuYunLiuQi.stepLoop target bounds rounds (i + 1) step ->
            ~ (exists lo hi, JS.index bounds j = Some lo
                             /\ JS.index bounds (j + 1) = Some hi
                             /\ lo <= target < hi))
      \/ (WuYunLiuQi.stepLoop target bounds rounds (i + 1) step = step
          /\ forall j, i <= j < i + Z.of_nat (S rounds) ->
               ~ (exists lo hi, JS.index bounds j = Some lo
                                /\ JS.index bounds (j + 1) = Some hi
                                /\ lo <= target < hi))).
    { intros Hi. destruct (IH (i + 1)) as [(Hr & Hin & Hmin) | (Hr & Hnone)].
      - left. split; [lia|]. split; [exact Hin|].
        intros j Hj. destruct (Z.eq_dec j i) as [-> | Hne]; [exact Hi|].
        apply Hmin. lia.
      - right. split; [exact Hr|].
        intros j Hj. destruct (Z.eq_dec j i) as [-> | Hne]; [exact Hi|].
        apply Hnone. lia. }
    destruct (JS.index bounds i) as [lo|] eqn:Elo;
      [|apply Hnext; intros (lo' & hi' & H & _); discriminate H].
    destruct (JS.index bounds (i + 1)) as [hi|] eqn:Ehi;
      [|apply Hnext; intros (lo' & hi' & _ & H & _); discriminate H].
    destruct ((lo <=? target) && (target <? hi)) eqn:Et.
    + left. apply andb_true_iff in Et as [E1 E2].
      apply Z.leb_le in E1. apply Z.ltb_lt in E2.
      split; [lia|]. split; [exists lo, hi; repeat split; assumption|].
      intros j Hj. lia.
    + apply Hnext. intros (lo' & hi' & H1 & H2 & H3).
      injection H1 as <-. injection H2 as <-.
      apply andb_false_iff in Et as [E | E];
        [apply Z.leb_gt in E | apply Z.ltb_ge in E]; lia.
Qed.

(** X13. The search of the current step returns the first index i below
    n with bounds[i] <= target < bounds[i + 1]; when no index matches, a
    bound being undefined counting as no match, it returns the initial
    value, which the callers set to the last step. *)
Theorem findStep_first_match (target : Z) (bounds : list Z) (n : nat) (initial : Z) :
  let r := WuYunLiuQi.findStep target bounds n initial in
  let inside j :=
    exists lo hi, JS.index bounds j = Some lo /\ JS.index bounds (j + 1) = Some hi
                  /\ lo <= target < hi in
  (0 <= r < Z.of_nat n /\ inside r /\ forall j, 0 <= j < r -> ~ inside j)
  \/ (r = initial /\ forall j, 0 <= j < Z.of_nat n -> ~ inside j).
Proof.
  exact (stepLoop_spec target bounds n 0 initial).
Qed.

(** The step found is a valid index when the initial value is. *)
Lemma findStep_range (target : Z) (bounds : list Z) (n : nat) (initial : Z) :
  0 <= initial < Z.of_nat n ->
  0 <= WuYunLiuQi.findStep target bounds n initial < Z.of_nat n.
Proof.
  intros Hi.
  destruct (stepLoop_spec target bounds n 0 initial) as [(H & _) | (H & _)].
  - exact H.
  - unfold WuYunLiuQi.findStep. rewrite H. exact Hi.
Qed.

(** X14. With bounds in increasing order the intervals do not overlap:
    for a target from the first bound up to the last, the step found is the
    only index whose interval holds the target. *)
Theorem findStep_unique_interval (target : Z) (bounds : list Z) (n : nat)
        (initial : Z) :
  length bounds = S n ->
  (forall j lo hi, JS.index bounds j = Some lo -> JS.index bounds (j + 1) = Some hi ->
                   lo <= hi) ->
  (exists first last, JS.index bounds 0 = Some first
                      /\ JS.index bounds (Z.of_nat n) = Some last
                      /\ first <= target < last) ->
  let r := WuYunLiuQi.findStep target bounds n initial in
  0 <= r < Z.of_nat n
  /\ (exists lo hi, JS.index bounds r = Some lo /\ JS.index bounds (r + 1) = Some hi
                    /\ lo <= target < hi)
  /\ forall j lo hi, JS.index bounds j = Some lo -> JS.index bounds (j + 1) = Some hi ->
                     lo <= target < hi -> j = r.
Proof.
  intros Hlen Hsorted (first & last & Hfirst & Hlast & Hrange) r.
  (* every index up to n has a bound, and the bounds increase with the index *)
  assert (Hdef : forall j, 0 <= j <= Z.of_nat n -> exists x, JS.index bounds j = Some x).
  { intros j Hj. apply index_in_range. rewrite Hlen. lia. }
  assert (Hmono : forall k j x y, 0 <= j -> j + Z.of_nat k <= Z.of_nat n ->
             JS.index bounds j = Some x ->
             JS.index bounds (j + Z.of_nat k) = Some y -> x <= y).
  { induction k as [|k IH]; intros j x y Hj Hk Hx Hy.
    - replace (j + Z.of_nat 0) with j in Hy by lia. assert (x = y) by congruence. lia.
    - destruct (Hdef (j + Z.of_nat k) ltac:(lia)) as [z Hz].
      pose proof (IH j x z Hj ltac:(lia) Hx Hz).
      replace (j + Z.of_nat (S k)) with (j + Z.of_nat k + 1) in Hy by lia.
      pose proof (Hsorted _ _ _ Hz Hy). lia. }
  assert (Hle : forall j j' x y, 0 <= j <= j' -> j' <= Z.of_nat n ->
             JS.index bounds j = Some x -> JS.index bounds j' = Some y -> x <= y).
  { intros j j' x y Hj Hj' Hx Hy.
    apply (Hmono (Z.to_nat (j' - j)) j x y); [lia | lia | exact Hx |].
    replace (j + Z.of_nat (Z.to_nat (j' - j))) with j' by lia. exact Hy. }
  (* some interval holds the target *)
  assert (Hex : exists j, 0 <= j < Z.of_nat n
                  /\ exists lo hi, JS.index bounds j = Some lo
                                   /\ JS.index bounds (j + 1) = Some hi
                                   /\ lo <= target < hi).
  { clear r. revert last Hlast Hrange.
    assert (Hgen : forall k, (k <= n)%nat -> forall last,
               JS.index bounds (Z.of_nat k) = Some last -> first <= target < last ->
               exists j, 0 <= j < Z.of_nat k
                 /\ exists lo hi, JS.index bounds j = Some lo
                                  /\ JS.index bounds (j + 1) = Some hi
                                  /\ lo <= target < hi).
    { induction k as [|k IH]; intros Hk last Hlast Hrange.
      - change (Z.of_nat 0) with 0 in Hlast.
        assert (first = last) by congruence. lia.
      - destruct (Hdef (Z.of_nat k) ltac:(lia)) as [mid Hmid].
        destruct (Z.lt_ge_cases target mid) as [Hlt | Hge].
        + destruct (IH ltac:(lia) mid Hmid ltac:(lia)) as (j & Hj & Hin).
          exists j. split; [lia | exact Hin].
        + exists (Z.of_nat k). split; [lia|]. exists mid, last.
          split; [exact Hmid|].
          split; [replace (Z.of_nat k + 1) with (Z.of_nat (S k)) by lia; exact Hlast|].
          lia. }
    intros last Hlast Hrange. exact (Hgen n (le_n n) last Hlast Hrange). }
  (* intervals of two indices are disjoint *)
  assert (Hdisj : forall j j' lo hi lo' hi',
             0 <= j < j' -> j' < Z.of_nat n ->
             JS.index bounds j = Some lo -> JS.index bounds (j + 1) = Some hi ->
             JS.index bounds j' = Some lo' -> JS.index bounds (j' + 1) = Some hi' ->
             lo <= target < hi -> lo' <= target < hi' -> False).
  { intros j j' lo hi lo' hi' Hj Hj' Hlo Hhi Hlo' Hhi' Ht Ht'.
    pose proof (Hle (j + 1) j' hi lo' ltac:(lia) ltac:(lia) Hhi Hlo'). lia. }
  assert (Hidx : forall j lo hi, JS.index bounds j = Some lo ->
             JS.index bounds (j + 1) = Some hi -> 0 <= j < Z.of_nat n).
  { intros j lo hi Hlo Hhi.
    destruct (Z.lt_ge_cases j 0) as [Hn | Hn];
      [rewrite index_negative in Hlo by exact Hn; discriminate|].
    split; [exact Hn|].
    destruct (Z.lt_ge_cases j (Z.of_nat n)) as [Hlt | Hge]; [exact Hlt|].
    exfalso. unfold JS.index in Hhi. destruct (j + 1 <? 0); [discriminate|].
    assert (Hnone : nth_error bounds (Z.to_nat (j + 1)) = None)
      by (apply nth_error_None; lia).
    rewrite Hnone in Hhi. discriminate. }
  destruct (findStep_first_match target bounds n initial)
    as [(Hr & Hin & Hmin) | (_ & Hnone)].
  - fold r in Hr, Hin, Hmin. split; [exact Hr|]. split; [exact Hin|].
    intros j lo hi Hlo Hhi Ht.
    pose proof (Hidx j lo hi Hlo Hhi) as Hj.
    destruct Hin as (lo' & hi' & Hlo' & Hhi' & Ht').
    destruct (Z.lt_trichotomy j r) as [Hlt | [Heq | Hgt]]; [|exact Heq|].
    + exfalso. exact (Hdisj j r lo hi lo' hi' ltac:(lia) ltac:(lia)
                        Hlo Hhi Hlo' Hhi' Ht Ht').
    + exfalso. exact (Hdisj r j lo' hi' lo hi ltac:(lia) ltac:(lia)
                        Hlo' Hhi' Hlo Hhi Ht' Ht).
  - exfalso. destruct Hex as (j & Hj & Hin). exact (Hnone j Hj Hin).
Qed.

Lemma findStep_unique_interval_witness :
  let r := WuYunLiuQi.findStep 25 [0; 10; 20; 30; 40; 50] 5 4 in
  0 <= r < Z.of_nat 5
  /\ (exists lo hi, JS.index [0; 10; 20; 30; 40; 50] r = Some lo
                    /\ JS.index [0; 10; 20; 30; 40; 50] (r + 1) = Some hi
                    /\ lo <= 25 < hi)
  /\ forall j lo hi, JS.index [0; 10; 20; 30; 40; 50] j = Some lo ->
                     JS.index [0; 10; 20; 30; 40; 50] (j + 1) = Some hi ->
                     lo <= 25 < hi -> j = r.
Proof.
  apply (findStep_unique_interval 25 [0; 10; 20; 30; 40; 50] 5 4).
  - reflexivity.
  - intros j lo hi Hlo Hhi.
    destruct (Z.lt_ge_cases j 0) as [Hn | Hn];
      [rewrite index_negative in Hlo by exact Hn; discriminate|].
    destruct (Z.lt_ge_cases j 5) as [Hlt | Hge].
    + assert (Hc : j = 0 \/ j = 1 \/ j = 2 \/ j = 3 \/ j = 4) by lia.
      repeat (destruct Hc as [-> | Hc]); try subst j;
        cbn in Hlo, Hhi; injection Hlo as <-; injection Hhi as <-; lia.
    + exfalso. unfold JS.index in Hhi. destruct (j + 1 <? 0); [discriminate|].
      assert (Hnone : nth_error [0; 10; 20; 30; 40; 50] (Z.to_nat (j + 1)) = None)
        by (apply nth_error_None; cbn; lia).
      rewrite Hnone in Hhi. discriminate.
  - exists 0, 50. repeat split; cbn; lia.
Defined.

(** ** The natal profile *)

(** What a built engine holds. *)
Lemma AHIEngine_new_inv getExactJieqi stemFromYear branchFromYear
      (birthDt : Z) (e : AHIEngine.t) :
  AHIEngine.new getExactJieqi stemFromYear branchFromYear birthDt = Ok e ->
  exists s guestYun,
    WuYunLiuQi.new getExactJieqi stemFromYear branchFromYear birthDt
    = Ok (AHIEngine.natalCalc e)
    /\ AHIEngine.birthDt e = birthDt
    /\ WuYunLiuQi.stem (AHIEngine.natalCalc e) = Some s
    /\ AHIEngine.natalSuiYun e = HeavenlyStem.element s
    /\ AHIEngine.natalAdequacy e = HeavenlyStem.adequacy s
    /\ (AHIEngine.strongZang e, AHIEngine.weakZang e)
       = (if Adequacy_eqb (HeavenlyStem.adequacy s) EXCESS
          then (HeavenlyStem.element s, ElementOvercomes (HeavenlyStem.element s))
          else (ElementOvercomer (HeavenlyStem.element s), HeavenlyStem.element s))
    /\ WuYunLiuQi.getCurrentFortuneEnums getExactJieqi (AHIEngine.natalCalc e)
       = Ok (AHIEngine.birthHostYun e, guestYun)
    /\ WuYunLiuQi.getCurrentQiEnums getExactJieqi (AHIEngine.natalCalc e)
       = Ok (AHIEngine.birthHostQi e, AHIEngine.birthGuestQi e).
Proof.
  unfold AHIEngine.new. intros H.
  destruct (WuYunLiuQi.new getExactJieqi stemFromYear branchFromYear birthDt)
    as [w|] eqn:Hw; [|discriminate H].
  cbn [bind] in H.
  destruct (WuYunLiuQi.stem w) as [s|] eqn:Hs; [|discriminate H].
  cbn [defined bind] in H.
  destruct (Adequacy_eqb (HeavenlyStem.adequacy s) EXCESS) eqn:Ea.
  all: destruct (WuYunLiuQi.getCurrentFortuneEnums getExactJieqi w)
    as [[hostYun guestYun]|] eqn:Hf; [|discriminate H].
  all: cbn [bind] in H.
  all: destruct (WuYunLiuQi.getCurrentQiEnums getExactJieqi w)
    as [[hostQi guestQi]|] eqn:Hq; [|discriminate H].
  all: cbn [bind] in H; injection H as <-.
  all: exists s, guestYun; cbn [AHIEngine.natalCalc AHIEngine.birthDt AHIEngine.natalSuiYun AHIEngine.natalAdequacy AHIEngine.strongZang AHIEngine.weakZang AHIEngine.birthHostYun AHIEngine.birthHostQi AHIEngine.birthGuestQi]; rewrite ?Ea; repeat split; first [assumption | reflexivity].
Qed.

(** X15. In a built engine the weak organ is the element the strong organ
    overcomes, and the two differ.  The strong organ is the natal movement
    when the natal stem is in excess and the weak organ is the natal
    movement when it is deficient; the natal movement and its adequacy are
    those of the stem of the birth profile. *)
Theorem engine_organs getExactJieqi stemFromYear branchFromYear
        (birthDt : Z) (e : AHIEngine.t) :
  AHIEngine.new getExactJieqi stemFromYear branchFromYear birthDt = Ok e ->
  AHIEngine.weakZang e = ElementOvercomes (AHIEngine.strongZang e)
  /\ AHIEngine.strongZang e <> AHIEngine.weakZang e
  /\ (AHIEngine.natalAdequacy e = EXCESS ->
      AHIEngine.strongZang e = AHIEngine.natalSuiYun e)
  /\ (AHIEngine.natalAdequacy e = DEFICIENCY ->
      AHIEngine.weakZang e = AHIEngine.natalSuiYun e)
  /\ exists s,
       WuYunLiuQi.stem (AHIEngine.natalCalc e) = Some s
       /\ AHIEngine.natalSuiYun e = HeavenlyStem.element s
       /\ AHIEngine.natalAdequacy e = HeavenlyStem.adequacy s.
Proof.
  intros H.
  destruct (AHIEngine_new_inv _ _ _ _ _ H)
    as (s & guestYun & _ & _ & Hs & Hel & Had & Hz & _).
  rewrite Hel, Had.
  destruct (HeavenlyStem.adequacy s) eqn:Ea; cbn in Hz;
    injection Hz as -> ->.
  all: split; [destruct (HeavenlyStem.element s); reflexivity|].
  all: split; [destruct (HeavenlyStem.element s); discriminate|].
  all: split; [intros E; first [reflexivity | discriminate E]|].
  all: split; [intros E; first [reflexivity | discriminate E]|].
  all: exists s; repeat split; first [assumption | reflexivity | symmetry; assumption].
Qed.

Lemma engine_organs_witness :
  AHIEngine.weakZang sampleEngine = ElementOvercomes (AHIEngine.strongZang sampleEngine)
  /\ AHIEngine.strongZang sampleEngine <> AHIEngine.weakZang sampleEngine.
Proof.
  destruct (engine_organs (ServerTs.getExactJieqi sampleAlmanac)
              HeavenlyStem.fromYear EarthlyBranch.fromYear
              (JSDate.make 1990 5 15 12 0 0) sampleEngine)
    as (H1 & H2 & _).
  - vm_compute. reflexivity.
  - split; [exact H1 | exact H2].
Defined.

(** ** Where the engine can fail *)

Lemma mapM_Err {A B : Type} (f : A -> result B) (l : list A) (e : error) :
  mapM f l = Err e -> exists x, In x l /\ f x = Err e.
Proof.
  induction l as [|x rest IH]; cbn [mapM]; [discriminate|].
  destruct (f x) as [y|e'] eqn:Ex; cbn [bind].
  - destruct (mapM f rest) as [ys|e''] eqn:Er; cbn [bind]; [discriminate|].
    intros H. injection H as ->.
    destruct (IH eq_refl) as (x' & Hin & Hx'). exists x'. split; [right|]; assumption.
  - intros H. injection H as ->. exists x. split; [left; reflexivity | exact Ex].
Qed.

Lemma mapM_length {A B : Type} (f : A -> result B) (l : list A) (ys : list B) :
  mapM f l = Ok ys -> length ys = length l.
Proof.
  revert ys. induction l as [|x rest IH]; cbn [mapM]; intros ys H.
  - injection H as <-. reflexivity.
  - destruct (f x) as [y|]; cbn [bind] in H; [|discriminate].
    destruct (mapM f rest) as [ys'|]; cbn [bind] in H; [|discriminate].
    injection H as <-. cbn. f_equal. apply IH. reflexivity.
Qed.

Section EngineFailures.

Variable getExactJieqi : Z -> SolarTerm -> result Z.
Variable stemFromYear : Z -> option HeavenlyStem.t.
Variable branchFromYear : Z -> option EarthlyBranch.t.

Hypothesis stem_total : forall y, exists s, stemFromYear y = Some s.
Hypothesis branch_total : forall y, exists b, branchFromYear y = Some b.

Lemma new_failure (d : Z) (e : error) :
  WuYunLiuQi.new getExactJieqi stemFromYear branchFromYear d = Err e ->
  exists y t, getExactJieqi y t = Err e.
Proof.
  unfold WuYunLiuQi.new.
  destruct (getExactJieqi (JSDate.getFullYear d) DaHan) as [g|e'] eqn:E;
    cbn [bind]; [discriminate|].
  intros H. injection H as <-. eauto.
Qed.

Lemma new_stem_branch (d : Z) (w : WuYunLiuQi.t) :
  WuYunLiuQi.new getExactJieqi stemFromYear branchFromYear d = Ok w ->
  exists s b, WuYunLiuQi.stem w = Some s /\ WuYunLiuQi.branch w = Some b.
Proof.
  unfold WuYunLiuQi.new.
  destruct (getExactJieqi (JSDate.getFullYear d) DaHan) as [g|e'];
    cbn [bind]; [|discriminate].
  intros H. injection H as <-. cbn.
  destruct (stem_total (if d <? g then JSDate.getFullYear d - 1
                        else JSDate.getFullYear d)) as [s Hs].
  destruct (branch_total (if d <? g then JSDate.getFullYear d - 1
                          else JSDate.getFullYear d)) as [b Hb].
  eauto.
Qed.

Lemma startDates_failure (w : WuYunLiuQi.t) (e : error) :
  WuYunLiuQi.startDates getExactJieqi w = Err e ->
  exists y t, getExactJieqi y t = Err e.
Proof.
  unfold WuYunLiuQi.startDates.
  destruct (mapM _ WuYunLiuQi.termOffsets) as [ds|e'] eqn:Em; cbn [bind].
  - destruct (getExactJieqi (WuYunLiuQi.wuyunYear w + 1) DaHan) as [l|e'] eqn:El;
      cbn [bind]; [discriminate|].
    intros H. injection H as <-. eauto.
  - intros H. injection H as <-.
    destruct (mapM_Err _ _ _ Em) as ([term offset] & _ & Hx).
    destruct (getExactJieqi (WuYunLiuQi.wuyunYear w) term) as [d|e''] eqn:Ed;
      cbn [bind] in Hx; [discriminate|].
    injection Hx as <-. eauto.
Qed.

Lemma qiBounds_failure (w : WuYunLiuQi.t) (e : error) :
  WuYunLiuQi.qiBounds getExactJieqi w = Err e ->
  exists y t, getExactJieqi y t = Err e.
Proof.
  unfold WuYunLiuQi.qiBounds. intros H.
  destruct (mapM_Err _ _ _ H) as ([t i] & _ & Hx). eauto.
Qed.

Lemma getCurrentFortuneEnums_failure (w : WuYunLiuQi.t) (s : HeavenlyStem.t)
      (e : error) :
  WuYunLiuQi.stem w = Some s ->
  WuYunLiuQi.getCurrentFortuneEnums getExactJieqi w = Err e ->
  exists y t, getExactJieqi y t = Err e.
Proof.
  intros Hs. unfold WuYunLiuQi.getCurrentFortuneEnums.
  destruct (WuYunLiuQi.startDates getExactJieqi w) as [sd|e'] eqn:Esd; cbn [bind].
  - pose proof (findStep_range (WuYunLiuQi.targetDate w) sd 5 4 ltac:(cbn; lia)) as Hr.
    destruct (index_in_range WuYunLiuQi.getHostFortunes
                (WuYunLiuQi.findStep (WuYunLiuQi.targetDate w) sd 5 4) Hr)
      as [h Hh].
    rewrite Hh. cbn [defined bind].
    unfold WuYunLiuQi.getGuestFortunes. rewrite Hs. cbn [defined bind].
    destruct (index_in_range
                (WuYunLiuQi.guestLoop 5 0 (HeavenlyStem.element s)
                   (HeavenlyStem.adequacy s))
                (WuYunLiuQi.findStep (WuYunLiuQi.targetDate w) sd 5 4) Hr)
      as [g Hg].
    rewrite Hg. cbn [defined bind]. discriminate.
  - intros H. injection H as <-. exact (startDates_failure w e' Esd).
Qed.

Lemma getCurrentQiEnums_failure (w : WuYunLiuQi.t) (b : EarthlyBranch.t)
      (e : error) :
  WuYunLiuQi.branch w = Some b ->
  WuYunLiuQi.getCurrentQiEnums getExactJieqi w = Err e ->
  exists y t, getExactJieqi y t = Err e.
Proof.
  intros Hb. unfold WuYunLiuQi.getCurrentQiEnums.
  destruct (WuYunLiuQi.qiBounds getExactJieqi w) as [bounds|e'] eqn:Eb; cbn [bind].
  - pose proof (findStep_range (WuYunLiuQi.targetDate w) bounds 6 5 ltac:(cbn; lia)) as Hr.
    destruct (index_in_range QiType.list
                (WuYunLiuQi.findStep (WuYunLiuQi.targetDate w) bounds 6 5) Hr)
      as [h Hh].
    rewrite Hh. cbn [defined bind].
    rewrite (getGuestQiSequence_slots w b Hb). cbn [bind].
    match goal with
    | |- context [JS.index ?l ?i] =>
        destruct (index_in_range l i Hr) as [g Hg]; rewrite Hg
    end.
    cbn [defined bind]. discriminate.
  - intros H. injection H as <-. exact (qiBounds_failure w e' Eb).
Qed.

Lemma AHIEngine_new_failure (d : Z) (e : error) :
  AHIEngine.new getExactJieqi stemFromYear branchFromYear d = Err e ->
  exists y t, getExactJieqi y t = Err e.
Proof.
  unfold AHIEngine.new.
  destruct (WuYunLiuQi.new getExactJieqi stemFromYear branchFromYear d)
    as [w|e'] eqn:Ew; cbn [bind].
  - destruct (new_stem_branch d w Ew) as (s & b & Hs & Hb).
    rewrite Hs. cbn [defined bind].
    destruct (WuYunLiuQi.getCurrentFortuneEnums getExactJieqi w)
      as [[hostYun guestYun]|e'] eqn:Ef.
    + destruct (WuYunLiuQi.getCurrentQiEnums getExactJieqi w)
        as [[hostQi guestQi]|e'] eqn:Eq.
      * destruct (Adequacy_eqb (HeavenlyStem.adequacy s) EXCESS);
          cbn [bind]; discriminate.
      * intros H.
        assert (e = e')
          by (destruct (Adequacy_eqb (HeavenlyStem.adequacy s) EXCESS);
              cbn [bind] in H; congruence).
        subst e'. exact (getCurrentQiEnums_failure w b e Hb Eq).
    + intros H.
      assert (e = e')
        by (destruct (Adequacy_eqb (HeavenlyStem.adequacy s) EXCESS);
            cbn [bind] in H; congruence).
      subst e'. exact (getCurrentFortuneEnums_failure w s e Hs Ef).
  - intros H. injection H as <-. exact (new_failure d e' Ew).
Qed.

Lemma calculateYearAhi_failure (engine : AHIEngine.t) (targetYear : Z) (e : error) :
  AHIEngine.calculateYearAhi getExactJieqi stemFromYear branchFromYear
    engine targetYear = Err e ->
  exists y, getExactJieqi y DaHan = Err e.
Proof.
  unfold AHIEngine.calculateYearAhi.
  destruct (getExactJieqi targetYear DaHan) as [dt|e'] eqn:Edt; cbn [bind];
    [|intros H; injection H as <-; eauto].
  destruct (WuYunLiuQi.new getExactJieqi stemFromYear branchFromYear dt)
    as [w|e'] eqn:Ew; cbn [bind].
  - destruct (new_stem_branch dt w Ew) as (s & b & Hs & Hb).
    rewrite Hs. cbn [defined bind].
    rewrite (getClimaticEffect_table w b Hb). cbn [defined bind].
    unfold WuYunLiuQi.getGuestFortunes. rewrite Hs. cbn [defined bind].
    rewrite Hb. cbn [defined bind]. discriminate.
  - intros H. injection H as <-.
    unfold WuYunLiuQi.new in Ew.
    destruct (getExactJieqi (JSDate.getFullYear dt) DaHan) as [g|e''] eqn:E;
      cbn [bind] in Ew; [discriminate|].
    injection Ew as <-. eauto.
Qed.

Lemma klineLoop_failure (engine : AHIEngine.t) (year : Z) (todo : list Z)
      (currentHealth : Q) (acc : list KlinePoint) (e : error) :
  klineLoop getExactJieqi stemFromYear branchFromYear engine year
    todo currentHealth acc = Err e ->
  exists y, getExactJieqi y DaHan = Err e.
Proof.
  revert currentHealth acc. induction todo as [|a rest IH]; intros h acc;
    cbn [klineLoop]; [discriminate|].
  unfold klineStep.
  destruct (AHIEngine.calculateYearAhi getExactJieqi stemFromYear branchFromYear
              engine (year + a - 1)) as [v|e'] eqn:Ev; cbn [bind].
  - apply IH.
  - intros H. injection H as <-. exact (calculateYearAhi_failure _ _ _ Ev).
Qed.

End EngineFailures.

Lemma klineLoop_length getExactJieqi stemFromYear branchFromYear
      (engine : AHIEngine.t) (year : Z) (todo : list Z) (currentHealth : Q)
      (acc pts : list KlinePoint) :
  klineLoop getExactJieqi stemFromYear branchFromYear engine year
    todo currentHealth acc = Ok pts ->
  length pts = (length acc + length todo)%nat.
Proof.
  revert currentHealth acc. induction todo as [|a rest IH]; intros h acc;
    cbn [klineLoop].
  - intros H. injection H as <-. cbn. lia.
  - unfold klineStep.
    destruct (AHIEngine.calculateYearAhi getExactJieqi stemFromYear branchFromYear
                engine (year + a - 1)) as [v|e']; cbn [bind]; [|discriminate].
    intros H. rewrite (IH _ _ H), length_app. cbn. lia.
Qed.

(** X16. In the session variant nothing fails but the locator: when the
    constructor of the engine, the yearly score or the series fails, the
    error is the locator's error naming a year and a term, and for the
    yearly score and the series the term is the Great Cold.  No lookup in a
    table is undefined, whatever the almanac and the dates. *)
Theorem session_failures_are_lookup_errors (alm : Almanac) :
  (forall d e, Session.AHIEngine_new alm d = Err e ->
     exists y t, Session.getExactJieqi alm y t = Err e /\ e = LookupError y t)
  /\ (forall engine targetYear e,
        Session.calculateYearAhi alm engine targetYear = Err e ->
        exists y, Session.getExactJieqi alm y DaHan = Err e
                  /\ e = LookupError y DaHan)
  /\ (forall engine year e,
        Session.klineData alm engine year = Err e ->
        exists y, Session.getExactJieqi alm y DaHan = Err e
                  /\ e = LookupError y DaHan).
Proof.
  assert (Hs : forall y, exists s, HeavenlyStem.fromYear_nonneg y = Some s)
    by (intros y; destruct (stem_fromYear_nonneg_total y) as (s & H & _); eauto).
  assert (Hb : forall y, exists b, EarthlyBranch.fromYear_nonneg y = Some b)
    by (intros y; destruct (branch_fromYear_nonneg_total y) as (b & H & _); eauto).
  split; [|split].
  - intros d e H.
    destruct (AHIEngine_new_failure _ _ _ Hs Hb d e H) as (y & t & Hy).
    exists y, t. split; [exact Hy|].
    exact (LocatorFacts.getExactJieqi_Err _ _ _ _ Hy).
  - intros engine targetYear e H.
    destruct (calculateYearAhi_failure _ _ _ Hs Hb engine targetYear e H) as (y & Hy).
    exists y. split; [exact Hy|].
    exact (LocatorFacts.getExactJieqi_Err _ _ _ _ Hy).
  - intros engine year e H.
    destruct (klineLoop_failure _ _ _ Hs Hb engine year _ _ _ e H) as (y & Hy).
    exists y. split; [exact Hy|].
    exact (LocatorFacts.getExactJieqi_Err _ _ _ _ Hy).
Qed.

(** The sample almanac has every term of every year. *)
Lemma sampleAlmanac_located (y : Z) (t : SolarTerm) :
  exists d, Session.getExactJieqi sampleAlmanac y t = Ok d.
Proof.
  unfold Session.getExactJieqi, AstronomyEngine.Checked.getExactJieqi.
  destruct t; cbn; rewrite Z.eqb_refl; eauto.
Qed.

Section EngineLookups.

Variable getExactJieqi : Z -> SolarTerm -> result Z.
Variable stemFromYear : Z -> option HeavenlyStem.t.
Variable branchFromYear : Z -> option EarthlyBranch.t.

Hypothesis stem_total : forall y, exists s, stemFromYear y = Some s.
Hypothesis branch_total : forall y, exists b, branchFromYear y = Some b.

Lemma new_wuyunYear (d : Z) (w : WuYunLiuQi.t) :
  WuYunLiuQi.new getExactJieqi stemFromYear branchFromYear d = Ok w ->
  WuYunLiuQi.wuyunYear w = JSDate.getFullYear d - 1
  \/ WuYunLiuQi.wuyunYear w = JSDate.getFullYear d.
Proof.
  unfold WuYunLiuQi.new.
  destruct (getExactJieqi (JSDate.getFullYear d) DaHan) as [g|e'];
    cbn [bind]; [|discriminate].
  intros H. injection H as <-. cbn. destruct (d <? g); auto.
Qed.

Lemma new_failure_at (d : Z) (e : error) :
  WuYunLiuQi.new getExactJieqi stemFromYear branchFromYear d = Err e ->
  getExactJieqi (JSDate.getFullYear d) DaHan = Err e.
Proof.
  unfold WuYunLiuQi.new.
  destruct (getExactJieqi (JSDate.getFullYear d) DaHan) as [g|e'] eqn:E;
    cbn [bind]; [discriminate|].
  intros H. injection H as <-. reflexivity.
Qed.

Lemma startDates_failure_at (w : WuYunLiuQi.t) (e : error) :
  WuYunLiuQi.startDates getExactJieqi w = Err e ->
  exists y t,
    WuYunLiuQi.wuyunYear w <= y <= WuYunLiuQi.wuyunYear w + 1
    /\ In t [DaHan; ChunFen; XiaoMan; MangZhong; DaShu; ChuShu; QiuFen;
             XiaoXue; LiDong]
    /\ getExactJieqi y t = Err e.
Proof.
  unfold WuYunLiuQi.startDates.
  destruct (mapM _ WuYunLiuQi.termOffsets) as [ds|e'] eqn:Em; cbn [bind].
  - destruct (getExactJieqi (WuYunLiuQi.wuyunYear w + 1) DaHan) as [l|e'] eqn:El;
      cbn [bind]; [discriminate|].
    intros H. injection H as <-.
    exists (WuYunLiuQi.wuyunYear w + 1), DaHan.
    split; [lia|]. split; [left; reflexivity | exact El].
  - intros H. injection H as <-.
    destruct (mapM_Err _ _ _ Em) as ([term offset] & Hin & Hx).
    destruct (getExactJieqi (WuYunLiuQi.wuyunYear w) term) as [d|e''] eqn:Ed;
      cbn [bind] in Hx; [discriminate|].
    injection Hx as <-.
    exists (WuYunLiuQi.wuyunYear w), term.
    split; [lia|]. split; [|exact Ed].
    cbn in Hin |- *.
    repeat (destruct Hin as [Hin | Hin]; [injection Hin as <- _; tauto|]).
    contradiction.
Qed.

Lemma qiBounds_failure_at (w : WuYunLiuQi.t) (e : error) :
  WuYunLiuQi.qiBounds getExactJieqi w = Err e ->
  exists y t,
    WuYunLiuQi.wuyunYear w <= y <= WuYunLiuQi.wuyunYear w + 1
    /\ In t [DaHan; ChunFen; XiaoMan; MangZhong; DaShu; ChuShu; QiuFen;
             XiaoXue; LiDong]
    /\ getExactJieqi y t = Err e.
Proof.
  unfold WuYunLiuQi.qiBounds. intros H.
  destruct (mapM_Err _ _ _ H) as ([t i] & Hin & Hx).
  exists (WuYunLiuQi.wuyunYear w + (if i =? 6 then 1 else 0)), t.
  split; [destruct (i =? 6); lia|]. split; [|exact Hx].
  cbn in Hin |- *.
  repeat (destruct Hin as [Hin | Hin]; [injection Hin as <- _; tauto|]).
  contradiction.
Qed.

Lemma getCurrentFortuneEnums_failure_at (w : WuYunLiuQi.t) (s : HeavenlyStem.t)
      (e : error) :
  WuYunLiuQi.stem w = Some s ->
  WuYunLiuQi.getCurrentFortuneEnums getExactJieqi w = Err e ->
  WuYunLiuQi.startDates getExactJieqi w = Err e.
Proof.
  intros Hs. unfold WuYunLiuQi.getCurrentFortuneEnums.
  destruct (WuYunLiuQi.startDates getExactJieqi w) as [sd|e'] eqn:Esd; cbn [bind].
  - pose proof (findStep_range (WuYunLiuQi.targetDate w) sd 5 4 ltac:(cbn; lia)) as Hr.
    destruct (index_in_range WuYunLiuQi.getHostFortunes
                (WuYunLiuQi.findStep (WuYunLiuQi.targetDate w) sd 5 4) Hr)
      as [h Hh].
    rewrite Hh. cbn [defined bind].
    unfold WuYunLiuQi.getGuestFortunes. rewrite Hs. cbn [defined bind].
    destruct (index_in_range
                (WuYunLiuQi.guestLoop 5 0 (HeavenlyStem.element s)
                   (HeavenlyStem.adequacy s))
                (WuYunLiuQi.findStep (WuYunLiuQi.targetDate w) sd 5 4) Hr)
      as [g Hg].
    rewrite Hg. cbn [defined bind]. discriminate.
  - intros H. injection H as <-. reflexivity.
Qed.

Lemma getCurrentQiEnums_failure_at (w : WuYunLiuQi.t) (b : EarthlyBranch.t)
      (e : error) :
  WuYunLiuQi.branch w = Some b ->
  WuYunLiuQi.getCurrentQiEnums getExactJieqi w = Err e ->
  WuYunLiuQi.qiBounds getExactJieqi w = Err e.
Proof.
  intros Hb. unfold WuYunLiuQi.getCurrentQiEnums.
  destruct (WuYunLiuQi.qiBounds getExactJieqi w) as [bounds|e'] eqn:Eb; cbn [bind].
  - pose proof (findStep_range (WuYunLiuQi.targetDate w) bounds 6 5 ltac:(cbn; lia)) as Hr.
    destruct (index_in_range QiType.list
                (WuYunLiuQi.findStep (WuYunLiuQi.targetDate w) bounds 6 5) Hr)
      as [h Hh].
    rewrite Hh. cbn [defined bind].
    rewrite (getGuestQiSequence_slots w b Hb). cbn [bind].
    match goal with
    | |- context [JS.index ?l ?i] =>
        destruct (index_in_range l i Hr) as [g Hg]; rewrite Hg
    end.
    cbn [defined bind]. discriminate.
  - intros H. injection H as <-. reflexivity.
Qed.

(** A failure of the constructor of the engine is a failure of the locator
    at one of the nine terms, in the civil year of the birth date, the year
    before or the year after. *)
Lemma AHIEngine_new_failure_at (d : Z) (e : error) :
  AHIEngine.new getExactJieqi stemFromYear branchFromYear d = Err e ->
  exists y t,
    JSDate.getFullYear d - 1 <= y <= JSDate.getFullYear d + 1
    /\ In t [DaHan; ChunFen; XiaoMan; MangZhong; DaShu; ChuShu; QiuFen;
             XiaoXue; LiDong]
    /\ getExactJieqi y t = Err e.
Proof.
  unfold AHIEngine.new.
  destruct (WuYunLiuQi.new getExactJieqi stemFromYear branchFromYear d)
    as [w|e'] eqn:Ew; cbn [bind].
  - destruct (new_stem_branch _ _ _ stem_total branch_total d w Ew)
      as (s & b & Hs & Hb).
    pose proof (new_wuyunYear d w Ew) as Hw.
    rewrite Hs. cbn [defined bind].
    destruct (WuYunLiuQi.getCurrentFortuneEnums getExactJieqi w)
      as [[hostYun guestYun]|e'] eqn:Ef.
    + destruct (WuYunLiuQi.getCurrentQiEnums getExactJieqi w)
        as [[hostQi guestQi]|e'] eqn:Eq.
      * destruct (Adequacy_eqb (HeavenlyStem.adequacy s) EXCESS);
          cbn [bind]; discriminate.
      * intros H.
        assert (e = e')
          by (destruct (Adequacy_eqb (HeavenlyStem.adequacy s) EXCESS);
              cbn [bind] in H; congruence).
        subst e'.
        destruct (qiBounds_failure_at w e (getCurrentQiEnums_failure_at w b e Hb Eq))
          as (y & t & Hy & Ht & He).
        exists y, t. split; [lia|]. split; assumption.
    + intros H.
      assert (e = e')
        by (destruct (Adequacy_eqb (HeavenlyStem.adequacy s) EXCESS);
            cbn [bind] in H; congruence).
      subst e'.
      destruct (startDates_failure_at w e (getCurrentFortuneEnums_failure_at w s e Hs Ef))
        as (y & t & Hy & Ht & He).
      exists y, t. split; [lia|]. split; assumption.
  - intros H. injection H as <-.
    exists (JSDate.getFullYear d), DaHan.
    split; [lia|]. split; [left; reflexivity | exact (new_failure_at d e' Ew)].
Qed.

(** A failure of the yearly score is a failure of the locator at the Great
    Cold, of the target year or of the civil year of the located date. *)
Lemma calculateYearAhi_failure_at (engine : AHIEngine.t) (targetYear : Z) (e : error) :
  AHIEngine.calculateYearAhi getExactJieqi stemFromYear branchFromYear
    engine targetYear = Err e ->
  getExactJieqi targetYear DaHan = Err e
  \/ exists dt, getExactJieqi targetYear DaHan = Ok dt
                /\ getExactJieqi (JSDate.getFullYear dt) DaHan = Err e.
Proof.
  unfold AHIEngine.calculateYearAhi.
  destruct (getExactJieqi targetYear DaHan) as [dt|e'] eqn:Edt; cbn [bind];
    [|intros H; injection H as <-; left; reflexivity].
  destruct (WuYunLiuQi.new getExactJieqi stemFromYear branchFromYear dt)
    as [w|e'] eqn:Ew; cbn [bind].
  - destruct (new_stem_branch _ _ _ stem_total branch_total dt w Ew)
      as (s & b & Hs & Hb).
    rewrite Hs. cbn [defined bind].
    rewrite (getClimaticEffect_table w b Hb). cbn [defined bind].
    unfold WuYunLiuQi.getGuestFortunes. rewrite Hs. cbn [defined bind].
    rewrite Hb. cbn [defined bind]. discriminate.
  - intros H. injection H as <-. right. exists dt.
    split; [reflexivity | exact (new_failure_at dt e' Ew)].
Qed.

End EngineLookups.

(** In the session variant a year outside 0..99 whose Great Cold is found
    has a score. *)
Lemma Session_calculateYearAhi_total (alm : Almanac) (engine : AHIEngine.t)
      (targetYear : Z) (d : Z) :
  Almanac_wf alm ->
  ~ (0 <= targetYear <= 99) ->
  Session.getExactJieqi alm targetYear DaHan = Ok d ->
  exists v, Session.calculateYearAhi alm engine targetYear = Ok v.
Proof.
  intros Hwf Hy Hd.
  assert (Hs : forall y, exists s, HeavenlyStem.fromYear_nonneg y = Some s)
    by (intros y; destruct (stem_fromYear_nonneg_total y) as (s & H & _); eauto).
  assert (Hb : forall y, exists b, EarthlyBranch.fromYear_nonneg y = Some b)
    by (intros y; destruct (branch_fromYear_nonneg_total y) as (b & H & _); eauto).
  destruct (Session.calculateYearAhi alm engine targetYear) as [v|e] eqn:Ev;
    [eauto|].
  exfalso.
  destruct (calculateYearAhi_failure_at (Session.getExactJieqi alm) _ _ Hs Hb
              engine targetYear e Ev) as [H | (dt & Hdt & H)].
  - congruence.
  - assert (dt = d) by congruence. subst dt.
    rewrite (LocatorFacts.getExactJieqi_year alm targetYear DaHan d Hwf Hy Hd) in H.
    congruence.
Qed.

(** A series fails at one of its ages. *)
Lemma klineLoop_failing_age getExactJieqi stemFromYear branchFromYear
      (engine : AHIEngine.t) (year : Z) (todo : list Z) (currentHealth : Q)
      (acc : list KlinePoint) (e : error) :
  klineLoop getExactJieqi stemFromYear branchFromYear engine year
    todo currentHealth acc = Err e ->
  exists a, In a todo
            /\ AHIEngine.calculateYearAhi getExactJieqi stemFromYear branchFromYear
                 engine (year + a - 1) = Err e.
Proof.
  revert currentHealth acc. induction todo as [|a rest IH]; intros h acc;
    cbn [klineLoop]; [discriminate|].
  unfold klineStep.
  destruct (AHIEngine.calculateYearAhi getExactJieqi stemFromYear branchFromYear
              engine (year + a - 1)) as [v|e'] eqn:Ev; cbn [bind].
  - intros H. destruct (IH _ _ H) as (a' & Ha' & He).
    exists a'. split; [right; exact Ha' | exact He].
  - intros H. injection H as <-. exists a. split; [left; reflexivity | exact Ev].
Qed.

(** X17. In the session variant, with a library of civil dates and a span
    of years from 100 on in which the locator finds the nine terms the
    engine asks for: the engine is built for every birth date of a civil
    year inside the span, every target year of the span has a score, and a
    series whose sixty years lie in the span has its sixty points. *)
Theorem session_series_total (alm : Almanac) (lo hi : Z) :
  Almanac_wf alm ->
  100 <= lo ->
  (forall y t,
     lo <= y <= hi ->
     In t [DaHan; ChunFen; XiaoMan; MangZhong; DaShu; ChuShu; QiuFen;
           XiaoXue; LiDong] ->
     exists d, Session.getExactJieqi alm y t = Ok d) ->
  (forall birthDt,
     lo < JSDate.getFullYear birthDt < hi ->
     exists engine, Session.AHIEngine_new alm birthDt = Ok engine)
  /\ (forall engine targetYear,
        lo <= targetYear <= hi ->
        exists v, Session.calculateYearAhi alm engine targetYear = Ok v)
  /\ (forall engine year,
        lo <= year -> year + 59 <= hi ->
        exists pts, Session.klineData alm engine year = Ok pts
                    /\ length pts = 60%nat).
Proof.
  intros Hwf Hlo Hloc.
  assert (Hs : forall y, exists s, HeavenlyStem.fromYear_nonneg y = Some s)
    by (intros y; destruct (stem_fromYear_nonneg_total y) as (s & H & _); eauto).
  assert (Hb : forall y, exists b, EarthlyBranch.fromYear_nonneg y = Some b)
    by (intros y; destruct (branch_fromYear_nonneg_total y) as (b & H & _); eauto).
  assert (Hcalc : forall engine targetYear, lo <= targetYear <= hi ->
            exists v, Session.calculateYearAhi alm engine targetYear = Ok v).
  { intros engine targetYear Hy.
    destruct (Hloc targetYear DaHan Hy ltac:(left; reflexivity)) as [d Hd].
    apply (Session_calculateYearAhi_total alm engine targetYear d Hwf); [lia | exact Hd]. }
  split; [|split].
  - intros birthDt Hy.
    destruct (Session.AHIEngine_new alm birthDt) as [engine|e] eqn:En; [eauto|].
    exfalso.
    destruct (AHIEngine_new_failure_at (Session.getExactJieqi alm) _ _ Hs Hb
                birthDt e En) as (y & t & Hr & Ht & He).
    destruct (Hloc y t ltac:(lia) Ht) as [d Hd]. congruence.
  - exact Hcalc.
  - intros engine year Hy1 Hy2.
    destruct (Session.klineData alm engine year) as [pts|e] eqn:Ek.
    + exists pts. split; [reflexivity|].
      exact (klineLoop_length _ _ _ _ _ _ _ _ _ Ek).
    + exfalso. unfold Session.klineData, klineData in Ek.
      destruct (klineLoop_failing_age _ _ _ _ _ _ _ _ _ Ek) as (a & Ha & Hf).
      apply ages_In in Ha.
      destruct (Hcalc engine (year + a - 1) ltac:(lia)) as [v Hv].
      unfold Session.calculateYearAhi in Hv. congruence.
Qed.

Lemma sampleAlmanac_nine_terms (y : Z) (t : SolarTerm) :
  1900 <= y <= 2100 ->
  In t [DaHan; ChunFen; XiaoMan; MangZhong; DaShu; ChuShu; QiuFen;
        XiaoXue; LiDong] ->
  exists d, Session.getExactJieqi sampleAlmanac y t = Ok d.
Proof.
  intros _ _. apply sampleAlmanac_located.
Qed.

Lemma session_series_total_witness :
  (exists engine,
     Session.AHIEngine_new sampleAlmanac (JSDate.make 1990 5 15 12 0 0) = Ok engine)
  /\ (exists v, Session.calculateYearAhi sampleAlmanac sampleEngine 2049 = Ok v)
  /\ (exists pts, Session.klineData sampleAlmanac sampleEngine 1990 = Ok pts
                  /\ length pts = 60%nat).
Proof.
  destruct (session_series_total sampleAlmanac 1900 2100 sampleAlmanac_wf
              ltac:(lia) sampleAlmanac_nine_terms) as (Hnew & Hcalc & Hkline).
  split; [|split].
  - apply Hnew. vm_compute. split; reflexivity.
  - apply Hcalc. lia.
  - apply Hkline; lia.
Defined.

(** ** The series and the response of the route *)

Lemma klineLoop_Ok_inv getExactJieqi stemFromYear branchFromYear
      (engine : AHIEngine.t) (year : Z) (todo : list Z) (currentHealth : Q)
      (acc pts : list KlinePoint) :
  klineLoop getExactJieqi stemFromYear branchFromYear engine year
    todo currentHealth acc = Ok pts ->
  forall a, In a todo ->
    exists v, AHIEngine.calculateYearAhi getExactJieqi stemFromYear branchFromYear
                engine (year + a - 1) = Ok v.
Proof.
  revert currentHealth acc. induction todo as [|a0 rest IH]; intros h acc H a Ha;
    [contradiction|].
  cbn [klineLoop] in H. unfold klineStep in H.
  destruct (AHIEngine.calculateYearAhi getExactJieqi stemFromYear branchFromYear
              engine (year + a0 - 1)) as [v|e'] eqn:Ev; cbn [bind] in H;
    [|discriminate].
  destruct Ha as [<- | Ha]; [eauto|]. exact (IH _ _ H a Ha).
Qed.

(** A returned series is the series of the closed form. *)
Lemma klineData_Ok_points getExactJieqi stemFromYear branchFromYear
      (engine : AHIEngine.t) (year : Z) (pts : list KlinePoint) :
  klineData getExactJieqi stemFromYear branchFromYear engine year = Ok pts ->
  pts = points engine
          (impactOf (AHIEngine.calculateYearAhi getExactJieqi stemFromYear
                       branchFromYear engine) year)
          ages (inject_Z (AHIEngine.baseScore engine)).
Proof.
  intros H.
  assert (Himp : forall a, 1 <= a <= 60 ->
            AHIEngine.calculateYearAhi getExactJieqi stemFromYear branchFromYear
              engine (year + a - 1)
            = Ok (impactOf (AHIEngine.calculateYearAhi getExactJieqi stemFromYear
                              branchFromYear engine) year a)).
  { intros a Ha. unfold impactOf.
    destruct (klineLoop_Ok_inv _ _ _ _ _ _ _ _ _ H a (proj2 (ages_In a) Ha))
      as [v Hv].
    rewrite Hv. reflexivity. }
  pose proof (klineData_points getExactJieqi stemFromYear branchFromYear
                engine year _ Himp) as Hp.
  congruence.
Qed.

Lemma closeScore_range (engine : AHIEngine.t) (impact : Z -> Q) (h : Q) (a : Z) :
  (0 <= closeScore engine impact h a <= 100)%Q.
Proof. unfold closeScore. apply (clamp_range _). Qed.

Lemma points_age (engine : AHIEngine.t) (impact : Z -> Q) (todo : list Z) (h : Q) :
  map age (points engine impact todo h) = todo.
Proof.
  revert h. induction todo as [|a rest IH]; intros h; cbn; [reflexivity|].
  now rewrite IH.
Qed.

Lemma points_range (engine : AHIEngine.t) (impact : Z -> Q) (todo : list Z) (h : Q) :
  (0 <= h <= 100)%Q ->
  forall p, In p (points engine impact todo h) ->
    (0 <= open p <= 100)%Q /\ (0 <= close p <= 100)%Q.
Proof.
  revert h. induction todo as [|a rest IH]; intros h Hh p Hp; [contradiction|].
  cbn [points] in Hp. destruct Hp as [<- | Hp].
  - cbn [open close]. split; apply toFixed2_range;
      [exact Hh | apply closeScore_range].
  - exact (IH _ (closeScore_range engine impact h a) p Hp).
Qed.

(** X18. A response of the route [/api/calculate] of [server.ts] comes
    from a request whose year, month and day are not 0; its base score lies
    within 20 and 70; its series has the sixty ages 1 to 60 in order, the
    first point opens at the base score, and every open and every close
    lies between 0 and 100. *)
Theorem api_calculate_response (alm : Almanac) (year month day : Z)
        (resp : Response) :
  api_calculate (ServerTs.getExactJieqi alm) HeavenlyStem.fromYear
    EarthlyBranch.fromYear year month day = Ok resp ->
  year <> 0 /\ month <> 0 /\ day <> 0
  /\ 20 <= base_score resp <= 70
  /\ map age (kline_data resp) = ages
  /\ length (kline_data resp) = 60%nat
  /\ (exists p rest, kline_data resp = p :: rest
                     /\ (open p == inject_Z (base_score resp))%Q)
  /\ (forall p, In p (kline_data resp) ->
        (0 <= open p <= 100)%Q /\ (0 <= close p <= 100)%Q).
Proof.
  intros H.
  assert (Hreq : year <> 0 /\ month <> 0 /\ day <> 0).
  { unfold api_calculate in H.
    destruct (year =? 0) eqn:Ey; [discriminate H|].
    destruct (month =? 0) eqn:Em; [discriminate H|].
    destruct (day =? 0) eqn:Ed; [discriminate H|].
    apply Z.eqb_neq in Ey, Em, Ed. tauto. }
  destruct (api_calculate_kline _ _ _ _ _ _ _ H) as (engine & Hnew & Hk & Hbase).
  pose proof (AHIEngine_new_baseScore _ _ _ _ _ Hnew) as Hb.
  pose proof (calcBaseScore_range (AHIEngine.birthHostQi engine)
                (AHIEngine.birthGuestQi engine)) as Hr.
  rewrite <- Hb in Hr.
  apply klineData_Ok_points in Hk.
  rewrite Hk, Hbase.
  split; [tauto|]. split; [tauto|]. split; [tauto|].
  split; [exact Hr|].
  split; [apply points_age|].
  split; [rewrite points_length; reflexivity|].
  split.
  - unfold ages. cbn [seq map points]. eexists. eexists.
    split; [reflexivity|]. cbn [open]. apply toFixed2_integer.
  - apply points_range.
    destruct Hr as [Hlo Hhi]. rewrite Zle_Qle in Hlo, Hhi.
    change (inject_Z 20) with 20%Q in Hlo. change (inject_Z 70) with 70%Q in Hhi.
    split; lra.
Qed.

(** The route answers the sample request. *)
Lemma api_calculate_sample_Ok :
  exists resp,
    api_calculate (ServerTs.getExactJieqi sampleAlmanac) HeavenlyStem.fromYear
      EarthlyBranch.fromYear 1990 6 15 = Ok resp.
Proof. eexists. vm_compute. reflexivity. Qed.

Lemma api_calculate_response_witness :
  exists resp,
    api_calculate (ServerTs.getExactJieqi sampleAlmanac) HeavenlyStem.fromYear
      EarthlyBranch.fromYear 1990 6 15 = Ok resp
    /\ 20 <= base_score resp <= 70
    /\ map age (kline_data resp) = ages.
Proof.
  destruct api_calculate_sample_Ok as [resp E].
  exists resp. split; [exact E|].
  destruct (api_calculate_response sampleAlmanac 1990 6 15 resp E)
    as (_ & _ & _ & Hb & Ha & _).
  split; [exact Hb | exact Ha].
Defined.

(** X19. The summary of a response shows the steps the engine scored
    with: the host movement of the summary is the host movement of the
    engine, the host and guest qi are the names of the engine's host and
    guest qi with their factors, the movement step lies in 1..5 and the qi
    step in 1..6, and the two qi shown for the year are the pair of the
    branch of the birth profile. *)
Theorem api_calculate_summary (alm : Almanac) (year month day : Z)
        (resp : Response) :
  api_calculate (ServerTs.getExactJieqi alm) HeavenlyStem.fromYear
    EarthlyBranch.fromYear year month day = Ok resp ->
  exists engine s b,
    AHIEngine.new (ServerTs.getExactJieqi alm) HeavenlyStem.fromYear
      EarthlyBranch.fromYear (JSDate.make year (month - 1) day 12 0 0) = Ok engine
    /\ WuYunLiuQi.stem (AHIEngine.natalCalc engine) = Some s
    /\ WuYunLiuQi.branch (AHIEngine.natalCalc engine) = Some b
    /\ ganzhi (wylq_summary resp)
       = HeavenlyStem.char s ++ EarthlyBranch.char b ++ [0x5E74]
    /\ sitian (wylq_summary resp) = QiType.display_name (celestial (effectOf b))
    /\ zaiquan (wylq_summary resp) = QiType.display_name (terrestrial (effectOf b))
    /\ fortune_host (wylq_summary resp) = AHIEngine.birthHostYun engine
    /\ 1 <= fortune_step (wylq_summary resp) <= 5
    /\ JS.index WuYunLiuQi.getHostFortunes (fortune_step (wylq_summary resp) - 1)
       = Some (AHIEngine.birthHostYun engine)
    /\ 1 <= qi_step (wylq_summary resp) <= 6
    /\ JS.index QiType.list (qi_step (wylq_summary resp) - 1)
       = Some (AHIEngine.birthHostQi engine)
    /\ qi_host (wylq_summary resp)
       = QiType.display_name (AHIEngine.birthHostQi engine) ++ [0x20; 0x28]
         ++ QiType.factor (AHIEngine.birthHostQi engine) ++ [0x29]
    /\ qi_guest (wylq_summary resp)
       = QiType.display_name (AHIEngine.birthGuestQi engine) ++ [0x20; 0x28]
         ++ QiType.factor (AHIEngine.birthGuestQi engine) ++ [0x29].
Proof.
  unfold api_calculate.
  destruct ((year =? 0) || (month =? 0) || (day =? 0)); [discriminate|].
  intros H.
  apply bind_Ok_inv in H as (calc & Hcalc & H).
  apply bind_Ok_inv in H as (engine & Hengine & H).
  apply bind_Ok_inv in H as ([[yf_element yf_adequacy] yf_description] & Hyf & H).
  apply bind_Ok_inv in H as (ce0 & Hce0 & H).
  apply bind_Ok_inv in H as (ce & Hce & H).
  apply bind_Ok_inv in H as ([[f_step f_host] f_guest] & Hf & H).
  apply bind_Ok_inv in H as ([[q_step q_host] q_guest] & Hq & H).
  apply bind_Ok_inv in H as (cstem & Hcstem & H).
  apply bind_Ok_inv in H as (cbranch & Hcbranch & H).
  apply bind_Ok_inv in H as (pts & Hpts & H).
  injection H as <-. cbn [wylq_summary ganzhi sitian zaiquan fortune_host fortune_step
                          qi_step qi_host qi_guest].
  apply defined_Ok_inv in Hce, Hcstem, Hcbranch. subst ce0.
  destruct (AHIEngine_new_inv _ _ _ _ _ Hengine)
    as (s & guestYun & Hnew & _ & Hs & _ & _ & _ & Hfe & Hqe).
  assert (calc = AHIEngine.natalCalc engine) by congruence. subst calc.
  assert (s = cstem) by congruence. subst s.
  rewrite (getClimaticEffect_table _ _ Hcbranch) in Hce0. injection Hce0 as <-.
  exists engine, cstem, cbranch.
  split; [exact Hengine|]. split; [exact Hs|]. split; [exact Hcbranch|].
  split; [reflexivity|]. split; [reflexivity|]. split; [reflexivity|].
  (* the movement step *)
  unfold WuYunLiuQi.getCurrentFortune in Hf.
  unfold WuYunLiuQi.getCurrentFortuneEnums in Hfe.
  destruct (WuYunLiuQi.startDates (ServerTs.getExactJieqi alm)
              (AHIEngine.natalCalc engine)) as [sd|] eqn:Esd;
    cbn [bind] in Hf, Hfe; [|discriminate Hf].
  pose proof (findStep_range (WuYunLiuQi.targetDate (AHIEngine.natalCalc engine))
                sd 5 4 ltac:(cbn; lia)) as Hr5.
  change (Z.of_nat 5) with 5 in Hr5.
  destruct (JS.index WuYunLiuQi.getHostFortunes
              (WuYunLiuQi.findStep
                 (WuYunLiuQi.targetDate (AHIEngine.natalCalc engine)) sd 5 4))
    as [h|] eqn:Eh; cbn [defined bind] in Hf, Hfe; [|discriminate Hf].
  destruct (WuYunLiuQi.getGuestFortunes (AHIEngine.natalCalc engine)) as [gf|];
    cbn [bind] in Hf, Hfe; [|discriminate Hf].
  destruct (JS.index gf
              (WuYunLiuQi.findStep
                 (WuYunLiuQi.targetDate (AHIEngine.natalCalc engine)) sd 5 4))
    as [g|]; cbn [defined bind] in Hf, Hfe; [|discriminate Hf].
  injection Hf as <- <- <-. injection Hfe as <- _.
  split; [reflexivity|]. split; [lia|].
  split; [rewrite <- Eh; f_equal; lia|].
  (* the qi step *)
  unfold WuYunLiuQi.getCurrentQi in Hq.
  unfold WuYunLiuQi.getCurrentQiEnums in Hqe.
  destruct (WuYunLiuQi.qiBounds (ServerTs.getExactJieqi alm)
              (AHIEngine.natalCalc engine)) as [bounds|] eqn:Ebounds;
    cbn [bind] in Hq, Hqe; [|discriminate Hq].
  pose proof (findStep_range (WuYunLiuQi.targetDate (AHIEngine.natalCalc engine))
                bounds 6 5 ltac:(cbn; lia)) as Hr6.
  change (Z.of_nat 6) with 6 in Hr6.
  destruct (JS.index QiType.list
              (WuYunLiuQi.findStep
                 (WuYunLiuQi.targetDate (AHIEngine.natalCalc engine)) bounds 6 5))
    as [hq|] eqn:Ehq; cbn [defined bind] in Hq, Hqe; [|discriminate Hq].
  destruct (WuYunLiuQi.getGuestQiSequence (AHIEngine.natalCalc engine)) as [gs|];
    cbn [bind] in Hq, Hqe; [|discriminate Hq].
  destruct (JS.index gs
              (WuYunLiuQi.findStep
                 (WuYunLiuQi.targetDate (AHIEngine.natalCalc engine)) bounds 6 5))
    as [gq|]; cbn [defined bind] in Hq, Hqe; [|discriminate Hq].
  injection Hq as <- <- <-. injection Hqe as <- <-.
  split; [lia|].
  split; [rewrite <- Ehq; f_equal; lia|].
  split; reflexivity.
Qed.

Lemma api_calculate_summary_witness :
  exists resp,
    api_calculate (ServerTs.getExactJieqi sampleAlmanac) HeavenlyStem.fromYear
      EarthlyBranch.fromYear 1990 6 15 = Ok resp
    /\ 1 <= fortune_step (wylq_summary resp) <= 5
    /\ 1 <= qi_step (wylq_summary resp) <= 6.
Proof.
  destruct api_calculate_sample_Ok as [resp E].
  exists resp. split; [exact E|].
  destruct (api_calculate_summary sampleAlmanac 1990 6 15 resp E)
    as (engine & s & b & _ & _ & _ & _ & _ & _ & _ & Hf & _ & Hq & _).
  split; [exact Hf | exact Hq].
Defined.

(** X20. The series is all or nothing: when the yearly score of the age
    a is the first to fail, the loop stops there and the series is that
    error, with no point of the ages before a returned. *)
Theorem kline_first_failure getExactJieqi stemFromYear branchFromYear
        (engine : AHIEngine.t) (year a : Z) (err : error) :
  1 <= a <= 60 ->
  (forall a', 1 <= a' < a ->
     exists v, AHIEngine.calculateYearAhi getExactJieqi stemFromYear branchFromYear
                 engine (year + a' - 1) = Ok v) ->
  AHIEngine.calculateYearAhi getExactJieqi stemFromYear branchFromYear
    engine (year + a - 1) = Err err ->
  klineData getExactJieqi stemFromYear branchFromYear engine year = Err err.
Proof.
  intros Ha Hbefore Herr. unfold klineData.
  assert (Hages : ages = map Z.of_nat (seq 1 (Z.to_nat a - 1))
                         ++ a :: map Z.of_nat (seq (S (Z.to_nat a)) (60 - Z.to_nat a))).
  { unfold ages.
    replace 60%nat with ((Z.to_nat a - 1) + S (60 - Z.to_nat a))%nat at 1 by lia.
    rewrite seq_app, map_app. f_equal.
    replace (1 + (Z.to_nat a - 1))%nat with (Z.to_nat a) by lia.
    cbn [seq map]. f_equal. lia. }
  rewrite Hages.
  apply (klineLoop_Err getExactJieqi stemFromYear branchFromYear engine year
           (impactOf (AHIEngine.calculateYearAhi getExactJieqi stemFromYear
                        branchFromYear engine) year)).
  - intros a' Hin. apply in_map_iff in Hin as (n & <- & Hn). apply in_seq in Hn.
    unfold impactOf.
    destruct (Hbefore (Z.of_nat n) ltac:(lia)) as [v Hv]. rewrite Hv. reflexivity.
  - exact Herr.
Qed.

Lemma kline_first_failure_witness :
  klineData (ServerTs.getExactJieqi sampleAlmanac) HeavenlyStem.fromYear
    EarthlyBranch.fromYear sampleEngine (-56) = Err TypeError.
Proof.
  apply (kline_first_failure (ServerTs.getExactJieqi sampleAlmanac)
           HeavenlyStem.fromYear EarthlyBranch.fromYear sampleEngine (-56) 2 TypeError).
  - lia.
  - intros a' Ha'. assert (a' = 1) by lia. subst a'.
    eexists. vm_compute. reflexivity.
  - vm_compute. reflexivity.
Defined.

(** ** Rounding and the step of the series *)

(** X21. The rounding of the emitted values, for a value that is not
    negative: the result is a whole number of hundredths, it is at most
    half a hundredth away from the value, and rounding it again changes
    nothing. *)
Theorem toFixed2_round_trip (x : Q) :
  (0 <= x)%Q ->
  exists n : Z,
    0 <= n
    /\ (toFixed2 x == inject_Z n / 100)%Q
    /\ (x - 0.005 < toFixed2 x <= x + 0.005)%Q
    /\ (toFixed2 (toFixed2 x) == toFixed2 x)%Q.
Proof.
  intros Hx.
  assert (Hform : (toFixed2 x == inject_Z (Qfloor (x * 100 + 0.5)) / 100)%Q).
  { unfold toFixed2. destruct (Qlt_le_dec x 0) as [Hn | Hn]; [lra | reflexivity]. }
  assert (Hn0 : 0 <= Qfloor (x * 100 + 0.5)).
  { change 0 with (Qfloor 0.5). apply Qfloor_resp_le. lra. }
  exists (Qfloor (x * 100 + 0.5)).
  split; [exact Hn0|]. split; [exact Hform|].
  split; [apply toFixed2_near; exact Hx|].
  rewrite (toFixed2_comp _ _ Hform).
  set (n := Qfloor (x * 100 + 0.5)) in *.
  rewrite Hform.
  assert (Hge : (0 <= inject_Z n / 100)%Q).
  { rewrite Zle_Qle in Hn0. change (inject_Z 0) with 0%Q in Hn0.
    unfold Qdiv. change (/ 100)%Q with (1 # 100)%Q. lra. }
  unfold toFixed2. destruct (Qlt_le_dec (inject_Z n / 100) 0) as [Hlt | _]; [lra|].
  assert (Hfl : Qfloor (inject_Z n / 100 * 100 + 0.5) = n).
  { apply Qfloor_unique.
    rewrite inject_Z_plus. change (inject_Z 1) with 1%Q.
    unfold Qdiv. change (/ 100)%Q with (1 # 100)%Q. split; lra. }
  rewrite Hfl. reflexivity.
Qed.

Lemma toFixed2_round_trip_witness :
  exists n : Z,
    0 <= n
    /\ (toFixed2 79.094 == inject_Z n / 100)%Q
    /\ (79.094 - 0.005 < toFixed2 79.094 <= 79.094 + 0.005)%Q
    /\ (toFixed2 (toFixed2 79.094) == toFixed2 79.094)%Q.
Proof.
  apply (toFixed2_round_trip 79.094%Q). vm_compute. discriminate.
Defined.





(** ** The range of the yearly score *)

Lemma calculateYearAhi_Ok_inv getExactJieqi stemFromYear branchFromYear
      (e : AHIEngine.t) (targetYear : Z) (v : Q) :
  AHIEngine.calculateYearAhi getExactJieqi stemFromYear branchFromYear e targetYear
  = Ok v ->
  exists dt flowYear s b,
    getExactJieqi targetYear DaHan = Ok dt
    /\ WuYunLiuQi.new getExactJieqi stemFromYear branchFromYear dt = Ok flowYear
    /\ WuYunLiuQi.stem flowYear = Some s
    /\ WuYunLiuQi.branch flowYear = Some b
    /\ v = yearScore e s b.
Proof.
  intros H. pose proof H as H0. unfold AHIEngine.calculateYearAhi in H.
  destruct (getExactJieqi targetYear DaHan) as [dt|] eqn:Edt; cbn [bind] in H;
    [|discriminate].
  destruct (WuYunLiuQi.new getExactJieqi stemFromYear branchFromYear dt)
    as [flowYear|] eqn:Ew; cbn [bind] in H; [|discriminate].
  destruct (WuYunLiuQi.stem flowYear) as [s|] eqn:Es; cbn [defined bind] in H;
    [|discriminate].
  destruct (WuYunLiuQi.branch flowYear) as [b|] eqn:Eb.
  - exists dt, flowYear, s, b. repeat split; try assumption.
    rewrite (calculateYearAhi_yearScore _ _ _ e _ _ _ s b Edt Ew Es Eb) in H0.
    congruence.
  - rewrite (getClimaticEffect_undefined flowYear Eb) in H. discriminate.
Qed.

Lemma suiYunPts_range (e : AHIEngine.t) (el : Element) (a : Adequacy) :
  -37 <= AHIEngine.suiYunPts e el a <= 35.
Proof.
  unfold AHIEngine.suiYunPts.
  repeat match goal with
         | |- context [if ?c then _ else _] => destruct c
         end; lia.
Qed.

Lemma sqPts1_range (e : AHIEngine.t) (st zq : QiType.t) :
  -56 <= AHIEngine.sqPts1 e st zq <= 38.
Proof.
  unfold AHIEngine.sqPts1.
  repeat match goal with
         | |- context [if ?c then _ else _] => destruct c
         end; lia.
Qed.

Lemma sqPts2_range (e : AHIEngine.t) (st : QiType.t) (el : Element) :
  -28 <= AHIEngine.sqPts2 e st el <= 22.
Proof.
  unfold AHIEngine.sqPts2.
  repeat match goal with
         | |- context [if ?c then _ else _] => destruct c
         end; lia.
Qed.

Lemma stepPtsSum_range (e : AHIEngine.t) (s : HeavenlyStem.t) :
  0 <= AHIEngine.stepPtsSum e (guestElements s) <= 25.
Proof.
  rewrite stepPtsSum_guestElements.
  unfold AHIEngine.stepPtsSum, AHIEngine.stepPts, WuYunLiuQi.getHostFortunes.
  destruct (AHIEngine.birthHostYun e), (AHIEngine.weakZang e); cbn; lia.
Qed.

(** X23. Every yearly score lies between -34.49 and 27.8, whatever the
    engine and the year: the year movement part lies in -37..35, the sum of
    the step points in 0..25, the first qi part in -56..38 and the second in
    -28..22, and the weights are fixed. *)
Theorem yearly_score_range getExactJieqi stemFromYear branchFromYear
        (e : AHIEngine.t) (targetYear : Z) (v : Q) :
  AHIEngine.calculateYearAhi getExactJieqi stemFromYear branchFromYear e targetYear
  = Ok v ->
  (-34.49 <= v <= 27.8)%Q.
Proof.
  intros H.
  destruct (calculateYearAhi_Ok_inv _ _ _ _ _ _ H)
    as (dt & flowYear & s & b & _ & _ & _ & _ & ->).
  unfold yearScore.
  change (map element (WuYunLiuQi.guestLoop 5 0 (HeavenlyStem.element s)
                                            (HeavenlyStem.adequacy s)))
    with (guestElements s).
  pose proof (suiYunPts_range e (HeavenlyStem.element s) (HeavenlyStem.adequacy s))
    as [A1 A2].
  pose proof (stepPtsSum_range e s) as [S1 S2].
  pose proof (sqPts1_range e (celestial (effectOf b)) (terrestrial (effectOf b)))
    as [B1 B2].
  pose proof (sqPts2_range e (celestial (effectOf b)) (EarthlyBranch.element b))
    as [C1 C2].
  rewrite Zle_Qle in A1, A2, S1, S2, B1, B2, C1, C2.
  revert A1 A2 S1 S2 B1 B2 C1 C2.
  generalize (inject_Z (AHIEngine.suiYunPts e (HeavenlyStem.element s)
                          (HeavenlyStem.adequacy s))).
  generalize (inject_Z (AHIEngine.stepPtsSum e (guestElements s))).
  generalize (inject_Z (AHIEngine.sqPts1 e (celestial (effectOf b))
                          (terrestrial (effectOf b)))).
  generalize (inject_Z (AHIEngine.sqPts2 e (celestial (effectOf b))
                          (EarthlyBranch.element b))).
  intros C B S A A1 A2 S1 S2 B1 B2 C1 C2.
  change (inject_Z (-37)) with (-37)%Q in A1. change (inject_Z 35) with 35%Q in A2.
  change (inject_Z 0) with 0%Q in S1. change (inject_Z 25) with 25%Q in S2.
  change (inject_Z (-56)) with (-56)%Q in B1. change (inject_Z 38) with 38%Q in B2.
  change (inject_Z (-28)) with (-28)%Q in C1. change (inject_Z 22) with 22%Q in C2.
  unfold Qdiv. change (/ 5)%Q with (1 # 5)%Q.
  split; lra.
Qed.

Lemma yearly_score_range_witness :
  exists v,
    AHIEngine.calculateYearAhi (ServerTs.getExactJieqi sampleAlmanac)
      HeavenlyStem.fromYear EarthlyBranch.fromYear sampleEngine 1991 = Ok v
    /\ (-34.49 <= v <= 27.8)%Q.
Proof.
  eexists. split.
  - vm_compute. reflexivity.
  - apply (yearly_score_range (ServerTs.getExactJieqi sampleAlmanac)
             HeavenlyStem.fromYear EarthlyBranch.fromYear sampleEngine 1991).
    vm_compute. reflexivity.
Defined.

(** ** The yearly score of the session variant *)

(** In the session variant the flowing year of a target year outside 0..99
    is the target year, so the score is the one of its stem and branch. *)
Lemma Session_calculateYearAhi_inv (alm : Almanac) (e : AHIEngine.t)
      (targetYear : Z) (v : Q) :
  Almanac_wf alm ->
  ~ (0 <= targetYear <= 99) ->
  Session.calculateYearAhi alm e targetYear = Ok v ->
  exists s b,
    HeavenlyStem.fromYear_nonneg targetYear = Some s
    /\ EarthlyBranch.fromYear_nonneg targetYear = Some b
    /\ v = yearScore e s b.
Proof.
  intros Hwf Hy H.
  destruct (calculateYearAhi_Ok_inv _ _ _ _ _ _ H)
    as (dt & flowYear & s & b & Hdt & Hnew & Hs & Hb & ->).
  pose proof (LocatorFacts.getExactJieqi_year alm targetYear DaHan dt Hwf Hy Hdt)
    as Hyear.
  assert (Hg : Session.getExactJieqi alm (JSDate.getFullYear dt) DaHan = Ok dt)
    by (rewrite Hyear; exact Hdt).
  rewrite (new_Ok (Session.getExactJieqi alm) HeavenlyStem.fromYear_nonneg
             EarthlyBranch.fromYear_nonneg dt dt Hg) in Hnew.
  injection Hnew as <-. cbn [WuYunLiuQi.stem WuYunLiuQi.branch] in Hs, Hb.
  rewrite assignedYear_from, Hyear in Hs, Hb by lia.
  exists s, b. repeat split; assumption.
Qed.

Lemma fromYear_nonneg_congr (year year' : Z) :
  (year' - year) mod 60 = 0 ->
  HeavenlyStem.fromYear_nonneg year' = HeavenlyStem.fromYear_nonneg year
  /\ EarthlyBranch.fromYear_nonneg year' = EarthlyBranch.fromYear_nonneg year.
Proof.
  intros H.
  unfold HeavenlyStem.fromYear_nonneg, EarthlyBranch.fromYear_nonneg.
  rewrite !rem_nonneg by lia.
  split; f_equal; Z.to_euclidean_division_equations; lia.
Qed.

(** X24. In the session variant, with an almanac of civil dates, the
    yearly score depends on the target year only through its stem and its
    branch: two target years a multiple of sixty years apart, neither of
    them in 0..99, have the same score for the same engine. *)
Theorem session_score_has_period_sixty (alm : Almanac) (e : AHIEngine.t)
        (year year' : Z) (v v' : Q) :
  Almanac_wf alm ->
  ~ (0 <= year <= 99) ->
  ~ (0 <= year' <= 99) ->
  (year' - year) mod 60 = 0 ->
  Session.calculateYearAhi alm e year = Ok v ->
  Session.calculateYearAhi alm e year' = Ok v' ->
  v = v'.
Proof.
  intros Hwf Hy Hy' Hmod H H'.
  destruct (Session_calculateYearAhi_inv alm e year v Hwf Hy H)
    as (s & b & Hs & Hb & ->).
  destruct (Session_calculateYearAhi_inv alm e year' v' Hwf Hy' H')
    as (s' & b' & Hs' & Hb' & ->).
  destruct (fromYear_nonneg_congr year year' Hmod) as [Es Eb].
  rewrite Es in Hs'. rewrite Eb in Hb'.
  assert (s' = s) by congruence. assert (b' = b) by congruence. subst. reflexivity.
Qed.

Lemma Session_calculateYearAhi_sample :
  exists v v',
    Session.calculateYearAhi sampleAlmanac sampleEngine 1991 = Ok v
    /\ Session.calculateYearAhi sampleAlmanac sampleEngine 2051 = Ok v'.
Proof. do 2 eexists. split; vm_compute; reflexivity. Qed.

Lemma session_score_has_period_sixty_witness :
  exists v v',
    Session.calculateYearAhi sampleAlmanac sampleEngine 1991 = Ok v
    /\ Session.calculateYearAhi sampleAlmanac sampleEngine 2051 = Ok v'
    /\ v = v'.
Proof.
  destruct Session_calculateYearAhi_sample as (v & v' & H & H').
  exists v, v'. split; [exact H|]. split; [exact H'|].
  apply (session_score_has_period_sixty sampleAlmanac sampleEngine 1991 2051 v v').
  - exact sampleAlmanac_wf.
  - lia.
  - lia.
  - reflexivity.
  - exact H.
  - exact H'.
Defined.

(** X25. In the session variant, with an almanac of civil dates, the
    score of a target year outside 0..99 is computed from the stem and the
    branch of that very year, those with the indices (year - 4) mod 10 and
    (year - 4) mod 12, and it is the total of the specification for
    them. *)
Theorem session_score_is_collision (alm : Almanac) (e : AHIEngine.t)
        (targetYear : Z) (v : Q) :
  Almanac_wf alm ->
  ~ (0 <= targetYear <= 99) ->
  Session.calculateYearAhi alm e targetYear = Ok v ->
  exists s b,
    HeavenlyStem.fromYear_nonneg targetYear = Some s
    /\ EarthlyBranch.fromYear_nonneg targetYear = Some b
    /\ HeavenlyStem.index s = (targetYear - 4) mod 10
    /\ EarthlyBranch.index b = (targetYear - 4) mod 12
    /\ (v == collision e s b)%Q.
Proof.
  intros Hwf Hy H.
  destruct (Session_calculateYearAhi_inv alm e targetYear v Hwf Hy H)
    as (s & b & Hs & Hb & ->).
  exists s, b. split; [exact Hs|]. split; [exact Hb|].
  destruct (stem_fromYear_nonneg_total targetYear) as (s0 & Hs0 & Hsi).
  destruct (branch_fromYear_nonneg_total targetYear) as (b0 & Hb0 & Hbi).
  rewrite Hs in Hsi. rewrite Hb in Hbi. symmetry in Hsi, Hbi.
  split; [exact (stem_index_of _ _ Hsi)|].
  split; [exact (branch_index_of _ _ Hbi)|].
  apply yearScore_collision.
Qed.

Lemma session_score_is_collision_witness :
  exists v s b,
    Session.calculateYearAhi sampleAlmanac sampleEngine 1991 = Ok v
    /\ HeavenlyStem.fromYear_nonneg 1991 = Some s
    /\ EarthlyBranch.fromYear_nonneg 1991 = Some b
    /\ (v == collision sampleEngine s b)%Q.
Proof.
  destruct Session_calculateYearAhi_sample as (v & _ & H & _).
  destruct (session_score_is_collision sampleAlmanac sampleEngine 1991 v
              sampleAlmanac_wf ltac:(lia) H) as (s & b & Hs & Hb & _ & _ & Hv).
  exists v, s, b. repeat split; assumption.
Defined.

(** ** The two variants on a regular almanac *)

Lemma mapM_ext {A B : Type} (f g : A -> result B) (l : list A) :
  (forall x, In x l -> f x = g x) -> mapM f l = mapM g l.
Proof.
  induction l as [|x rest IH]; intros H; [reflexivity|].
  cbn [mapM]. rewrite (H x (or_introl eq_refl)).
  rewrite IH by (intros y Hy; apply H; right; exact Hy). reflexivity.
Qed.

Section Variants.

Variable loc1 loc2 : Z -> SolarTerm -> result Z.

(** The two locators agree on the nine terms the engine asks for. *)
Hypothesis loc_agree :
  forall y t,
    In t [DaHan; ChunFen; XiaoMan; MangZhong; DaShu; ChuShu; QiuFen; XiaoXue; LiDong] ->
    loc1 y t = loc2 y t.

(** From year 100 on, a Great Cold that is found lies in its year. *)
Hypothesis loc_year :
  forall y d, 100 <= y -> loc2 y DaHan = Ok d -> JSDate.getFullYear d = y.

Lemma new_variants (d : Z) :
  5 <= JSDate.getFullYear d ->
  WuYunLiuQi.new loc1 HeavenlyStem.fromYear EarthlyBranch.fromYear d
  = WuYunLiuQi.new loc2 HeavenlyStem.fromYear_nonneg EarthlyBranch.fromYear_nonneg d.
Proof.
  intros Hy. unfold WuYunLiuQi.new.
  rewrite (loc_agree (JSDate.getFullYear d) DaHan) by (cbn; tauto).
  destruct (loc2 (JSDate.getFullYear d) DaHan) as [g|]; cbn [bind]; [|reflexivity].
  destruct (fromYear_agree (if d <? g then JSDate.getFullYear d - 1
                            else JSDate.getFullYear d)) as [Es Eb].
  - destruct (d <? g); lia.
  - rewrite Es, Eb. reflexivity.
Qed.

Lemma startDates_variants (w : WuYunLiuQi.t) :
  WuYunLiuQi.startDates loc1 w = WuYunLiuQi.startDates loc2 w.
Proof.
  unfold WuYunLiuQi.startDates.
  rewrite (loc_agree (WuYunLiuQi.wuyunYear w + 1) DaHan) by (cbn; tauto).
  erewrite mapM_ext; [reflexivity|].
  intros [term offset] Hin. rewrite loc_agree; [reflexivity|].
  cbn in Hin.
  repeat (destruct Hin as [Hin | Hin]; [injection Hin as <- _; cbn; tauto|]).
  contradiction.
Qed.

Lemma qiBounds_variants (w : WuYunLiuQi.t) :
  WuYunLiuQi.qiBounds loc1 w = WuYunLiuQi.qiBounds loc2 w.
Proof.
  unfold WuYunLiuQi.qiBounds. apply mapM_ext.
  intros [t i] Hin. apply loc_agree.
  cbn in Hin.
  repeat (destruct Hin as [Hin | Hin]; [injection Hin as <- _; cbn; tauto|]).
  contradiction.
Qed.

Lemma AHIEngine_new_variants (d : Z) :
  5 <= JSDate.getFullYear d ->
  AHIEngine.new loc1 HeavenlyStem.fromYear EarthlyBranch.fromYear d
  = AHIEngine.new loc2 HeavenlyStem.fromYear_nonneg EarthlyBranch.fromYear_nonneg d.
Proof.
  intros Hy. unfold AHIEngine.new. rewrite (new_variants d Hy).
  destruct (WuYunLiuQi.new loc2 _ _ d) as [w|]; cbn [bind]; [|reflexivity].
  unfold WuYunLiuQi.getCurrentFortuneEnums, WuYunLiuQi.getCurrentQiEnums.
  rewrite startDates_variants, qiBounds_variants. reflexivity.
Qed.

Lemma calculateYearAhi_variants (e : AHIEngine.t) (targetYear : Z) :
  100 <= targetYear ->
  AHIEngine.calculateYearAhi loc1 HeavenlyStem.fromYear EarthlyBranch.fromYear
    e targetYear
  = AHIEngine.calculateYearAhi loc2 HeavenlyStem.fromYear_nonneg
      EarthlyBranch.fromYear_nonneg e targetYear.
Proof.
  intros Hy. unfold AHIEngine.calculateYearAhi.
  rewrite (loc_agree targetYear DaHan) by (cbn; tauto).
  destruct (loc2 targetYear DaHan) as [dt|] eqn:Edt; cbn [bind]; [|reflexivity].
  rewrite new_variants by (rewrite (loc_year targetYear dt Hy Edt); lia).
  reflexivity.
Qed.

Lemma klineLoop_variants (e : AHIEngine.t) (year : Z) (todo : list Z)
      (h : Q) (acc : list KlinePoint) :
  (forall a, In a todo -> 100 <= year + a - 1) ->
  klineLoop loc1 HeavenlyStem.fromYear EarthlyBranch.fromYear e year todo h acc
  = klineLoop loc2 HeavenlyStem.fromYear_nonneg EarthlyBranch.fromYear_nonneg
      e year todo h acc.
Proof.
  revert h acc. induction todo as [|a rest IH]; intros h acc Hy; [reflexivity|].
  cbn [klineLoop]. unfold klineStep.
  rewrite calculateYearAhi_variants by (apply Hy; left; reflexivity).
  destruct (AHIEngine.calculateYearAhi loc2 _ _ e (year + a - 1)); cbn [bind];
    [|reflexivity].
  apply IH. intros a' Ha'. apply Hy. right. exact Ha'.
Qed.

End Variants.

(** X26. On an almanac of civil dates where the 15th of the month of each
    term reports the entry of the year, [server.ts] and the session variant
    compute the same: the same engine for a birth date from year 5 on, the
    same yearly score for a target year from year 100 on, and the same
    series for a birth year from year 100 on.  The year check and the
    non-negative remainder of the session variant change nothing there. *)
Theorem variants_agree_on_regular_almanac (alm : Almanac) :
  Almanac_wf alm ->
  (forall y t,
     In t [DaHan; ChunFen; XiaoMan; MangZhong; DaShu; ChuShu; QiuFen; XiaoXue; LiDong] ->
     exists o, alm y (AstronomyEngine.Simple.termMonths t) 15 t = Found o
               /\ getYear o = y) ->
  (forall birthDt, 5 <= JSDate.getFullYear birthDt ->
     ServerTs.AHIEngine_new alm birthDt = Session.AHIEngine_new alm birthDt)
  /\ (forall e targetYear, 100 <= targetYear ->
        ServerTs.calculateYearAhi alm e targetYear
        = Session.calculateYearAhi alm e targetYear)
  /\ (forall e year, 100 <= year ->
        ServerTs.klineData alm e year = Session.klineData alm e year).
Proof.
  intros Hwf Hreg.
  assert (Hagree : forall y t,
            In t [DaHan; ChunFen; XiaoMan; MangZhong; DaShu; ChuShu; QiuFen;
                  XiaoXue; LiDong] ->
            ServerTs.getExactJieqi alm y t = Session.getExactJieqi alm y t).
  { intros y t Hin. destruct (Hreg y t Hin) as (o & Hf & Hy).
    destruct (locators_first_probe alm y t o Hin Hf Hy) as [H1 H2].
    unfold ServerTs.getExactJieqi, Session.getExactJieqi. congruence. }
  assert (Hyear : forall y d, 100 <= y -> Session.getExactJieqi alm y DaHan = Ok d ->
                              JSDate.getFullYear d = y).
  { intros y d Hy Hd.
    apply (LocatorFacts.getExactJieqi_year alm y DaHan d Hwf); [lia | exact Hd]. }
  split; [|split].
  - intros birthDt Hb.
    exact (AHIEngine_new_variants _ _ Hagree birthDt Hb).
  - intros e targetYear Hy.
    exact (calculateYearAhi_variants _ _ Hagree Hyear e targetYear Hy).
  - intros e year Hy.
    apply (klineLoop_variants _ _ Hagree Hyear).
    intros a Ha. apply ages_In in Ha. lia.
Qed.

Lemma sampleAlmanac_regular (y : Z) (t : SolarTerm) :
  exists o, sampleAlmanac y (AstronomyEngine.Simple.termMonths t) 15 t = Found o
            /\ getYear o = y.
Proof. destruct t; eexists; split; reflexivity. Qed.

Lemma variants_agree_on_regular_almanac_witness :
  ServerTs.AHIEngine_new sampleAlmanac (JSDate.make 1990 5 15 12 0 0)
  = Session.AHIEngine_new sampleAlmanac (JSDate.make 1990 5 15 12 0 0)
  /\ ServerTs.klineData sampleAlmanac sampleEngine 1990
     = Session.klineData sampleAlmanac sampleEngine 1990.
Proof.
  destruct (variants_agree_on_regular_almanac sampleAlmanac sampleAlmanac_wf
              (fun y t _ => sampleAlmanac_regular y t)) as (Hnew & _ & Hk).
  split.
  - apply Hnew. vm_compute. discriminate.
  - apply Hk. lia.
Defined.

(** ** The birth date of a request *)

(** X27. For a request with a year outside 0..99, a month from 1 to 12
    and a day from 1 to 31, also a day the month does not have, the birth
    date the route builds lies in the civil year of the request, and the
    movement-year of the natal profile is that year, or the year before
    when the birth date is before the Great Cold of that year. *)
Theorem api_calculate_natal_year (alm : Almanac) (year month day : Z)
        (resp : Response) :
  ~ (0 <= year <= 99) ->
  1 <= month <= 12 ->
  1 <= day <= 31 ->
  api_calculate (ServerTs.getExactJieqi alm) HeavenlyStem.fromYear
    EarthlyBranch.fromYear year month day = Ok resp ->
  exists engine g,
    AHIEngine.new (ServerTs.getExactJieqi alm) HeavenlyStem.fromYear
      EarthlyBranch.fromYear (JSDate.make year (month - 1) day 12 0 0) = Ok engine
    /\ JSDate.getFullYear (AHIEngine.birthDt engine) = year
    /\ ServerTs.getExactJieqi alm year DaHan = Ok g
    /\ WuYunLiuQi.wuyunYear (AHIEngine.natalCalc engine)
       = (if AHIEngine.birthDt engine <? g then year - 1 else year)
    /\ WuYunLiuQi.stem (AHIEngine.natalCalc engine)
       = HeavenlyStem.fromYear (WuYunLiuQi.wuyunYear (AHIEngine.natalCalc engine))
    /\ WuYunLiuQi.branch (AHIEngine.natalCalc engine)
       = EarthlyBranch.fromYear (WuYunLiuQi.wuyunYear (AHIEngine.natalCalc engine)).
Proof.
  intros Hy Hm Hd H.
  destruct (api_calculate_kline _ _ _ _ _ _ _ H) as (engine & Hnew & _ & _).
  destruct (AHIEngine_new_inv _ _ _ _ _ Hnew)
    as (s & guestYun & Hw & Hdt & _).
  assert (Hyear : JSDate.getFullYear (JSDate.make year (month - 1) day 12 0 0) = year).
  { apply JSDateFacts.getFullYear_make; [exact Hy|].
    unfold JSDate.civil_fields. lia. }
  unfold WuYunLiuQi.new in Hw. rewrite Hyear in Hw.
  destruct (ServerTs.getExactJieqi alm year DaHan) as [g|] eqn:Eg; cbn [bind] in Hw;
    [|discriminate].
  injection Hw as Hw.
  exists engine, g. rewrite Hdt, <- Hw. cbn [WuYunLiuQi.wuyunYear WuYunLiuQi.stem
                                             WuYunLiuQi.branch].
  repeat split; first [assumption | reflexivity].
Qed.

Lemma api_calculate_natal_year_witness :
  exists engine,
    AHIEngine.new (ServerTs.getExactJieqi sampleAlmanac) HeavenlyStem.fromYear
      EarthlyBranch.fromYear (JSDate.make 1990 (6 - 1) 15 12 0 0) = Ok engine
    /\ JSDate.getFullYear (AHIEngine.birthDt engine) = 1990.
Proof.
  destruct api_calculate_sample_Ok as [resp E].
  destruct (api_calculate_natal_year sampleAlmanac 1990 6 15 resp
              ltac:(lia) ltac:(lia) ltac:(lia) E)
    as (engine & g & Hnew & Hy & _).
  exists engine. split; [exact Hnew | exact Hy].
Defined.

(** ** The form of the front end *)

(** The day 0 of the month after is the last day of the month. *)
Lemma form_days_length (year month : Z) :
  ~ (0 <= year <= 99) ->
  1 <= month <= 12 ->
  formDays year month = monthLength year month
  /\ 28 <= formDays year month <= 31.
Proof.
  intros Hy Hm.
  assert (Hmain : formDays year month = monthLength year month).
  { unfold formDays, JSDateFields.getDate, JSDate.make.
    replace ((0 <=? year) && (year <=? 99)) with false
      by (symmetry; apply andb_false_iff;
          destruct (Z.lt_ge_cases year 0);
          [left; apply Z.leb_gt; lia | right; apply Z.leb_gt; lia]).
    set (t := JSDate.MakeDate (JSDate.MakeDay year month 0) (JSDate.MakeTime 0 0 0 0)).
    set (k := if month =? 12
              then JSDate.DaysInYear year - 1
              else JSDate.daysBeforeMonth (JSDate.isLeap year) month - 1).
    assert (Hday : JSDate.Day t = JSDate.DayFromYear year + k).
    { subst t k. unfold JSDate.Day, JSDate.MakeDate, JSDate.MakeTime, JSDate.MakeDay.
      rewrite Z.add_0_r. cbn [Z.mul Z.add].
      rewrite Z.add_0_r, Z.div_mul by (unfold JSDate.msPerDay; lia).
      destruct (month =? 12) eqn:E12.
      - apply Z.eqb_eq in E12. subst month.
        change (12 / 12) with 1. change (12 mod 12) with 0.
        rewrite JSDateFacts.DayFromYear_succ. cbn [JSDate.daysBeforeMonth]. lia.
      - apply Z.eqb_neq in E12.
        replace (month / 12) with 0 by (Z.to_euclidean_division_equations; lia).
        replace (month mod 12) with month by (Z.to_euclidean_division_equations; lia).
        rewrite Z.add_0_r. lia. }
    assert (Hk : 0 <= k < JSDate.DaysInYear year).
    { subst k. unfold JSDate.DaysInYear.
      assert (Hc : month = 1 \/ month = 2 \/ month = 3 \/ month = 4 \/ month = 5
                   \/ month = 6 \/ month = 7 \/ month = 8 \/ month = 9 \/ month = 10
                   \/ month = 11 \/ month = 12) by lia.
      repeat (destruct Hc as [-> | Hc]); try subst month;
        destruct (JSDate.isLeap year); cbn; lia. }
    assert (Hyear : JSDate.YearFromTime t = year).
    { unfold JSDate.YearFromTime. apply JSDateFacts.YearFromDay_unique.
      rewrite Hday, JSDateFacts.DayFromYear_succ. lia. }
    unfold JSDateFields.DateFromTime, JSDateFields.MonthFromTime,
      JSDateFields.DayWithinYear, JSDateFields.InLeapYear.
    rewrite Hyear, Hday.
    replace (JSDate.DayFromYear year + k - JSDate.DayFromYear year) with k by lia.
    subst k. unfold monthLength, JSDate.DaysInYear.
    assert (Hc : month = 1 \/ month = 2 \/ month = 3 \/ month = 4 \/ month = 5
                 \/ month = 6 \/ month = 7 \/ month = 8 \/ month = 9 \/ month = 10
                 \/ month = 11 \/ month = 12) by lia.
    repeat (destruct Hc as [-> | Hc]); try subst month;
      destruct (JSDate.isLeap year); reflexivity. }
  split; [exact Hmain|]. rewrite Hmain. unfold monthLength.
  assert (Hc : month = 1 \/ month = 2 \/ month = 3 \/ month = 4 \/ month = 5
               \/ month = 6 \/ month = 7 \/ month = 8 \/ month = 9 \/ month = 10
               \/ month = 11 \/ month = 12) by lia.
  repeat (destruct Hc as [-> | Hc]); try subst month;
    destruct (JSDate.isLeap year); lia.
Qed.

(** X28. The days the form offers for a month are the days of that month
    in the calendar: [new Date(year, month, 0).getDate()], with the month
    counted from 1, is 31, 30, or for February 28 or 29 by the leap rule,
    for every year outside 0..99. *)
Theorem form_days_are_month_length (year month : Z) :
  ~ (0 <= year <= 99) ->
  1 <= month <= 12 ->
  formDays year month = monthLength year month
  /\ 28 <= formDays year month <= 31.
Proof. exact (form_days_length year month). Qed.

Lemma form_days_are_month_length_witness :
  formDays 2024 2 = monthLength 2024 2 /\ 28 <= formDays 2024 2 <= 31.
Proof.
  apply (form_days_are_month_length 2024 2); lia.
Defined.

Lemma formYears_In (year : Z) : In year formYears -> 1900 <= year <= 2026.
Proof.
  unfold formYears. intros Hy. apply in_map_iff in Hy as (i & <- & Hi).
  apply in_seq in Hi. change (2026 - 1900 + 1)%nat with 127%nat in Hi. lia.
Qed.

Lemma formMonths_In (month : Z) : In month formMonths -> 1 <= month <= 12.
Proof.
  unfold formMonths. intros Hm. apply in_map_iff in Hm as (i & <- & Hi).
  apply in_seq in Hi. lia.
Qed.

Lemma formDayOptions_In (n day : Z) : In day (formDayOptions n) -> 1 <= day <= n.
Proof.
  unfold formDayOptions. intros Hd. apply in_map_iff in Hd as (i & <- & Hi).
  apply in_seq in Hi. lia.
Qed.

(** X29. Every date the form lets the user choose is a date of the
    calendar: the year is one of 1900..2026, the month one of 1..12, the
    day at most the length of that month, so the form leaves the day as it
    is; none of the three is 0, which the route would refuse, and the birth
    date the route builds from them lies in the chosen year. *)
Theorem form_offers_civil_dates (year month day : Z) :
  In year formYears ->
  In month formMonths ->
  In day (formDayOptions (formDays year month)) ->
  1900 <= year <= 2026
  /\ 1 <= month <= 12
  /\ 1 <= day <= monthLength year month
  /\ formDay year month day = day
  /\ (year =? 0) || (month =? 0) || (day =? 0) = false
  /\ JSDate.getFullYear (JSDate.make year (month - 1) day 12 0 0) = year.
Proof.
  intros Hy Hm Hd.
  apply formYears_In in Hy. apply formMonths_In in Hm. apply formDayOptions_In in Hd.
  destruct (form_days_length year month ltac:(lia) Hm) as [Hdays Hrange].
  assert (Hf : formDay year month day = day).
  { unfold formDay. destruct (formDays year month <? day) eqn:E; [|reflexivity].
    apply Z.ltb_lt in E. lia. }
  rewrite Hdays in Hd, Hrange.
  split; [exact Hy|]. split; [exact Hm|]. split; [exact Hd|]. split; [exact Hf|].
  split.
  - destruct (Z.eqb_spec year 0); [lia|]. destruct (Z.eqb_spec month 0); [lia|].
    destruct (Z.eqb_spec day 0); [lia|]. reflexivity.
  - apply JSDateFacts.getFullYear_make; [lia|].
    unfold JSDate.civil_fields. lia.
Qed.

Lemma form_offers_civil_dates_witness :
  1900 <= 2024 <= 2026
  /\ 1 <= 2 <= 12
  /\ 1 <= 29 <= monthLength 2024 2
  /\ formDay 2024 2 29 = 29
  /\ (2024 =? 0) || (2 =? 0) || (29 =? 0) = false
  /\ JSDate.getFullYear (JSDate.make 2024 (2 - 1) 29 12 0 0) = 2024.
Proof.
  apply (form_offers_civil_dates 2024 2 29).
  - apply in_map_iff. exists 2%nat. split; [reflexivity | apply in_seq; cbn; lia].
  - apply in_map_iff. exists 1%nat. split; [reflexivity | apply in_seq; lia].
  - destruct (form_days_length 2024 2 ltac:(lia) ltac:(lia)) as [E _].
    rewrite E. apply in_map_iff. exists 28%nat.
    split; [reflexivity | apply in_seq; cbn; lia].
Defined.

(** ** The failures of the route of [server.ts] *)

Lemma Simple_getExactJieqi_Err (alm : Almanac) (year : Z) (termName : SolarTerm)
      (e : error) :
  AstronomyEngine.Simple.getExactJieqi alm year termName = Err e ->
  e = LookupError year termName \/ e = LibraryError.
Proof.
  unfold AstronomyEngine.Simple.getExactJieqi, AstronomyEngine.Simple.testDays,
    AstronomyEngine.Simple.probeDays.
  repeat match goal with
         | |- context [match alm ?y ?m ?d ?t with _ => _ end] =>
             destruct (alm y m d t)
         end; cbn [bind]; intros H; first [discriminate H | injection H as <-; tauto].
Qed.

Create HintDb engine_errors.

Section RouteFailures.

Variable getExactJieqi : Z -> SolarTerm -> result Z.
Variable stemFromYear : Z -> option HeavenlyStem.t.
Variable branchFromYear : Z -> option EarthlyBranch.t.

(** An error of the engine: a property of undefined, or an error of the
    locator. *)
Let engineError (e : error) : Prop :=
  e = TypeError \/ exists y t, getExactJieqi y t = Err e.

Lemma defined_error {A : Type} (o : option A) (e : error) :
  defined o = Err e -> engineError e.
Proof. destruct o; cbn; intros H; [discriminate|]. injection H as <-. now left. Qed.

Lemma locator_error (y : Z) (t : SolarTerm) (e : error) :
  getExactJieqi y t = Err e -> engineError e.
Proof. intros H. right. eauto. Qed.

Lemma new_error (d : Z) (e : error) :
  WuYunLiuQi.new getExactJieqi stemFromYear branchFromYear d = Err e -> engineError e.
Proof. intros H. right. exact (new_failure _ _ _ d e H). Qed.

Lemma startDates_error (w : WuYunLiuQi.t) (e : error) :
  WuYunLiuQi.startDates getExactJieqi w = Err e -> engineError e.
Proof. intros H. right. exact (startDates_failure _ w e H). Qed.

Lemma qiBounds_error (w : WuYunLiuQi.t) (e : error) :
  WuYunLiuQi.qiBounds getExactJieqi w = Err e -> engineError e.
Proof. intros H. right. exact (qiBounds_failure _ w e H). Qed.

Lemma getGuestFortunes_error (w : WuYunLiuQi.t) (e : error) :
  WuYunLiuQi.getGuestFortunes w = Err e -> engineError e.
Proof.
  unfold WuYunLiuQi.getGuestFortunes.
  destruct (WuYunLiuQi.stem w); cbn; intros H; [discriminate|].
  injection H as <-. now left.
Qed.

Lemma getYearFortune_error (w : WuYunLiuQi.t) (e : error) :
  WuYunLiuQi.getYearFortune w = Err e -> engineError e.
Proof.
  unfold WuYunLiuQi.getYearFortune.
  destruct (WuYunLiuQi.stem w); cbn; intros H; [discriminate|].
  injection H as <-. now left.
Qed.

Lemma getClimaticEffect_error (w : WuYunLiuQi.t) (e : error) :
  WuYunLiuQi.getClimaticEffect w = Err e -> engineError e.
Proof.
  unfold WuYunLiuQi.getClimaticEffect.
  destruct (WuYunLiuQi.branch w); cbn; intros H; [discriminate|].
  injection H as <-. now left.
Qed.

Lemma getGuestQiSequence_error (w : WuYunLiuQi.t) (e : error) :
  WuYunLiuQi.getGuestQiSequence w = Err e -> engineError e.
Proof.
  destruct (WuYunLiuQi.branch w) as [b|] eqn:Eb.
  - rewrite (getGuestQiSequence_slots w b Eb). discriminate.
  - unfold WuYunLiuQi.getGuestQiSequence.
    rewrite (getClimaticEffect_undefined w Eb). cbn [bind].
    intros H. injection H as <-. now left.
Qed.

#[local] Hint Resolve defined_error locator_error new_error startDates_error
  qiBounds_error getGuestFortunes_error getYearFortune_error
  getClimaticEffect_error getGuestQiSequence_error : engine_errors.

(** Split a failing sequence at its first failing call. *)
Ltac first_failure H :=
  repeat match type of H with
    | bind ?c _ = Err _ =>
        let E := fresh "E" in
        destruct c eqn:E; cbn [bind] in H;
        [| injection H as <-; solve [eauto with engine_errors]]
    | (match ?p with (_, _) => _ end) = Err _ => destruct p
    | (let '(_, _) := ?p in _) = Err _ => destruct p
    | (match (if ?b then _ else _) with (_, _) => _ end) = Err _ => destruct b
    | (let '(_, _) := (if ?b then _ else _) in _) = Err _ => destruct b
    | Ok _ = Err _ => discriminate H
    end.

Lemma getCurrentFortuneEnums_error (w : WuYunLiuQi.t) (e : error) :
  WuYunLiuQi.getCurrentFortuneEnums getExactJieqi w = Err e -> engineError e.
Proof. unfold WuYunLiuQi.getCurrentFortuneEnums. intros H. first_failure H. Qed.

Lemma getCurrentQiEnums_error (w : WuYunLiuQi.t) (e : error) :
  WuYunLiuQi.getCurrentQiEnums getExactJieqi w = Err e -> engineError e.
Proof. unfold WuYunLiuQi.getCurrentQiEnums. intros H. first_failure H. Qed.

Lemma getCurrentFortune_error (w : WuYunLiuQi.t) (e : error) :
  WuYunLiuQi.getCurrentFortune getExactJieqi w = Err e -> engineError e.
Proof. unfold WuYunLiuQi.getCurrentFortune. intros H. first_failure H. Qed.

Lemma getCurrentQi_error (w : WuYunLiuQi.t) (e : error) :
  WuYunLiuQi.getCurrentQi getExactJieqi w = Err e -> engineError e.
Proof. unfold WuYunLiuQi.getCurrentQi. intros H. first_failure H. Qed.

#[local] Hint Resolve getCurrentFortuneEnums_error getCurrentQiEnums_error
  getCurrentFortune_error getCurrentQi_error : engine_errors.

Lemma AHIEngine_new_error (d : Z) (e : error) :
  AHIEngine.new getExactJieqi stemFromYear branchFromYear d = Err e -> engineError e.
Proof. unfold AHIEngine.new. intros H. first_failure H. Qed.

Lemma calculateYearAhi_error (engine : AHIEngine.t) (targetYear : Z) (e : error) :
  AHIEngine.calculateYearAhi getExactJieqi stemFromYear branchFromYear
    engine targetYear = Err e ->
  engineError e.
Proof. unfold AHIEngine.calculateYearAhi. intros H. first_failure H. Qed.

Lemma klineLoop_error (engine : AHIEngine.t) (year : Z) (todo : list Z)
      (h : Q) (acc : list KlinePoint) (e : error) :
  klineLoop getExactJieqi stemFromYear branchFromYear engine year todo h acc = Err e ->
  engineError e.
Proof.
  revert h acc. induction todo as [|a rest IH]; intros h acc; cbn [klineLoop];
    [discriminate|].
  unfold klineStep.
  destruct (AHIEngine.calculateYearAhi getExactJieqi stemFromYear branchFromYear
              engine (year + a - 1)) as [v|e'] eqn:Ev; cbn [bind].
  - apply IH.
  - intros H. injection H as <-. exact (calculateYearAhi_error _ _ _ Ev).
Qed.

#[local] Hint Resolve AHIEngine_new_error klineLoop_error : engine_errors.

Lemma api_calculate_error (year month day : Z) (e : error) :
  api_calculate getExactJieqi stemFromYear branchFromYear year month day = Err e ->
  (e = BadRequest /\ (year = 0 \/ month = 0 \/ day = 0))
  \/ (year <> 0 /\ month <> 0 /\ day <> 0 /\ engineError e).
Proof.
  unfold api_calculate.
  destruct (Z.eqb_spec year 0) as [Hy | Hy];
    [intros H; injection H as <-; left; tauto|].
  destruct (Z.eqb_spec month 0) as [Hm | Hm];
    [intros H; injection H as <-; left; tauto|].
  destruct (Z.eqb_spec day 0) as [Hd | Hd];
    [intros H; injection H as <-; left; tauto|].
  cbn [orb]. intros H. right.
  split; [exact Hy|]. split; [exact Hm|]. split; [exact Hd|].
  unfold klineData in H. first_failure H.
Qed.

End RouteFailures.

(** X30. A failure of the route [/api/calculate] of [server.ts] is the
    refusal of the request exactly when the year, the month or the day is
    0 or missing.  Every other failure comes from inside the engine: an
    error of the locator, which names the year and the term it did not
    find or is the exception of the library, or a property read of an
    undefined stem or branch; the engine never refuses a request. *)
Theorem api_calculate_failure (alm : Almanac) (year month day : Z) (e : error) :
  api_calculate (ServerTs.getExactJieqi alm) HeavenlyStem.fromYear
    EarthlyBranch.fromYear year month day = Err e ->
  (e = BadRequest <-> year = 0 \/ month = 0 \/ day = 0)
  /\ (e = BadRequest \/ e = TypeError \/ e = LibraryError
      \/ exists y t, e = LookupError y t
                     /\ ServerTs.getExactJieqi alm y t = Err e).
Proof.
  intros H.
  destruct (api_calculate_error _ _ _ _ _ _ _ H)
    as [[-> Hz] | (Hy & Hm & Hd & [-> | (y & t & Hloc)])].
  - split; [tauto | left; reflexivity].
  - split; [split; [discriminate | lia] | right; left; reflexivity].
  - destruct (Simple_getExactJieqi_Err alm y t e Hloc) as [-> | ->].
    + split; [split; [discriminate | lia]|].
      right; right; right. exists y, t. split; [reflexivity | exact Hloc].
    + split; [split; [discriminate | lia]|]. right; right; left. reflexivity.
Qed.

Lemma api_calculate_failure_witness :
  (BadRequest = BadRequest <-> 1990 = 0 \/ 0 = 0 \/ 15 = 0)
  /\ (BadRequest = BadRequest \/ BadRequest = TypeError \/ BadRequest = LibraryError
      \/ exists y t, BadRequest = LookupError y t
                     /\ ServerTs.getExactJieqi sampleAlmanac y t = Err BadRequest).
Proof.
  apply (api_calculate_failure sampleAlmanac 1990 0 15 BadRequest). reflexivity.
Defined.

(* ================================================================== *)
(** * The series in double precision                                   *)
(* ================================================================== *)

Module DoubleFacts.
Import Floats.
Import Double.

(** ** The operations of binary64 *)

Lemma shr_1_nonneg (mrs : shr_record) :
  (0 <= shr_m mrs)%Z -> (0 <= shr_m (shr_1 mrs))%Z.
Proof.
  destruct mrs as [m r s]. cbn [shr_m].
  destruct m as [|[p|p|]|p]; cbn; lia.
Qed.

Lemma iter_shr_1_nonneg (p : positive) (mrs : shr_record) :
  (0 <= shr_m mrs)%Z -> (0 <= shr_m (iter_pos shr_1 p mrs))%Z.
Proof.
  revert mrs. induction p as [p IH|p IH|]; intros mrs H; cbn [iter_pos].
  - apply IH, IH, shr_1_nonneg, H.
  - apply IH, IH, H.
  - apply shr_1_nonneg, H.
Qed.

Lemma shr_fexp_nonneg (m e : Z) (l : location) :
  (0 <= m)%Z -> (0 <= shr_m (fst (shr_fexp prec emax m e l)))%Z.
Proof.
  intros H. unfold shr_fexp, shr.
  assert (H0 : (0 <= shr_m (shr_record_of_loc m l))%Z)
    by (destruct l as [|[| |]]; exact H).
  destruct (fexp prec emax (Zdigits2 m + e) - e)%Z; cbn [fst];
    [exact H0 | apply iter_shr_1_nonneg; exact H0 | exact H0].
Qed.

Lemma round_nearest_even_nonneg (m : Z) (l : location) :
  (0 <= m)%Z -> (0 <= round_nearest_even m l)%Z.
Proof.
  intros H. destruct l as [|[| |]]; cbn; try exact H; [|lia].
  destruct (Z.even m); lia.
Qed.

(** Rounding a mantissa that is not negative never gives NaN. *)
Lemma binary_round_aux_notNaN (sx : bool) (m e : Z) (l : location) :
  (0 <= m)%Z -> notNaN (binary_round_aux prec emax sx m e l) = true.
Proof.
  intros H. unfold binary_round_aux.
  pose proof (shr_fexp_nonneg m e l H) as H1.
  destruct (shr_fexp prec emax m e l) as [mrs' e'] eqn:E1. cbn [fst] in H1.
  pose proof (shr_fexp_nonneg
                (round_nearest_even (shr_m mrs') (loc_of_shr_record mrs')) e' loc_Exact
                (round_nearest_even_nonneg _ _ H1)) as H2.
  destruct (shr_fexp prec emax _ e' loc_Exact) as [mrs'' e''] eqn:E2. cbn [fst] in H2.
  destruct (shr_m mrs'') as [|p|p]; [reflexivity | | lia].
  destruct (e'' <=? emax - prec)%Z; reflexivity.
Qed.

Lemma binary_normalize_notNaN (m e : Z) (szero : bool) :
  notNaN (binary_normalize prec emax m e szero) = true.
Proof.
  unfold binary_normalize, binary_round.
  destruct m as [|p|p]; [reflexivity | |];
    destruct (shl_align _ _ _) as [mz ez];
    apply binary_round_aux_notNaN; lia.
Qed.

Lemma SFmul_notNaN (x y : spec_float) :
  finite x = true -> finite y = true -> notNaN (SF64mul x y) = true.
Proof.
  destruct x, y; cbn; try discriminate; try reflexivity.
  intros _ _. apply binary_round_aux_notNaN. lia.
Qed.

Lemma SFadd_notNaN (x y : spec_float) :
  notNaN x = true -> finite y = true -> notNaN (SF64add x y) = true.
Proof.
  destruct x as [sx|sx| |sx mx ex], y as [sy|sy| |sy my ey]; cbn;
    try discriminate; try reflexivity.
  - destruct sx, sy; reflexivity.
  - intros _ _. apply binary_normalize_notNaN.
Qed.

Lemma SFdiv_notNaN (x : spec_float) (sy : bool) (my : positive) (ey : Z) :
  finite x = true -> notNaN (SF64div x (S754_finite sy my ey)) = true.
Proof.
  destruct x as [sx|sx| |sx mx ex]; cbn; try discriminate; try reflexivity.
  intros _. unfold SF64div, SFdiv.
  destruct (SFdiv_core_binary prec emax (Z.pos mx) ex (Z.pos my) ey) as [[mz ez] lz] eqn:E.
  apply binary_round_aux_notNaN.
  unfold SFdiv_core_binary in E.
  destruct (Z.div_eucl _ (Z.pos my)) as [q r] eqn:Ed in E.
  injection E as <- _ _.
  match type of Ed with Z.div_eucl ?a ?b = _ =>
    pose proof (Z.div_eucl_eq a b ltac:(lia)) as Heq;
    pose proof (Z.mod_pos_bound a b ltac:(lia)) as Hr;
    assert (Ha : (0 <= a)%Z)
  end.
  { destruct (ex - ey - _)%Z; try lia. apply Z.shiftl_nonneg. lia. }
  unfold Z.modulo in Hr. rewrite Ed in Heq, Hr. nia.
Qed.

Lemma mul_comm (x y : float) : (x * y = y * x)%float.
Proof.
  apply Prim2SF_inj. rewrite !mul_spec.
  destruct (Prim2SF x) as [sx|sx| |sx mx ex], (Prim2SF y) as [sy|sy| |sy my ey];
    cbn; rewrite ?(xorb_comm sx sy); try reflexivity.
  rewrite (Pos.mul_comm mx my), (Z.add_comm ex ey). reflexivity.
Qed.

(** ** Comparisons *)

Lemma SFcompare_refl (x : spec_float) :
  notNaN x = true -> SFcompare x x = Some Eq.
Proof.
  destruct x as [s|s| |s m e]; cbn; try discriminate; try reflexivity; intros _.
  - destruct s; reflexivity.
  - rewrite Z.compare_refl, Pos.compare_cont_refl. destruct s; reflexivity.
Qed.

Lemma is_nan_spec (x : float) : is_nan x = negb (notNaN (Prim2SF x)).
Proof.
  unfold is_nan. rewrite eqb_spec. unfold SFeqb.
  destruct (notNaN (Prim2SF x)) eqn:E.
  - rewrite SFcompare_refl by exact E. reflexivity.
  - destruct (Prim2SF x); try discriminate E. reflexivity.
Qed.

Lemma SFcompare_antisym (a b : spec_float) :
  SFcompare b a = match SFcompare a b with
                  | Some c => Some (CompOpp c)
                  | None => None
                  end.
Proof.
  destruct a as [sa|sa| |sa ma ea], b as [sb|sb| |sb mb eb]; cbn;
    try reflexivity;
    try (destruct sa; reflexivity); try (destruct sb; reflexivity);
    try (destruct sa, sb; reflexivity).
  change (Pos.compare_cont Eq mb ma) with (Pos.compare mb ma).
  change (Pos.compare_cont Eq ma mb) with (Pos.compare ma mb).
  rewrite (Z.compare_antisym ea eb), (Pos.compare_antisym ma mb).
  destruct sa, sb; try reflexivity;
    destruct (ea ?= eb)%Z; cbn; try reflexivity;
    destruct (ma ?= mb)%positive; reflexivity.
Qed.

Lemma ltb_leb (a b : float) : (a <? b)%float = true -> (a <=? b)%float = true.
Proof.
  rewrite ltb_spec, leb_spec. unfold SFltb, SFleb.
  destruct (SFcompare (Prim2SF a) (Prim2SF b)) as [[| |]|]; try discriminate.
  reflexivity.
Qed.

Lemma not_ltb_leb (a b : float) :
  notNaN (Prim2SF a) = true -> notNaN (Prim2SF b) = true ->
  (b <? a)%float = false -> (a <=? b)%float = true.
Proof.
  rewrite ltb_spec, leb_spec. unfold SFltb, SFleb.
  rewrite (SFcompare_antisym (Prim2SF a) (Prim2SF b)).
  destruct (Prim2SF a) as [sa|sa| |sa ma ea], (Prim2SF b) as [sb|sb| |sb mb eb];
    try discriminate; intros _ _;
    match goal with
    | |- context [SFcompare ?u ?v] => destruct (SFcompare u v) as [[| |]|] eqn:E
    end; cbn; try discriminate; try reflexivity;
    cbn in E; try discriminate E;
    try (destruct sa; discriminate E); try (destruct sb; discriminate E);
    try (destruct sa, sb; discriminate E).
Qed.

(** ** The clamp *)

Lemma SF_0 : Prim2SF 0 = S754_zero false.
Proof. vm_compute. reflexivity. Qed.

Lemma SF_100 : Prim2SF 100 = S754_finite false 7036874417766400 (-46).
Proof. vm_compute. reflexivity. Qed.

Lemma is_nan_0 : is_nan 0 = false.
Proof. vm_compute. reflexivity. Qed.

Lemma is_nan_100 : is_nan 100 = false.
Proof. vm_compute. reflexivity. Qed.

Lemma classify_100 : classify 100 = PNormal.
Proof. vm_compute. reflexivity. Qed.

Lemma classify_0 : classify 0 = PZero.
Proof. vm_compute. reflexivity. Qed.

Lemma inRange_notNaN (x : float) : inRange x = true -> finite (Prim2SF x) = true.
Proof.
  unfold inRange. rewrite !leb_spec, SF_0, SF_100.
  destruct (Prim2SF x) as [s|s| |s m e]; try reflexivity;
    try (destruct s; discriminate); discriminate.
Qed.

Lemma clamp_inRange (x : float) :
  notNaN (Prim2SF x) = true -> inRange (clamp x 0 100) = true.
Proof.
  intros Hx.
  assert (Nx : is_nan x = false) by (rewrite is_nan_spec, Hx; reflexivity).
  assert (N100 : notNaN (Prim2SF 100) = true) by (rewrite SF_100; reflexivity).
  assert (N0 : notNaN (Prim2SF 0) = true) by (rewrite SF_0; reflexivity).
  assert (Hmax : forall y, notNaN (Prim2SF y) = true -> (y <=? 100)%float = true ->
                           inRange (Math_max 0 y) = true).
  { intros y Ny Hy.
    assert (Nn : is_nan y = false) by (rewrite is_nan_spec, Ny; reflexivity).
    assert (R0 : inRange 0 = true) by (vm_compute; reflexivity).
    unfold Math_max. rewrite is_nan_0, Nn. cbn [orb].
    destruct (0 <? y)%float eqn:E1.
    - unfold inRange. rewrite (ltb_leb _ _ E1), Hy. reflexivity.
    - destruct (y <? 0)%float; [exact R0|]. rewrite classify_0. exact R0. }
  assert (R100 : inRange (Math_max 0 100) = true) by (vm_compute; reflexivity).
  unfold clamp, Math_min. rewrite is_nan_100, Nx. cbn [orb].
  destruct (100 <? x)%float eqn:E1; [exact R100|].
  assert (Hle : (x <=? 100)%float = true) by (apply not_ltb_leb; assumption).
  destruct (x <? 100)%float; [apply Hmax; assumption|].
  rewrite classify_100. apply Hmax; assumption.
Qed.

(** ** The rounding to two decimals *)

Lemma digits2_pos_bound (m : positive) :
  (Z.pos m < 2 ^ Z.pos (digits2_pos m))%Z.
Proof.
  induction m as [m IH|m IH|]; cbn [digits2_pos].
  - rewrite Pos2Z.inj_succ, Z.pow_succ_r by lia. lia.
  - rewrite Pos2Z.inj_succ, Z.pow_succ_r by lia. lia.
  - reflexivity.
Qed.

Lemma of_hundredths_inRange (n : Z) :
  (0 <= n <= 10000)%Z -> inRange (of_Z n / 100) = true.
Proof.
  intros Hn.
  assert (H : forallb (fun k => inRange (of_Z (Z.of_nat k) / 100)) (seq 0 (Z.to_nat 10001)) = true)
    by (vm_compute; reflexivity).
  rewrite forallb_forall in H.
  specialize (H (Z.to_nat n)). rewrite Z2Nat.id in H by lia.
  apply H. apply in_seq. lia.
Qed.

Lemma toFixed2_inRange (x : float) :
  inRange x = true -> inRange (toFixed2 x) = true.
Proof.
  intros Hx. pose proof (Prim2SF_valid x) as Hv.
  assert (R0 : inRange 0 = true) by (vm_compute; reflexivity).
  unfold toFixed2. unfold inRange in Hx. rewrite !leb_spec, SF_0, SF_100 in Hx.
  destruct (Prim2SF x) as [s|s| |s m e] eqn:E.
  - exact R0.
  - destruct s; discriminate Hx.
  - discriminate Hx.
  - destruct s; [discriminate Hx|].
    unfold SFleb, SFcompare in Hx. cbn [andb] in Hx.
    (* the mantissa has at most 53 digits *)
    cbn [SpecFloat.valid_binary] in Hv. unfold bounded, canonical_mantissa in Hv.
    apply andb_prop in Hv as [Hc _]. apply Z.eqb_eq in Hc.
    unfold fexp, emin in Hc. change prec with 53%Z in Hc. change emax with 1024%Z in Hc.
    pose proof (digits2_pos_bound m) as Hm.
    assert (Hd : (Z.pos (digits2_pos m) <= 53)%Z) by lia.
    assert (Hm53 : (Z.pos m < 2 ^ 53)%Z).
    { eapply Z.lt_le_trans; [exact Hm|]. apply Z.pow_le_mono_r; lia. }
    (* the exponent is at most -46 *)
    assert (He : (e < -46 \/ (e = -46 /\ Z.pos m <= 7036874417766400))%Z).
    { destruct (e ?= -46)%Z eqn:Ec.
      - apply Z.compare_eq in Ec. right. split; [exact Ec|].
        destruct (Pos.compare_cont Eq m 7036874417766400) eqn:Em; try discriminate Hx.
        + apply Pos.compare_eq in Em. rewrite Em. apply Z.le_refl.
        + apply Z.lt_le_incl. exact (proj1 (Pos.compare_lt_iff m _) Em).
      - left. apply Z.compare_lt_iff. exact Ec.
      - discriminate Hx. }
    replace (47 <=? Z.pos (digits2_pos m) + e)%Z with false
      by (symmetry; apply Z.leb_gt; lia).
    apply of_hundredths_inRange.
    destruct e as [|pe|k]; try lia.
    unfold hundredths.
    assert (HP : (2 ^ 46 <= 2 ^ Z.pos k)%Z) by (apply Z.pow_le_mono_r; lia).
    assert (HP' : (Z.pos k = 46 \/ 2 ^ 47 <= 2 ^ Z.pos k)%Z).
    { destruct (Z.eq_dec (Z.pos k) 46) as [Ek | Ek]; [left; exact Ek|].
      right. apply Z.pow_le_mono_r; lia. }
    replace (2 ^ 46)%Z with 70368744177664%Z in HP by (vm_compute; reflexivity).
    replace (2 ^ 47)%Z with 140737488355328%Z in HP' by (vm_compute; reflexivity).
    replace (2 ^ 53)%Z with 9007199254740992%Z in Hm53 by (vm_compute; reflexivity).
    set (P := (2 ^ Z.pos k)%Z) in *.
    split.
    + apply Z.div_pos; lia.
    + apply Z.lt_succ_r. apply Z.div_lt_upper_bound; [lia|].
      destruct HP' as [Ek | HP'].
      * assert (P = 70368744177664%Z) by (subst P; rewrite Ek; vm_compute; reflexivity).
        lia.
      * lia.
Qed.

(** ** The yearly score is a finite number *)

Lemma suiYunPts_values (e : AHIEngine.t) (el : Element) (a : Adequacy) :
  In (AHIEngine.suiYunPts e el a) suiYunValues.
Proof.
  unfold AHIEngine.suiYunPts, suiYunValues.
  repeat match goal with
         | |- context [if ?c then _ else _] => destruct c
         end; cbn; tauto.
Qed.

Lemma sqPts1_values (e : AHIEngine.t) (st zq : QiType.t) :
  In (AHIEngine.sqPts1 e st zq) sqPts1Values.
Proof.
  unfold AHIEngine.sqPts1, sqPts1Values.
  repeat match goal with
         | |- context [if ?c then _ else _] => destruct c
         end; cbn; tauto.
Qed.

Lemma stepPtsSum_values (e : AHIEngine.t) (s : HeavenlyStem.t) :
  In (AHIEngine.stepPtsSum e (guestElements s)) stepSumValues.
Proof.
  rewrite stepPtsSum_guestElements.
  unfold AHIEngine.stepPtsSum, AHIEngine.stepPts, WuYunLiuQi.getHostFortunes,
    stepSumValues.
  destruct (AHIEngine.birthHostYun e), (AHIEngine.weakZang e); cbn; tauto.
Qed.

(** What [calculateYearAhi] returns: the total of the four parts of the
    year, each one of its values. *)
Lemma double_calculateYearAhi_Ok_inv getExactJieqi stemFromYear branchFromYear
      (e : AHIEngine.t) (targetYear : Z) (v : float) :
  calculateYearAhi getExactJieqi stemFromYear branchFromYear e targetYear = Ok v ->
  exists s b,
    v = totalRawCollision
          (AHIEngine.suiYunPts e (HeavenlyStem.element s) (HeavenlyStem.adequacy s))
          (AHIEngine.stepPtsSum e (guestElements s))
          (AHIEngine.sqPts1 e (celestial (effectOf b)) (terrestrial (effectOf b)))
          (AHIEngine.sqPts2 e (celestial (effectOf b)) (EarthlyBranch.element b)).
Proof.
  unfold calculateYearAhi. intros H.
  destruct (getExactJieqi targetYear DaHan) as [dt|]; cbn [bind] in H; [|discriminate].
  destruct (WuYunLiuQi.new getExactJieqi stemFromYear branchFromYear dt)
    as [flowYear|]; cbn [bind] in H; [|discriminate].
  destruct (WuYunLiuQi.stem flowYear) as [s|] eqn:Es; cbn [defined bind] in H;
    [|discriminate].
  destruct (WuYunLiuQi.branch flowYear) as [b|] eqn:Eb.
  - rewrite (getClimaticEffect_table flowYear b Eb) in H. cbn [defined bind] in H.
    unfold WuYunLiuQi.getGuestFortunes in H. rewrite Es in H.
    cbn [defined bind] in H. injection H as <-.
    exists s, b. reflexivity.
  - rewrite (getClimaticEffect_undefined flowYear Eb) in H. discriminate.
Qed.

(** The two embeddings of [calculateYearAhi] take the same path: they
    fail together, with the same error, and where they return they return
    the double and the exact total of the same four parts. *)
Lemma calculateYearAhi_both getExactJieqi stemFromYear branchFromYear
      (e : AHIEngine.t) (targetYear : Z) :
  match calculateYearAhi getExactJieqi stemFromYear branchFromYear e targetYear,
        AHIEngine.calculateYearAhi getExactJieqi stemFromYear branchFromYear
          e targetYear with
  | Ok v, Ok q =>
      exists s b,
        let suiYunPts :=
          AHIEngine.suiYunPts e (HeavenlyStem.element s) (HeavenlyStem.adequacy s) in
        let stepPtsSum := AHIEngine.stepPtsSum e (guestElements s) in
        let sqPts1 :=
          AHIEngine.sqPts1 e (celestial (effectOf b)) (terrestrial (effectOf b)) in
        let sqPts2 :=
          AHIEngine.sqPts2 e (celestial (effectOf b)) (EarthlyBranch.element b) in
        v = totalRawCollision suiYunPts stepPtsSum sqPts1 sqPts2
        /\ q = exactCollision suiYunPts stepPtsSum sqPts1 sqPts2
  | Err e1, Err e2 => e1 = e2
  | _, _ => False
  end.
Proof.
  unfold calculateYearAhi, AHIEngine.calculateYearAhi.
  destruct (getExactJieqi targetYear DaHan) as [dt|]; cbn [bind]; [|reflexivity].
  destruct (WuYunLiuQi.new getExactJieqi stemFromYear branchFromYear dt)
    as [flowYear|]; cbn [bind]; [|reflexivity].
  destruct (WuYunLiuQi.stem flowYear) as [s|] eqn:Es; cbn [defined bind];
    [|reflexivity].
  destruct (WuYunLiuQi.branch flowYear) as [b|] eqn:Eb.
  - rewrite (getClimaticEffect_table flowYear b Eb). cbn [defined bind].
    unfold WuYunLiuQi.getGuestFortunes. rewrite Es. cbn [defined bind].
    exists s, b. split; reflexivity.
  - rewrite (getClimaticEffect_undefined flowYear Eb). cbn [defined bind].
    reflexivity.
Qed.

Lemma nearExact_all (a st q1 q2 : Z) :
  In a suiYunValues -> In st stepSumValues ->
  In q1 sqPts1Values -> In q2 sqPts2Values ->
  nearExact a st q1 q2 = true.
Proof.
  assert (Hall : forallb (fun a =>
            forallb (fun st =>
              forallb (fun q1 =>
                forallb (fun q2 => nearExact a st q1 q2) sqPts2Values)
              sqPts1Values)
            stepSumValues)
          suiYunValues = true) by (vm_compute; reflexivity).
  intros Ha Hst Hq1 Hq2.
  rewrite forallb_forall in Hall. specialize (Hall a Ha).
  rewrite forallb_forall in Hall. specialize (Hall st Hst).
  rewrite forallb_forall in Hall. specialize (Hall q1 Hq1).
  rewrite forallb_forall in Hall. exact (Hall q2 Hq2).
Qed.

(** The yearly score in doubles and the exact yearly score are computed
    for the same years, and they differ by at most 10^-14. *)
Lemma calculateYearAhi_near_exact getExactJieqi stemFromYear branchFromYear
      (e : AHIEngine.t) (targetYear : Z) :
  (forall v,
     calculateYearAhi getExactJieqi stemFromYear branchFromYear e targetYear = Ok v ->
     exists q,
       AHIEngine.calculateYearAhi getExactJieqi stemFromYear branchFromYear
         e targetYear = Ok q
       /\ (- (1 # 100000000000000) <= exactValue v - q <= 1 # 100000000000000)%Q)
  /\ (forall err,
        calculateYearAhi getExactJieqi stemFromYear branchFromYear e targetYear
        = Err err
        <-> AHIEngine.calculateYearAhi getExactJieqi stemFromYear branchFromYear
              e targetYear = Err err).
Proof.
  pose proof (calculateYearAhi_both getExactJieqi stemFromYear branchFromYear
                e targetYear) as H.
  destruct (calculateYearAhi getExactJieqi stemFromYear branchFromYear e targetYear)
    as [v|e1];
    destruct (AHIEngine.calculateYearAhi getExactJieqi stemFromYear branchFromYear
                e targetYear) as [q|e2]; try contradiction.
  - split; [|intros err; split; discriminate].
    intros v' Hv. injection Hv as <-. exists q. split; [reflexivity|].
    destruct H as (s & b & -> & ->).
    pose proof (nearExact_all _ _ _ _
                  (suiYunPts_values e (HeavenlyStem.element s) (HeavenlyStem.adequacy s))
                  (stepPtsSum_values e s)
                  (sqPts1_values e (celestial (effectOf b)) (terrestrial (effectOf b)))
                  (eq_ind_r (fun z => In z sqPts2Values)
                     (qiPart2_values _ _ _)
                     (sqPts2_chain e (celestial (effectOf b)) (EarthlyBranch.element b))))
      as Hn.
    unfold nearExact in Hn. apply andb_prop in Hn as [H1 H2].
    apply Qle_bool_iff in H1, H2. split; assumption.
  - subst e2. split; [intros v Hv; discriminate|].
    intros err. split; intros Hx; injection Hx as <-; reflexivity.
Qed.

Lemma calculateYearAhi_finite getExactJieqi stemFromYear branchFromYear
      (e : AHIEngine.t) (targetYear : Z) (v : float) :
  calculateYearAhi getExactJieqi stemFromYear branchFromYear e targetYear = Ok v ->
  finite (Prim2SF v) = true.
Proof.
  intros H. destruct (double_calculateYearAhi_Ok_inv _ _ _ _ _ _ H) as (s & b & ->).
  assert (Hall : forallb (fun v => finite (Prim2SF v)) yearlyScores = true)
    by (vm_compute; reflexivity).
  rewrite forallb_forall in Hall. apply Hall.
  unfold yearlyScores.
  apply in_flat_map. eexists. split; [apply suiYunPts_values|].
  apply in_flat_map. eexists. split; [apply stepPtsSum_values|].
  apply in_flat_map. eexists. split; [apply sqPts1_values|].
  apply in_map. rewrite sqPts2_chain. apply qiPart2_values.
Qed.

(** ** The loop *)

Section Kline.

Variable getExactJieqi : Z -> SolarTerm -> result Z.
Variable stemFromYear : Z -> option HeavenlyStem.t.
Variable branchFromYear : Z -> option EarthlyBranch.t.
Variable engine : AHIEngine.t.
Variable year : Z.
Variable impact : Z -> float.

Lemma double_klineLoop_points (todo : list Z) (currentHealth : float)
      (acc : list KlinePoint) :
  (forall a, In a todo ->
     calculateYearAhi getExactJieqi stemFromYear branchFromYear
       engine (year + a - 1) = Ok (impact a)) ->
  klineLoop getExactJieqi stemFromYear branchFromYear engine year
    todo currentHealth acc
  = Ok (acc ++ points engine impact todo currentHealth).
Proof.
  revert currentHealth acc.
  induction todo as [|age rest IH]; intros currentHealth acc Himp.
  - cbn. now rewrite app_nil_r.
  - cbn [klineLoop points]. unfold klineStep.
    rewrite (Himp age (or_introl eq_refl)). cbn [bind].
    rewrite IH by (intros a Ha; apply Himp; right; exact Ha).
    rewrite <- app_assoc. reflexivity.
Qed.

Lemma double_points_length (todo : list Z) (currentHealth : float) :
  length (points engine impact todo currentHealth) = length todo.
Proof.
  revert currentHealth. induction todo as [|age rest IH]; intros h; cbn;
    [reflexivity | now rewrite IH].
Qed.

Lemma double_points_nth (n k i : nat) :
  (i < n)%nat ->
  nth_error (points engine impact (map Z.of_nat (seq (S k) n))
                    (carried engine impact k)) i
  = Some (mkPoint (Z.of_nat (S (k + i)))
                  (toFixed2 (carried engine impact (k + i)))
                  (toFixed2 (carried engine impact (S (k + i))))).
Proof.
  revert k i. induction n as [|n IH]; intros k i Hi; [lia|].
  destruct i as [|i].
  - cbn [seq map points nth_error]. rewrite Nat.add_0_r. reflexivity.
  - cbn [seq map points nth_error].
    change (closeScore engine impact (carried engine impact k) (Z.of_nat (S k)))
      with (carried engine impact (S k)).
    rewrite IH by lia.
    replace (S k + i)%nat with (k + S i)%nat by lia. reflexivity.
Qed.

Lemma double_klineData_points :
  (forall a, 1 <= a <= 60 ->
     calculateYearAhi getExactJieqi stemFromYear branchFromYear
       engine (year + a - 1) = Ok (impact a)) ->
  klineData getExactJieqi stemFromYear branchFromYear engine year
  = Ok (points engine impact ages (of_Z (AHIEngine.baseScore engine))).
Proof.
  intros Himp. unfold klineData.
  rewrite double_klineLoop_points by (intros a Ha; apply Himp, ages_In; exact Ha).
  reflexivity.
Qed.

Lemma double_lifecycleDrift_drift (a : Z) : 1 <= a -> lifecycleDrift a = drift a.
Proof.
  intros H. unfold lifecycleDrift, drift.
  destruct (a <=? 20) eqn:E20; destruct (a <=? 40) eqn:E40;
    destruct (a <=? 50) eqn:E50;
    rewrite ?Z.leb_le, ?Z.leb_gt in *;
    repeat match goal with
      | |- context [(?x <=? ?y)%Z] =>
          let E := fresh "E" in
          destruct (x <=? y)%Z eqn:E; rewrite ?Z.leb_le, ?Z.leb_gt in E
      end; cbn [andb]; try reflexivity; lia.
Qed.

(** The carried health is the health of the specification: the product
    of two doubles does not depend on their order. *)
Lemma double_carried_health (n : nat) :
  carried engine impact n = health (of_Z (AHIEngine.baseScore engine)) impact n.
Proof.
  induction n as [|n IH]; [reflexivity|].
  cbn [carried health]. unfold closeScore, clamp.
  rewrite double_lifecycleDrift_drift by lia. rewrite IH.
  rewrite (mul_comm 0.6 (health _ _ n)).
  rewrite (mul_comm 0.4 (of_Z _)). reflexivity.
Qed.

Lemma lifecycleDrift_finite (a : Z) : finite (Prim2SF (lifecycleDrift a)) = true.
Proof.
  unfold lifecycleDrift.
  repeat match goal with
         | |- context [if ?c then _ else _] => destruct c
         end; vm_compute; reflexivity.
Qed.

(** One round of the loop keeps the health a number from 0 to 100. *)
Lemma closeScore_inRange (h : float) (a : Z) :
  In (AHIEngine.baseScore engine) [35; 40; 50; 52; 60; 68] ->
  inRange h = true ->
  finite (Prim2SF (impact a)) = true ->
  inRange (closeScore engine impact h a) = true.
Proof.
  intros Hb Hh Hi. unfold closeScore. apply (clamp_inRange _).
  rewrite !add_spec, mul_spec.
  apply SFadd_notNaN; [|apply lifecycleDrift_finite].
  apply SFadd_notNaN; [|exact Hi].
  apply SFadd_notNaN.
  - apply SFmul_notNaN; [apply inRange_notNaN; exact Hh | vm_compute; reflexivity].
  - cbn in Hb.
    destruct Hb as [<- | [<- | [<- | [<- | [<- | [<- | []]]]]]];
      vm_compute; reflexivity.
Qed.

Lemma carried_inRange (n : nat) :
  In (AHIEngine.baseScore engine) [35; 40; 50; 52; 60; 68] ->
  (forall a, 1 <= a <= Z.of_nat n -> finite (Prim2SF (impact a)) = true) ->
  inRange (carried engine impact n) = true.
Proof.
  intros Hb. induction n as [|n IH]; intros Hi.
  - cbn [carried]. cbn in Hb.
    destruct Hb as [<- | [<- | [<- | [<- | [<- | [<- | []]]]]]];
      vm_compute; reflexivity.
  - cbn [carried]. apply closeScore_inRange; [exact Hb | | apply Hi; lia].
    apply IH. intros a Ha. apply Hi. lia.
Qed.

End Kline.

Lemma double_allOk_impacts (calc : Z -> result float) (year : Z) :
  allOk calc year = true ->
  forall a, 1 <= a <= 60 -> calc (year + a - 1) = Ok (impactOf calc year a).
Proof.
  intros H a Ha. unfold allOk in H. rewrite forallb_forall in H.
  specialize (H a (proj2 (ages_In a) Ha)). unfold impactOf.
  destruct (calc (year + a - 1)); [reflexivity | discriminate].
Qed.

End DoubleFacts.

Section DoubleSeries.
Import Floats.

(** C1, as the code has it.  For an engine built for a birth date and a
    birth year whose sixty yearly collision scores are computed, the loop
    returns sixty points; the point of age a carries the age a, and its
    close is health(a) rounded to two decimals as [toFixed(2)] does, where
    health(0) is the natal base score and
    health(a) = clamp(0.6 * health(a-1) + 0.4 * baseScore + impact(a)
    + drift(a), 0, 100), every operation a rounded operation on doubles:
    the recurrence runs on the unrounded values, not on the emitted
    closes.  Every emitted close is a number from 0 to 100. *)
Theorem kline_close_recurrence getExactJieqi stemFromYear branchFromYear
        (birthDt : Z) (engine : AHIEngine.t) (year : Z) (impact : Z -> float) :
  AHIEngine.new getExactJieqi stemFromYear branchFromYear birthDt = Ok engine ->
  (forall a, 1 <= a <= 60 ->
     Double.calculateYearAhi getExactJieqi stemFromYear branchFromYear
       engine (year + a - 1) = Ok (impact a)) ->
  exists pts,
    Double.klineData getExactJieqi stemFromYear branchFromYear engine year = Ok pts
    /\ length pts = 60%nat
    /\ forall a : nat, (1 <= a <= 60)%nat ->
         let baseScore := Double.of_Z (AHIEngine.baseScore engine) in
         exists p,
           nth_error pts (a - 1) = Some p
           /\ Double.age p = Z.of_nat a
           /\ Double.close p = Double.toFixed2 (Double.health baseScore impact a)
           /\ Double.health baseScore impact a
              = Double.clamp (0.6 * Double.health baseScore impact (a - 1)
                              + 0.4 * baseScore
                              + impact (Z.of_nat a) + Double.drift (Z.of_nat a))%float
                             0 100
           /\ ((0 <=? Double.close p) && (Double.close p <=? 100))%float = true.
Proof.
  intros Hnew Himp.
  assert (Hb : In (AHIEngine.baseScore engine) [35; 40; 50; 52; 60; 68]).
  { rewrite (AHIEngine_new_baseScore _ _ _ _ _ Hnew). apply calcBaseScore_values. }
  eexists. split; [apply DoubleFacts.double_klineData_points; exact Himp|].
  split; [rewrite DoubleFacts.double_points_length; reflexivity|].
  intros a Ha baseScore. destruct a as [|n]; [lia|].
  replace (S n - 1)%nat with n by lia.
  eexists. split.
  - unfold ages.
    change (Double.of_Z (AHIEngine.baseScore engine))
      with (Double.carried engine impact 0).
    apply (DoubleFacts.double_points_nth engine impact 60 0 n). lia.
  - cbn [Double.age Double.close Nat.add]. split; [reflexivity|]. split; [|split].
    + f_equal. apply DoubleFacts.double_carried_health.
    + reflexivity.
    + apply DoubleFacts.toFixed2_inRange.
      apply (DoubleFacts.carried_inRange engine impact (S n) Hb).
      intros a Ha'.
      exact (DoubleFacts.calculateYearAhi_finite _ _ _ _ _ _ (Himp a ltac:(lia))).
Qed.

(** The sample series in doubles: the sixty yearly scores of a birth in
    1990 are computed. *)
Lemma sample_scores_computed :
  Double.allOk
    (Double.calculateYearAhi (ServerTs.getExactJieqi sampleAlmanac)
       HeavenlyStem.fromYear EarthlyBranch.fromYear sampleEngine) 1990 = true.
Proof. vm_compute. reflexivity. Qed.

Lemma sampleEngine_new :
  AHIEngine.new (ServerTs.getExactJieqi sampleAlmanac) HeavenlyStem.fromYear
    EarthlyBranch.fromYear (JSDate.make 1990 5 15 12 0 0) = Ok sampleEngine.
Proof. vm_compute. reflexivity. Qed.

Lemma kline_close_recurrence_witness :
  exists pts p,
    Double.klineData (ServerTs.getExactJieqi sampleAlmanac)
      HeavenlyStem.fromYear EarthlyBranch.fromYear sampleEngine 1990 = Ok pts
    /\ length pts = 60%nat
    /\ nth_error pts (3 - 1) = Some p
    /\ Double.close p
       = Double.toFixed2
           (Double.health (Double.of_Z (AHIEngine.baseScore sampleEngine))
              (Double.impactOf
                 (Double.calculateYearAhi (ServerTs.getExactJieqi sampleAlmanac)
                    HeavenlyStem.fromYear EarthlyBranch.fromYear sampleEngine)
                 1990) 3)
    /\ ((0 <=? Double.close p) && (Double.close p <=? 100))%float = true.
Proof.
  destruct (kline_close_recurrence (ServerTs.getExactJieqi sampleAlmanac)
              HeavenlyStem.fromYear EarthlyBranch.fromYear
              (JSDate.make 1990 5 15 12 0 0) sampleEngine 1990
              (Double.impactOf
                 (Double.calculateYearAhi (ServerTs.getExactJieqi sampleAlmanac)
                    HeavenlyStem.fromYear EarthlyBranch.fromYear sampleEngine)
                 1990))
    as (pts & Hpts & Hlen & Hall).
  - exact sampleEngine_new.
  - apply DoubleFacts.double_allOk_impacts. exact sample_scores_computed.
  - destruct (Hall 3%nat ltac:(lia)) as (p & Hp & _ & Hclose & _ & Hrange).
    exists pts, p. repeat split; assumption.
Defined.

(** C1 as stated fails at the third point of the series of a birth on the
    15th of June 1990: the second point closes at 70.89, the formula
    applied to that close gives 79.094000000000008, and the third point
    closes at 79.09. *)
Lemma kline_close_counterexample :
  exists pts p2 p3 impact3,
    Double.klineData (ServerTs.getExactJieqi sampleAlmanac)
      HeavenlyStem.fromYear EarthlyBranch.fromYear sampleEngine 1990 = Ok pts
    /\ nth_error pts 1 = Some p2
    /\ nth_error pts 2 = Some p3
    /\ Double.calculateYearAhi (ServerTs.getExactJieqi sampleAlmanac)
         HeavenlyStem.fromYear EarthlyBranch.fromYear sampleEngine 1992 = Ok impact3
    /\ Double.close p2 = 70.89%float
    /\ Double.close p3 = 79.09%float
    /\ Double.clamp (0.6 * Double.close p2
                     + 0.4 * Double.of_Z (AHIEngine.baseScore sampleEngine)
                     + impact3 + Double.drift 3)%float 0 100
       = 79.094000000000008%float
    /\ (Double.close p3
        =? Double.clamp (0.6 * Double.close p2
                         + 0.4 * Double.of_Z (AHIEngine.baseScore sampleEngine)
                         + impact3 + Double.drift 3) 0 100)%float = false.
Proof.
  eexists. eexists. eexists. eexists.
  split.
  { apply (DoubleFacts.double_klineData_points (ServerTs.getExactJieqi sampleAlmanac)
             HeavenlyStem.fromYear EarthlyBranch.fromYear sampleEngine 1990
             (Double.impactOf
                (Double.calculateYearAhi (ServerTs.getExactJieqi sampleAlmanac)
                   HeavenlyStem.fromYear EarthlyBranch.fromYear sampleEngine)
                1990)).
    apply DoubleFacts.double_allOk_impacts. exact sample_scores_computed. }
  split; [reflexivity|]. split; [reflexivity|].
  split; [vm_compute; reflexivity|].
  split; [vm_compute; reflexivity|].
  split; [vm_compute; reflexivity|].
  split; vm_compute; reflexivity.
Qed.

(** The opens in doubles: the first point opens at the natal base score,
    every later point at the close of the point before, as emitted. *)
Lemma double_open_is_previous_close getExactJieqi stemFromYear branchFromYear
      (engine : AHIEngine.t) (year : Z) (impact : Z -> float) :
  In (AHIEngine.baseScore engine) [35; 40; 50; 52; 60; 68] ->
  (forall a, 1 <= a <= 60 ->
     Double.calculateYearAhi getExactJieqi stemFromYear branchFromYear
       engine (year + a - 1) = Ok (impact a)) ->
  exists pts,
    Double.klineData getExactJieqi stemFromYear branchFromYear engine year = Ok pts
    /\ (exists p1,
          nth_error pts 0 = Some p1
          /\ Double.age p1 = 1
          /\ Double.open p1 = Double.of_Z (AHIEngine.baseScore engine))
    /\ forall a : nat, (2 <= a <= 60)%nat ->
         exists p q,
           nth_error pts (a - 1) = Some p
           /\ nth_error pts (a - 2) = Some q
           /\ Double.age p = Z.of_nat a
           /\ Double.age q = Z.of_nat (a - 1)
           /\ Double.open p = Double.close q.
Proof.
  intros Hb Himp. eexists. split; [apply DoubleFacts.double_klineData_points; exact Himp|].
  change (Double.of_Z (AHIEngine.baseScore engine))
    with (Double.carried engine impact 0) at 1.
  unfold ages. split.
  - eexists. split; [apply (DoubleFacts.double_points_nth engine impact 60 0 0); lia|].
    cbn [Double.age Double.open Nat.add Double.carried]. split; [reflexivity|].
    cbn in Hb.
    destruct Hb as [<- | [<- | [<- | [<- | [<- | [<- | []]]]]]];
      vm_compute; reflexivity.
  - intros a Ha. destruct a as [|[|n]]; [lia | lia |].
    replace (S (S n) - 1)%nat with (S n) by lia.
    replace (S (S n) - 2)%nat with n by lia.
    eexists. eexists.
    split; [apply (DoubleFacts.double_points_nth engine impact 60 0 (S n)); lia|].
    split; [apply (DoubleFacts.double_points_nth engine impact 60 0 n); lia|].
    cbn [Double.age Double.open Double.close Nat.add]. repeat split.
Qed.

(** Where the exact total lies half-way between two hundredths the
    doubles decide.  A birth on the 28th of January 1992: the first close
    is 54.72 in doubles, where the first round of the loop in exact
    arithmetic gives 54.725 and rounds it to 54.73.  A birth on the 28th of May 1909: 34.73 in doubles, 34.74
    from the exact 34.735. *)
Lemma closes_at_ties :
  (exists e pts p pQ hQ,
     ServerTs.AHIEngine_new sampleAlmanac (JSDate.make 1992 0 28 12 0 0) = Ok e
     /\ Double.klineData (ServerTs.getExactJieqi sampleAlmanac)
          HeavenlyStem.fromYear EarthlyBranch.fromYear e 1992 = Ok pts
     /\ nth_error pts 0 = Some p
     /\ Double.close p = 54.72%float
     /\ klineStep (ServerTs.getExactJieqi sampleAlmanac)
          HeavenlyStem.fromYear EarthlyBranch.fromYear e 1992 1
          (inject_Z (AHIEngine.baseScore e)) = Ok (pQ, hQ)
     /\ (hQ == 54.725)%Q
     /\ (close pQ == 54.73)%Q)
  /\ (exists e pts p pQ hQ,
        ServerTs.AHIEngine_new sampleAlmanac (JSDate.make 1909 4 28 12 0 0) = Ok e
        /\ Double.klineData (ServerTs.getExactJieqi sampleAlmanac)
             HeavenlyStem.fromYear EarthlyBranch.fromYear e 1909 = Ok pts
        /\ nth_error pts 0 = Some p
        /\ Double.close p = 34.73%float
        /\ klineStep (ServerTs.getExactJieqi sampleAlmanac)
             HeavenlyStem.fromYear EarthlyBranch.fromYear e 1909 1
             (inject_Z (AHIEngine.baseScore e)) = Ok (pQ, hQ)
        /\ (hQ == 34.735)%Q
        /\ (close pQ == 34.74)%Q).
Proof.
  split.
  - eexists. eexists. eexists. eexists. eexists.
    split; [vm_compute; reflexivity|].
    split; [vm_compute; reflexivity|].
    split; [reflexivity|].
    split; [vm_compute; reflexivity|].
    split; [vm_compute; reflexivity|].
    split; vm_compute; reflexivity.
  - eexists. eexists. eexists. eexists. eexists.
    split; [vm_compute; reflexivity|].
    split; [vm_compute; reflexivity|].
    split; [reflexivity|].
    split; [vm_compute; reflexivity|].
    split; [vm_compute; reflexivity|].
    split; vm_compute; reflexivity.
Qed.

End DoubleSeries.

(* ================================================================== *)
(** * The flow year of a target year                                   *)
(* ================================================================== *)

(** C10, evaluated at the target year 50.  In [server.ts], with a library
    of civil dates whose January reports the Great Cold of the year, the
    flow-year profile of a target year outside 0..99 is the profile of
    that year, and the score of the year is computed from its stem and
    branch.  For the target year 50, the first year of the series of a
    request with the year 50, the located Great Cold is built by
    [new Date(50, 0, 20, ...)], a date of 1950: the profile inside
    [calculateYearAhi(50)] has the movement-year 1950 and the branch Yin
    where the year 50 has the branch Xu, and the score of the year is -8
    where the stem and the branch of the year 50 give -397/40.  The session
    variant returns the same score. *)
Theorem flow_year_two_digit_target :
  (forall alm targetYear o,
     Almanac_wf alm ->
     ~ (0 <= targetYear <= 99) ->
     alm targetYear 1 15 DaHan = Found o ->
     getYear o = targetYear ->
     exists dt flowYear,
       ServerTs.getExactJieqi alm targetYear DaHan = Ok dt
       /\ ServerTs.WuYunLiuQi_new alm dt = Ok flowYear
       /\ WuYunLiuQi.wuyunYear flowYear = targetYear
       /\ WuYunLiuQi.stem flowYear = HeavenlyStem.fromYear targetYear
       /\ WuYunLiuQi.branch flowYear = EarthlyBranch.fromYear targetYear
       /\ forall (e : AHIEngine.t) s b,
            HeavenlyStem.fromYear targetYear = Some s ->
            EarthlyBranch.fromYear targetYear = Some b ->
            exists v,
              ServerTs.calculateYearAhi alm e targetYear = Ok v
              /\ (v == collision e s b)%Q)
  /\ sampleAlmanac 50 1 15 DaHan = Found (mkSolar 50 1 20 12 0 0)
  /\ ServerTs.getExactJieqi sampleAlmanac 50 DaHan = Ok (JSDate.make 50 0 20 12 0 0)
  /\ JSDate.getFullYear (JSDate.make 50 0 20 12 0 0) = 1950
  /\ ServerTs.WuYunLiuQi_new sampleAlmanac (JSDate.make 50 0 20 12 0 0)
     = Ok (WuYunLiuQi.mk (JSDate.make 50 0 20 12 0 0) 1950
             (Some HeavenlyStem.GENG) (Some EarthlyBranch.YIN))
  /\ HeavenlyStem.fromYear 50 = Some HeavenlyStem.GENG
  /\ EarthlyBranch.fromYear 50 = Some EarthlyBranch.XU
  /\ exists engine v,
       ServerTs.AHIEngine_new sampleAlmanac (JSDate.make 50 5 15 12 0 0) = Ok engine
       /\ ServerTs.calculateYearAhi sampleAlmanac engine 50 = Ok v
       /\ Session.calculateYearAhi sampleAlmanac engine 50 = Ok v
       /\ (v == collision engine HeavenlyStem.GENG EarthlyBranch.YIN)%Q
       /\ (v == -8)%Q
       /\ (collision engine HeavenlyStem.GENG EarthlyBranch.XU == - (397 # 40))%Q
       /\ ~ (v == collision engine HeavenlyStem.GENG EarthlyBranch.XU)%Q.
Proof.
  split.
  { intros alm targetYear o Hwf Hy Hf Ho.
    destruct (locators_first_probe alm targetYear DaHan o ltac:(cbn; tauto) Hf Ho)
      as [Hloc _].
    assert (Hyear : JSDate.getFullYear (toDate o) = targetYear).
    { unfold toDate. rewrite Ho. apply JSDateFacts.getFullYear_make; [exact Hy|].
      exact (Hwf _ _ _ _ _ Hf). }
    destruct (flow_year_of_located_date (ServerTs.getExactJieqi alm)
                HeavenlyStem.fromYear EarthlyBranch.fromYear targetYear (toDate o)
                Hloc Hyear)
      as (flowYear & Hnew & Hw & Hs & Hb & _ & Hscore).
    exists (toDate o), flowYear.
    split; [exact Hloc|]. split; [exact Hnew|]. split; [exact Hw|].
    split; [exact Hs|]. split; [exact Hb | exact Hscore]. }
  split; [reflexivity|].
  split; [vm_compute; reflexivity|].
  split; [vm_compute; reflexivity|].
  split; [vm_compute; reflexivity|].
  split; [reflexivity|]. split; [reflexivity|].
  eexists. eexists.
  split; [vm_compute; reflexivity|].
  split; [vm_compute; reflexivity|].
  split; [vm_compute; reflexivity|].
  split; [vm_compute; reflexivity|].
  split; [vm_compute; reflexivity|].
  split; [vm_compute; reflexivity|].
  intros H. vm_compute in H. discriminate H.
Qed.
